(** * sectool: the daemon's local transport, replay pipeline and OAST handlers

    A shallow embedding of the Go sources of the [service] package
    (socket security, the MCP gateway handlers, the OAST handlers) and of
    the helpers they call, followed by the properties the specification
    states about them. A second part embeds more of the same sources
    (the remaining gateway handlers and their tool declarations, the
    HTTP handlers of the OAST sessions, package [config], sectool init
    and the subcommand dispatch) and proves what that code shows.

    Conventions.
    - A Go [string] and a Go [[]byte] are both byte sequences; both are
      [string] here (a sequence of [ascii] bytes).
    - A Go [int], [uint32] or [time.Duration] is a [Z]; no operation below
      leaves the range of its type.
    - A Go [error] result is an [option] or a sum, the error message kept
      as an inductive tag, or as its text where a handler builds it from
      the text of a backend error.
    - Functions of the Go standard library (time.ParseDuration,
      filepath.Dir, os.Lstat, ...), the adapter ports and the helpers
      that no property below depends on are Section variables: the code
      is verified for every behaviour they may have.
    - httputil.go and store/request.go are not among the sources at hand
      (their tests and their callers are); what is needed of them is
      modelled from the specification and checked against those tests. *)

From Stdlib Require Import ZArith NArith String Ascii List Lia Bool.
From Stdlib Require Import DecimalString DecimalNat.
From stdpp Require Import gmap strings.

Open Scope string_scope.
Open Scope list_scope.

(* ===================================================================== *)
(** ** Bytes and lines                                                    *)
(* ===================================================================== *)

Definition CR : ascii := "013"%char.
Definition LF : ascii := "010"%char.
Definition SP : ascii := " "%char.
Definition CRLF : string := String CR (String LF EmptyString).

(** bytes.HasPrefix *)
Fixpoint hasPrefix (p s : string) : bool :=
  match p, s with
  | EmptyString, _ => true
  | String a p', String b s' => if Ascii.eqb a b then hasPrefix p' s' else false
  | String _ _, EmptyString => false
  end.

(** s[n:] for n within bounds, the empty string past the end. *)
Fixpoint dropBytes (n : nat) (s : string) : string :=
  match n, s with
  | O, _ => s
  | S n', String _ s' => dropBytes n' s'
  | S _, EmptyString => EmptyString
  end.

(** bytes.Cut(s, sep) for a non-empty separator: the part before the first
    occurrence of [sep] and the part after it, or [None] when [sep] does
    not occur. *)
Fixpoint cut (sep s : string) : option (string * string) :=
  if hasPrefix sep s then Some (EmptyString, dropBytes (String.length sep) s)
  else match s with
       | EmptyString => None
       | String c s' =>
           match cut sep s' with
           | Some (before, after) => Some (String c before, after)
           | None => None
           end
       end.

(** [noPrefixIn sep l rest]: in [l ++ rest], no occurrence of [sep]
    starts inside [l]. *)
Fixpoint noPrefixIn (sep l rest : string) : bool :=
  match l with
  | EmptyString => true
  | String c l' => negb (hasPrefix sep (l +:+ rest)) && noPrefixIn sep l' rest
  end.

(** strings.Split(s, sep) for a non-empty separator. *)
Fixpoint splitOn_fuel (fuel : nat) (sep s : string) : list string :=
  match fuel with
  | O => [s]
  | S fuel' =>
      match cut sep s with
      | Some (before, after) => before :: splitOn_fuel fuel' sep after
      | None => [s]
      end
  end.

Definition splitOn (sep s : string) : list string :=
  splitOn_fuel (String.length s) sep s.

(** strings.Join *)
Fixpoint join (sep : string) (parts : list string) : string :=
  match parts with
  | [] => EmptyString
  | [p] => p
  | p :: rest => p +:+ sep +:+ join sep rest
  end.

(** ASCII lower-casing of one byte, and strings.EqualFold on ASCII names. *)
Definition lowerByte (c : ascii) : ascii :=
  let n := nat_of_ascii c in
  if (65 <=? n)%nat && (n <=? 90)%nat then ascii_of_nat (n + 32) else c.

Fixpoint toLower (s : string) : string :=
  match s with
  | EmptyString => EmptyString
  | String c s' => String (lowerByte c) (toLower s')
  end.

Definition equalFold (a b : string) : bool := String.eqb (toLower a) (toLower b).

(** strconv.Itoa on a non-negative int, and its inverse on digit strings. *)
Definition itoa (n : nat) : string := NilEmpty.string_of_uint (Nat.to_uint n).

Definition atoi (s : string) : option nat :=
  match s with
  | EmptyString => None
  | _ => option_map Nat.of_uint (NilEmpty.uint_of_string s)
  end.

(** Whether every byte is a decimal digit. *)
Definition isDigit (c : ascii) : bool :=
  (48 <=? nat_of_ascii c)%nat && (nat_of_ascii c <=? 57)%nat.

Fixpoint allDigits (s : string) : bool :=
  match s with
  | EmptyString => true
  | String c s' => isDigit c && allDigits s'
  end.

(* ===================================================================== *)
(** ** Tool-call arguments of the MCP gateway (mcp.CallToolRequest)       *)
(* ===================================================================== *)

Module Mcp.

(** A JSON argument value as the gateway reads it. *)
Inductive ArgValue :=
| AString (s : string)
| ANumber (n : Z)
| ABool (b : bool)
| AStrings (l : list string).

Definition CallToolRequest := gmap string ArgValue.

(** req.GetString(key, default): the default when the key is absent or
    does not hold a string. *)
Definition GetString (req : gmap string ArgValue) (key def : string) : string :=
  match req !! key with
  | Some (AString s) => s
  | _ => def
  end.

Definition GetInt (req : gmap string ArgValue) (key : string) (def : Z) : Z :=
  match req !! key with
  | Some (ANumber n) => n
  | _ => def
  end.

Definition GetBool (req : gmap string ArgValue) (key : string) (def : bool) : bool :=
  match req !! key with
  | Some (ABool b) => b
  | _ => def
  end.

Definition GetStringSlice (req : gmap string ArgValue) (key : string)
    (def : list string) : list string :=
  match req !! key with
  | Some (AStrings l) => l
  | _ => def
  end.

End Mcp.

(* ===================================================================== *)
(** ** OAST poll handlers (oast_handler.go, MCP gateway)                  *)
(* ===================================================================== *)

Module Oast.

(** time.Second, in nanoseconds. *)
Definition Second : Z := 1000000000.

(** OastPollRequest, the decoded body of POST /oast/poll. *)
Record OastPollRequest := {
  OastID : string;
  Since : string;
  Wait : string;
  Limit : Z
}.

(** The arguments of oastBackend.PollSession. *)
Record PollCall := {
  pollID : string;
  pollSince : string;
  pollWait : Z;
  pollLimit : Z
}.

Inductive PollReject :=
| InvalidBody
| OastIDRequired
| InvalidWaitDuration.

Section Handlers.
(** time.ParseDuration: [None] is a parse error. *)
Variable ParseDuration : string -> option Z.

(** Server.handleOastPoll, up to the call of the backend. [decoded] is
    the result of decoding the request body ([None]: decode error). *)
Definition handleOastPoll (decoded : option OastPollRequest)
    : PollReject + PollCall :=
  match decoded with
  | None => inl InvalidBody
  | Some req =>
      if String.eqb (OastID req) "" then inl OastIDRequired
      else
        let finish (wait : Z) :=
          inr {| pollID := OastID req; pollSince := Since req;
                 pollWait := wait; pollLimit := Limit req |} in
        if negb (String.eqb (Wait req) "") then
          match ParseDuration (Wait req) with
          | None => inl InvalidWaitDuration
          | Some wait =>
              (* Cap at 120 seconds *)
              if (wait >? 120 * Second)%Z then finish (120 * Second)%Z
              else finish wait
          end
        else finish 0%Z
  end.

(** mcpServer.handleOastPoll, up to the call of the backend. *)
Definition mcpHandleOastPoll (req : gmap string Mcp.ArgValue)
    : PollReject + PollCall :=
  let oastID := Mcp.GetString req "oast_id" "" in
  if String.eqb oastID "" then inl OastIDRequired
  else
    let finish (wait : Z) :=
      inr {| pollID := oastID; pollSince := Mcp.GetString req "since" "";
             pollWait := wait; pollLimit := Mcp.GetInt req "limit" 0 |} in
    let waitStr := Mcp.GetString req "wait" "" in
    if negb (String.eqb waitStr "") then
      match ParseDuration waitStr with
      | None => inl InvalidWaitDuration
      | Some parsed =>
          if (parsed >? 120 * Second)%Z then finish (120 * Second)%Z
          else finish parsed
      end
    else finish 0%Z.
End Handlers.

End Oast.

(* ===================================================================== *)
(** ** Socket security (listener wrapper, socket_security_*.go)           *)
(* ===================================================================== *)

Module SocketSecurity.

(** The three build configurations: socket_security_linux.go
    ([linux]), its darwin sibling ([darwin]) and
    socket_security_other.go ([!linux && !darwin]). *)
Inductive Platform := Linux | Darwin | Other.

(** peerCredentialsSupported *)
Definition peerCredentialsSupported (p : Platform) : bool :=
  match p with
  | Linux | Darwin => true
  | Other => false
  end.

(** An accepted net.Conn, as far as verifyPeerCredentials looks at it:
    whether it is a *net.UnixConn, whether SyscallConn and Control
    succeed, whether the peer-credential getsockopt succeeds, and the
    effective UID of the peer process. *)
Record Conn := {
  connID : nat;
  isUnixConn : bool;
  syscallConnOK : bool;
  controlOK : bool;
  getsockoptOK : bool;
  peerUID : Z
}.

Inductive PeerError :=
| NotUnixConnection
| SyscallConnFailed
| ControlFailed
| PeerCredentialsFailed
| PeerUIDMismatch (peer server : Z).

(** verifyPeerCredentials; [None] is the nil error. The linux and darwin
    files differ only in the socket option they query. *)
Definition verifyPeerCredentials (p : Platform) (serverUID : Z) (conn : Conn)
    : option PeerError :=
  match p with
  | Other => None
  | Linux | Darwin =>
      if negb (isUnixConn conn) then Some NotUnixConnection
      else if negb (syscallConnOK conn) then Some SyscallConnFailed
      else if negb (controlOK conn) then Some ControlFailed
      else if negb (getsockoptOK conn) then Some PeerCredentialsFailed
      else if negb (peerUID conn =? serverUID)%Z
           then Some (PeerUIDMismatch (peerUID conn) serverUID)
      else None
  end.

(** What the wrapped listener delivers next: an error or a connection. *)
Inductive Incoming :=
| InError (msg : string)
| InConn (conn : Conn).

(** Everything that can happen to a connection. Accept itself only logs
    and closes; reading a request and writing an envelope are what a
    handler does with a connection it was given. *)
Inductive Event :=
| EvLogRejected (conn : Conn) (err : PeerError)
| EvClose (conn : Conn)
| EvRead (conn : Conn)
| EvWrite (conn : Conn).

Inductive AcceptResult :=
| Accepted (conn : Conn)
| AcceptFailed (msg : string)
| Blocked.

(** secureListener.Accept over the sequence [incoming] of results the
    wrapped listener will deliver. Returns the events performed, the
    result, and what is left to deliver; [Blocked] when the wrapped
    listener has nothing more to deliver (the Go call keeps waiting). *)
Fixpoint Accept (p : Platform) (serverUID : Z) (incoming : list Incoming)
    : list Event * AcceptResult * list Incoming :=
  match incoming with
  | [] => ([], Blocked, [])
  | InError msg :: rest => ([], AcceptFailed msg, rest)
  | InConn conn :: rest =>
      match verifyPeerCredentials p serverUID conn with
      | Some err =>
          let '(evs, res, rest') := Accept p serverUID rest in
          (EvLogRejected conn err :: EvClose conn :: evs, res, rest')
      | None => ([], Accepted conn, rest)
      end
  end.

(** os.FileMode bits. *)
Definition ModeDir : Z := 2147483648.
Definition ModeSymlink : Z := 134217728.
Definition ModePerm : Z := 511.

(** The os.FileInfo of an Lstat: the mode, and the Uid field of the
    *syscall.Stat_t behind Sys() ([None] when Sys() is not such a
    record). *)
Record FileInfo := {
  fiMode : Z;
  fiStatUid : option Z
}.

Definition IsDir (info : FileInfo) : bool :=
  negb (Z.land (fiMode info) ModeDir =? 0)%Z.

Definition Perm (info : FileInfo) : Z := Z.land (fiMode info) ModePerm.

(** getFileOwnerUID; [None] is the error "failed to get underlying
    stat". On the other platforms it returns the current UID, which
    skips the ownership check. *)
Definition getFileOwnerUID (p : Platform) (currentUID : Z) (info : FileInfo)
    : option Z :=
  match p with
  | Other => Some currentUID
  | Linux | Darwin => fiStatUid info
  end.

Inductive PathError :=
| StatFailed (dir : string)
| IsSymlink (dir : string)
| NotADirectory (dir : string)
| OwnerUnknown
| WrongOwner (dir : string) (uid expected : Z)
| InsecurePermissions (dir : string) (mode : Z).

Section Validate.
(** filepath.Dir and os.Lstat ([None]: Lstat returned an error). *)
Variable Dir : string -> string.
Variable Lstat : string -> option FileInfo.

(** ValidateSocketPathSecurity; [None] is the nil error. *)
Definition ValidateSocketPathSecurity (p : Platform) (currentUID : Z)
    (socketPath : string) : option PathError :=
  let dir := Dir socketPath in
  match Lstat dir with
  | None => Some (StatFailed dir)
  | Some info =>
      if negb (Z.land (fiMode info) ModeSymlink =? 0)%Z then Some (IsSymlink dir)
      else if negb (IsDir info) then Some (NotADirectory dir)
      else
        match getFileOwnerUID p currentUID info with
        | None => Some OwnerUnknown
        | Some uid =>
            if negb (uid =? currentUID)%Z
            then Some (WrongOwner dir uid currentUID)
            else
              let mode := Perm info in
              if negb (Z.land mode 18 (* 0022 *) =? 0)%Z
              then Some (InsecurePermissions dir mode)
              else None
        end
  end.

(** The five conditions of the specification on the parent of the
    socket path: it exists, is not a symbolic link (as Lstat sees
    it), is a directory, is owned by the current user, and has no
    write bit for group or others. *)
Definition parentIsSecure (currentUID : Z) (socketPath : string) : Prop :=
  exists info,
    Lstat (Dir socketPath) = Some info /\
    Z.land (fiMode info) ModeSymlink = 0%Z /\
    Z.land (fiMode info) ModeDir <> 0%Z /\
    fiStatUid info = Some currentUID /\
    Z.land (fiMode info) 18 (* 0022 *) = 0%Z.

(** The same without the ownership condition. *)
Definition parentIsSecureButOwner (socketPath : string) : Prop :=
  exists info,
    Lstat (Dir socketPath) = Some info /\
    Z.land (fiMode info) ModeSymlink = 0%Z /\
    Z.land (fiMode info) ModeDir <> 0%Z /\
    Z.land (fiMode info) 18 (* 0022 *) = 0%Z.
End Validate.

End SocketSecurity.

(* ===================================================================== *)
(** ** HTTP helpers (httputil.go)                                         *)
(* ===================================================================== *)

Module HttpUtil.

Definition CRLFCRLF : string := CRLF +:+ CRLF.

(** strings.CutSuffix: [Some before] when [s = before ++ suffix]. *)
Fixpoint cutSuffix (suffix s : string) : option string :=
  if String.eqb s suffix then Some EmptyString
  else match s with
       | EmptyString => None
       | String c s' =>
           match cutSuffix suffix s' with
           | Some before => Some (String c before)
           | None => None
           end
       end.

(** Modelled from the spec: httputil.go is not among the sources, only
    its tests (httputil_test.go) are. "Split the raw bytes on the first
    blank-line separator"; by TestSplitHeadersBody the separator stays
    with the headers, and a request without one is all headers. *)
Definition splitHeadersBody (raw : string) : string * string :=
  match cut CRLFCRLF raw with
  | Some (headers, body) => (headers +:+ CRLFCRLF, body)
  | None => (raw, EmptyString)
  end.

(** The request target split at its first '?' into path and query. *)
Definition splitTarget (target : string) : string * string :=
  match cut "?" target with
  | Some (path, query) => (path, query)
  | None => (target, EmptyString)
  end.

(** Modelled from the spec: "Parse the start line into (method, path,
    query, version)"; by TestParseRequestLine a line that does not have
    the three fields gives four empty strings. *)
Definition parseRequestLine (line : string)
    : string * string * string * string :=
  match cut " " line with
  | None => (EmptyString, EmptyString, EmptyString, EmptyString)
  | Some (method, rest) =>
      match cut " " rest with
      | None => (EmptyString, EmptyString, EmptyString, EmptyString)
      | Some (target, version) =>
          (method, fst (splitTarget target), snd (splitTarget target), version)
      end
  end.

(** PathQueryOpts, the path and query edits of a replay. *)
Record PathQueryOpts := {
  Path : string;
  Query : string;
  SetQuery : list string;
  RemoveQuery : list string
}.

(** PathQueryOpts.HasModifications (TestPathQueryOptsHasModifications). *)
Definition HasModifications (o : PathQueryOpts) : bool :=
  negb (String.eqb (Path o) "") || negb (String.eqb (Query o) "")
  || negb (Nat.eqb (length (SetQuery o)) 0)
  || negb (Nat.eqb (length (RemoveQuery o)) 0).

(** A query string as the ordered list of its [name=value] parameters. *)
Definition parseParam (p : string) : string * string :=
  match cut "=" p with
  | Some (name, value) => (name, value)
  | None => (p, EmptyString)
  end.

Definition parseQuery (query : string) : list (string * string) :=
  if String.eqb query "" then [] else map parseParam (splitOn "&" query).

Definition encodeQuery (params : list (string * string)) : string :=
  join "&" (map (fun kv => fst kv +:+ "=" +:+ snd kv) params).

(** remove_query: "drops named parameters". *)
Definition removeParam (name : string) (params : list (string * string))
    : list (string * string) :=
  List.filter (fun kv => negb (String.eqb (fst kv) name)) params.

Definition removeQuery (names : list string) (params : list (string * string))
    : list (string * string) :=
  fold_left (fun ps name => removeParam name ps) names params.

(** set_query: "upserts named parameters": a name already present keeps
    its place and takes the new value, a new name goes to the end. *)
Fixpoint upsertParam (name value : string) (params : list (string * string))
    : list (string * string) :=
  match params with
  | [] => [(name, value)]
  | (k, v) :: rest =>
      if String.eqb k name then (k, value) :: removeParam name rest
      else (k, v) :: upsertParam name value rest
  end.

Definition setQuery (sets : list string) (params : list (string * string))
    : list (string * string) :=
  fold_left (fun ps s => upsertParam (fst (parseParam s)) (snd (parseParam s)) ps)
            sets params.

(** Stage 2 of the rewrite pipeline on a parsed start line: "replace
    path if given; replace entire query string if given; apply
    remove_query; apply set_query"; the query is re-serialized only when
    parameters are removed or set. *)
Definition editPath (o : PathQueryOpts) (path : string) : string :=
  if String.eqb (Path o) "" then path else Path o.

Definition editQuery (o : PathQueryOpts) (query : string) : string :=
  let replaced := if String.eqb (Query o) "" then query else Query o in
  match SetQuery o, RemoveQuery o with
  | [], [] => replaced
  | _, _ =>
      encodeQuery (setQuery (SetQuery o) (removeQuery (RemoveQuery o)
                                            (parseQuery replaced)))
  end.

Definition formatRequestLine (method path query version : string) : string :=
  method +:+ " " +:+ path
    +:+ (if String.eqb query "" then EmptyString else "?" +:+ query)
    +:+ " " +:+ version.

(** Modelled from the spec: stage 2, "Request-line rewrite", of the
    rewrite pipeline; the boundary cases follow TestModifyRequestLine
    (nil or empty options and an unparsable start line leave the request
    as it is; the headers and the body are kept). *)
Definition modifyRequestLine (raw : string) (opts : option PathQueryOpts)
    : string :=
  match opts with
  | None => raw
  | Some o =>
      if negb (HasModifications o) then raw
      else
        let '(line, rest) :=
          match cut CRLF raw with
          | Some (line, rest) => (line, CRLF +:+ rest)
          | None => (raw, EmptyString)
          end in
        let '(method, path, query, version) := parseRequestLine line in
        if String.eqb method "" then raw
        else formatRequestLine method (editPath o path) (editQuery o query)
                               version +:+ rest
  end.

(** Modelled from the spec: stage 6, "Requests carrying version HTTP/2 or
    HTTP/2.0 on the start line are rewritten to HTTP/1.1"; by
    TestTransformRequestForValidation a request without a CRLF after
    the start line is returned as it is. *)
Definition transformRequestForValidation (raw : string) : string :=
  match cut CRLF raw with
  | None => raw
  | Some (line, rest) =>
      match cutSuffix " HTTP/2" line with
      | Some before => before +:+ " HTTP/1.1" +:+ CRLF +:+ rest
      | None =>
          match cutSuffix " HTTP/2.0" line with
          | Some before => before +:+ " HTTP/1.1" +:+ CRLF +:+ rest
          | None => raw
          end
      end
  end.

(** The start line of a raw request: what precedes the first CRLF, or the
    whole of it without one. *)
Definition startLine (raw : string) : string :=
  match cut CRLF raw with
  | Some (line, _) => line
  | None => raw
  end.

(** The version field of the start line of a raw request. *)
Definition requestVersion (raw : string) : string :=
  snd (parseRequestLine (startLine raw)).

(** The parameter names of a query, in order. *)
Definition keys (params : list (string * string)) : list string := map fst params.




End HttpUtil.

(* ===================================================================== *)
(** ** Response status line (httputil.go)                                 *)
(* ===================================================================== *)

Module StatusLine.

(** The value of a decimal digit byte. *)
Definition digitValue (c : ascii) : option Z :=
  let n := nat_of_ascii c in
  if (48 <=? n)%nat && (n <=? 57)%nat then Some (Z.of_nat (n - 48)) else None.

Definition acceptedVersion (v : string) : bool :=
  String.eqb v "HTTP/1.0" || String.eqb v "HTTP/1.1"
  || String.eqb v "HTTP/2" || String.eqb v "HTTP/2.0".

(** What may follow the three digits: nothing, a space, or a line end. *)
Definition endsCode (rest : string) : bool :=
  match rest with
  | EmptyString => true
  | String c _ => Ascii.eqb c SP || Ascii.eqb c CR || Ascii.eqb c LF
  end.

(** Modelled from the spec: httputil.go is not among the sources, only
    its tests are. "Status-line parsing accepts HTTP/1.0, HTTP/1.1,
    HTTP/2, HTTP/2.0; status code must be a three-digit integer in
    [100, 599]; outside this range parse fails to zero"; the cases of
    TestReadResponseStatusCode hold on it. *)
Definition readResponseStatusCode (input : string) : Z :=
  match cut " " input with
  | None => 0
  | Some (version, rest) =>
      if negb (acceptedVersion version) then 0
      else
        match rest with
        | String a (String b (String c tail)) =>
            match digitValue a, digitValue b, digitValue c with
            | Some x, Some y, Some z =>
                let code := (100 * x + 10 * y + z)%Z in
                if negb (endsCode tail) then 0
                else if (code <? 100)%Z || (code >? 599)%Z then 0
                else code
            | _, _, _ => 0
            end
        | _ => 0
        end
  end%Z.

End StatusLine.

(* ===================================================================== *)
(** ** base64.StdEncoding                                                 *)
(* ===================================================================== *)

Module Base64.

Definition alphabet : string :=
  "ABCDEFGHIJKLMNOPQRSTUVWXYZabcdefghijklmnopqrstuvwxyz0123456789+/".

Definition padding : ascii := "="%char.

(** The character of a 6-bit value. *)
Definition encodeSextet (n : N) : ascii :=
  match String.get (N.to_nat n) alphabet with
  | Some c => c
  | None => padding
  end.

Fixpoint indexOf (c : ascii) (s : string) : option N :=
  match s with
  | EmptyString => None
  | String d s' =>
      if Ascii.eqb c d then Some 0%N else option_map N.succ (indexOf c s')
  end.

(** The 6-bit value of a character of the alphabet. *)
Definition decodeSextet (c : ascii) : option N := indexOf c alphabet.

Definition str1 (a : ascii) : string := String a EmptyString.

(** EncodeToString: three bytes become four characters; one or two
    trailing bytes are padded with '='. *)
Fixpoint EncodeToString (src : string) : string :=
  match src with
  | EmptyString => EmptyString
  | String a EmptyString =>
      let x := N_of_ascii a in
      String (encodeSextet (x / 4))
        (String (encodeSextet ((x mod 4) * 16))
           (String padding (String padding EmptyString)))
  | String a (String b EmptyString) =>
      let x := N_of_ascii a in
      let y := N_of_ascii b in
      String (encodeSextet (x / 4))
        (String (encodeSextet ((x mod 4) * 16 + y / 16))
           (String (encodeSextet ((y mod 16) * 4))
              (String padding EmptyString)))
  | String a (String b (String c rest)) =>
      let x := N_of_ascii a in
      let y := N_of_ascii b in
      let z := N_of_ascii c in
      String (encodeSextet (x / 4))
        (String (encodeSextet ((x mod 4) * 16 + y / 16))
           (String (encodeSextet ((y mod 16) * 4 + z / 64))
              (String (encodeSextet (z mod 64)) (EncodeToString rest))))
  end%N.

(** DecodeString on input without line breaks: [None] is a
    CorruptInputError. Padding is only accepted at the end; as in Go's
    non-strict StdEncoding the unused low bits before it are ignored. *)
Fixpoint DecodeString (s : string) : option string :=
  match s with
  | EmptyString => Some EmptyString
  | String c1 (String c2 (String c3 (String c4 rest))) =>
      match decodeSextet c1, decodeSextet c2 with
      | Some s1, Some s2 =>
          let a := ascii_of_N (s1 * 4 + s2 / 16) in
          if Ascii.eqb c3 padding then
            if Ascii.eqb c4 padding && String.eqb rest ""
            then Some (str1 a)
            else None
          else
            match decodeSextet c3 with
            | None => None
            | Some s3 =>
                let b := ascii_of_N ((s2 mod 16) * 16 + s3 / 4) in
                if Ascii.eqb c4 padding then
                  if String.eqb rest ""
                  then Some (String a (str1 b))
                  else None
                else
                  match decodeSextet c4, DecodeString rest with
                  | Some s4, Some tail =>
                      let c := ascii_of_N ((s3 mod 4) * 64 + s4) in
                      Some (String a (String b (String c tail)))
                  | _, _ => None
                  end
            end
      | _, _ => None
      end
  | _ => None
  end%N.

End Base64.

(* ===================================================================== *)
(** ** The replay store (store/request.go)                                *)
(* ===================================================================== *)

Module Store.

(** RequestEntry. A time.Time is its distance in nanoseconds from the
    zero time; a time.Duration is a number of nanoseconds. *)
Record RequestEntry := {
  Headers : string;
  Body : string;
  Duration : Z;
  CreatedAt : Z
}.

(** time.Time.IsZero *)
Definition IsZero (t : Z) : bool := (t =? 0)%Z.

(** time.Unix(sec, 0): the Unix epoch is 62135596800 seconds after the
    zero time. *)
Definition Unix (sec : Z) : Z := ((62135596800 + sec) * 1000000000)%Z.

Definition NewRequestStore : gmap string RequestEntry := ∅.

(** Modelled from the spec: store/request.go is not among the sources,
    only its tests (request_test.go) and its callers are. A ReplayEntry
    is "keyed by an opaque replay identifier; stores response headers,
    response body, elapsed duration, and creation timestamp"; by
    TestRequestStoreStoreAndGet, Store sets the creation time when it is
    the zero time and keeps it otherwise. [now] is time.Now(). *)
Definition Store (now : Z) (id : string) (entry : RequestEntry)
    (s : gmap string RequestEntry) : gmap string RequestEntry :=
  let stamped :=
    if IsZero (CreatedAt entry)
    then {| Headers := Headers entry; Body := Body entry;
            Duration := Duration entry; CreatedAt := now |}
    else entry in
  <[id := stamped]> s.

(** Modelled from the spec: the lookup of a replay id; "lookup of a
    missing id returns NOT_FOUND". *)
Definition Get (id : string) (s : gmap string RequestEntry)
    : option RequestEntry :=
  s !! id.

Definition Delete (id : string) (s : gmap string RequestEntry)
    : gmap string RequestEntry :=
  delete id s.

Definition Count (s : gmap string RequestEntry) : nat := size s.

Definition Clear (s : gmap string RequestEntry) : gmap string RequestEntry := ∅.

End Store.

(* ===================================================================== *)
(** ** Content-Length reconciliation (httputil.go)                        *)
(* ===================================================================== *)

Module ContentLength.

(** Whether a header line [Name: value] carries the given name
    (case-insensitive on the name). *)
Definition isHeader (name line : string) : bool :=
  match cut ":" line with
  | Some (n, _) => equalFold n name
  | None => false
  end.

(** The value of a header line: what follows the colon, without the
    leading spaces. *)
Fixpoint trimLeft (s : string) : string :=
  match s with
  | String c s' => if Ascii.eqb c SP then trimLeft s' else s
  | EmptyString => EmptyString
  end.

Definition headerValue (line : string) : string :=
  match cut ":" line with
  | Some (_, v) => trimLeft v
  | None => EmptyString
  end.

Definition contentLengthLine (length : nat) : string :=
  "Content-Length: " +:+ itoa length.

Definition isBlank (line : string) : bool := String.eqb line "".

(** The header lines with the Content-Length header replaced: the first
    one takes the new line's place, further ones and blank lines go, and
    without any the new line is added at the end. *)
Fixpoint replaceContentLength (cl : string) (fields : list string) : list string :=
  match fields with
  | [] => [cl]
  | f :: rest =>
      if isBlank f then replaceContentLength cl rest
      else if isHeader "Content-Length" f
      then cl :: List.filter (fun l => negb (isBlank l)
                                  && negb (isHeader "Content-Length" l)) rest
      else f :: replaceContentLength cl rest
  end.

(** Modelled from the spec: httputil.go is not among the sources. Stage
    5, "Recompute Content-Length from final body bytes; any existing
    header is replaced". [headers] is the header block (start line,
    header lines, blank line); the result is a header block again. *)
Definition updateContentLength (headers : string) (length : nat) : string :=
  match splitOn CRLF headers with
  | [] => headers
  | start :: fields =>
      join CRLF (start :: replaceContentLength (contentLengthLine length) fields
                   ++ [EmptyString; EmptyString])
  end.

(** A reader of a raw request: the header lines are the lines after the
    start line up to the first blank line; the body is what follows the
    first blank-line separator. *)
Fixpoint untilBlank (lines : list string) : list string :=
  match lines with
  | [] => []
  | l :: rest => if isBlank l then [] else l :: untilBlank rest
  end.

Definition headerFields (raw : string) : list string :=
  untilBlank (tl (splitOn CRLF raw)).

Definition headerValues (name raw : string) : list string :=
  map headerValue (List.filter (isHeader name) (headerFields raw)).

(** A header line proper: free of CRLF and not blank. *)
Definition properLine (l : string) : Prop :=
  cut CRLF l = None /\ isBlank l = false.

End ContentLength.

(* ===================================================================== *)
(** ** replay_send and replay_get at the MCP gateway                      *)
(* ===================================================================== *)

Module Replay.

(** The error results of the two handlers (mcp.NewToolResultError). *)
Inductive ToolError :=
| FlowIDRequired
| FlowIDNotFound
| FetchFlowFailed
| FlowNotInHistory
| JSONModificationFailed
| ValidationFailed
| InvalidTimeout
| RequestFailed
| ReplayIDRequired
| ReplayNotFound.

(** Early returns: the rest of a handler runs only after a success. *)
Definition bindE {A B : Type} (r : ToolError + A) (k : A -> ToolError + B)
    : ToolError + B :=
  match r with
  | inl e => inl e
  | inr a => k a
  end.

Notation "x <-- r ;; k" := (bindE r (fun x => k))
  (at level 100, r at next level, right associativity).

Definition orFail {A : Type} (e : ToolError) (o : option A) : ToolError + A :=
  match o with
  | Some a => inr a
  | None => inl e
  end.

Record ReplaySendRequest := {
  AddHeaders : list string;
  RemoveHeaders : list string;
  Target : string
}.

Record validationIssue := {
  Severity : string;
  Message : string
}.

Record TargetAddr := {
  Hostname : string;
  Port : Z;
  UsesHTTPS : bool
}.

Record SendRequestInput := {
  RawRequest : string;
  SendTarget : TargetAddr;
  FollowRedirects : bool;
  Timeout : Z
}.

(** What the proxy port's SendRequest delivers. *)
Record SendRequestResult := {
  ResultHeaders : string;
  ResultBody : string;
  ResultDuration : Z
}.

Record ResponseDetails := {
  Status : Z;
  StatusLine : string;
  RespHeaders : string;
  RespSize : nat;
  RespPreview : string
}.

Record ReplaySendResponse := {
  SendReplayID : string;
  SendDuration : string;
  SendDetails : ResponseDetails
}.

Record ReplayGetResponse := {
  GetReplayID : string;
  GetDuration : string;
  GetStatus : Z;
  GetStatusLine : string;
  GetRespHeaders : string;
  GetRespBody : string;
  GetRespSize : nat
}.

Section Handlers.
(** The collaborators of the handlers: the flow cache, the proxy port,
    helpers of httputil.go that no property below depends on, the id
    generator, and functions of the standard library. *)
Variable Lookup : string -> option Z.
Variable GetProxyHistory : Z -> Z -> option (list string).
Variable applyHeaderModifications : string -> ReplaySendRequest -> string.
Variable modifyJSONBody : string -> list string -> list string -> option string.
Variable validateRequest : string -> list validationIssue.
Variable parseTarget : string -> string -> string * Z * bool.
Variable Generate : string.
Variable ParseDuration : string -> option Z.
Variable SendRequest : string -> SendRequestInput -> option SendRequestResult.
Variable parseResponseStatus : string -> Z * string.
Variable previewBody : string -> string.
Variable DurationString : Z -> string.
Variable now : Z.

(** The literal body override of handleReplaySend:
    [if body := req.GetString("body", ""); body != "" { reqBody = []byte(body) }] *)
Definition overrideBody (req : gmap string Mcp.ArgValue) (reqBody : string)
    : string :=
  let body := Mcp.GetString req "body" "" in
  if negb (String.eqb body "") then body else reqBody.

(** The JSON edits of handleReplaySend. *)
Definition editJSONBody (req : gmap string Mcp.ArgValue) (reqBody : string)
    : ToolError + string :=
  let setJSON := Mcp.GetStringSlice req "set_json" [] in
  let removeJSON := Mcp.GetStringSlice req "remove_json" [] in
  if (0 <? length setJSON)%nat || (0 <? length removeJSON)%nat then
    orFail JSONModificationFailed (modifyJSONBody reqBody setJSON removeJSON)
  else inr reqBody.

(** handleReplaySend from the base request to the raw request that is
    sent: request line, headers, body, Content-Length. Returns the
    final header block, the final body and the raw request. *)
Definition buildReplayRequest (req : gmap string Mcp.ArgValue) (base : string)
    : ToolError + (string * string * string) :=
  let rawRequest :=
    HttpUtil.modifyRequestLine base
      (Some {| HttpUtil.Path := Mcp.GetString req "path" "";
               HttpUtil.Query := Mcp.GetString req "query" "";
               HttpUtil.SetQuery := Mcp.GetStringSlice req "set_query" [];
               HttpUtil.RemoveQuery := Mcp.GetStringSlice req "remove_query" [] |}) in
  let '(headers, reqBody) := HttpUtil.splitHeadersBody rawRequest in
  let sendReq :=
    {| AddHeaders := Mcp.GetStringSlice req "add_headers" [];
       RemoveHeaders := Mcp.GetStringSlice req "remove_headers" [];
       Target := Mcp.GetString req "target" "" |} in
  let headers := applyHeaderModifications headers sendReq in
  let reqBody := overrideBody req reqBody in
  reqBody <-- editJSONBody req reqBody ;;
  let headers := ContentLength.updateContentLength headers (String.length reqBody) in
  inr (headers, reqBody, headers +:+ reqBody).

Definition hasError (issues : list validationIssue) : bool :=
  existsb (fun i => String.eqb (Severity i) "error") issues.

(** mcpServer.handleReplaySend; the state is the replay store. *)
Definition handleReplaySend (req : gmap string Mcp.ArgValue)
    (store : gmap string Store.RequestEntry)
    : (ToolError + ReplaySendResponse) * gmap string Store.RequestEntry :=
  let outcome :=
    let flowID := Mcp.GetString req "flow_id" "" in
    _ <-- (if String.eqb flowID "" then inl FlowIDRequired else inr tt) ;;
    offset <-- orFail FlowIDNotFound (Lookup flowID) ;;
    proxyEntries <-- orFail FetchFlowFailed (GetProxyHistory 1 offset) ;;
    base <-- orFail FlowNotInHistory (head proxyEntries) ;;
    built <-- buildReplayRequest req base ;;
    let rawRequest := snd built in
    _ <-- (if negb (Mcp.GetBool req "force" false)
              && hasError (validateRequest rawRequest)
           then inl ValidationFailed else inr tt) ;;
    let '(host, port, usesHTTPS) :=
      parseTarget rawRequest (Mcp.GetString req "target" "") in
    let replayID := Generate in
    let timeoutStr := Mcp.GetString req "timeout" "" in
    timeout <-- (if negb (String.eqb timeoutStr "")
                 then orFail InvalidTimeout (ParseDuration timeoutStr)
                 else inr 0%Z) ;;
    let sendInput :=
      {| RawRequest := rawRequest;
         SendTarget := {| Hostname := host; Port := port;
                          UsesHTTPS := usesHTTPS |};
         FollowRedirects := Mcp.GetBool req "follow_redirects" false;
         Timeout := timeout |} in
    result <-- orFail RequestFailed
                 (SendRequest ("sectool-" +:+ replayID) sendInput) ;;
    inr (replayID, result) in
  match outcome with
  | inl e => (inl e, store)
  | inr (replayID, result) =>
      let respHeaders := ResultHeaders result in
      let respBody := ResultBody result in
      let '(respCode, respStatusLine) := parseResponseStatus respHeaders in
      let store' :=
        Store.Store now replayID
          {| Store.Headers := respHeaders; Store.Body := respBody;
             Store.Duration := ResultDuration result;
             Store.CreatedAt := 0 |} store in
      (inr {| SendReplayID := replayID;
              SendDuration := DurationString (ResultDuration result);
              SendDetails :=
                {| Status := respCode; StatusLine := respStatusLine;
                   RespHeaders := respHeaders;
                   RespSize := String.length respBody;
                   RespPreview := previewBody respBody |} |},
       store')
  end.

(** mcpServer.handleReplayGet *)
Definition handleReplayGet (req : gmap string Mcp.ArgValue)
    (store : gmap string Store.RequestEntry)
    : ToolError + ReplayGetResponse :=
  let replayID := Mcp.GetString req "replay_id" "" in
  if String.eqb replayID "" then inl ReplayIDRequired
  else
    match Store.Get replayID store with
    | None => inl ReplayNotFound
    | Some result =>
        let '(respCode, respStatusLine) :=
          parseResponseStatus (Store.Headers result) in
        inr {| GetReplayID := replayID;
               GetDuration := DurationString (Store.Duration result);
               GetStatus := respCode;
               GetStatusLine := respStatusLine;
               GetRespHeaders := Store.Headers result;
               GetRespBody := Base64.EncodeToString (Store.Body result);
               GetRespSize := String.length (Store.Body result) |}
    end.
End Handlers.

End Replay.

(* ===================================================================== *)
(** ** Auxiliary definitions and sample inputs                            *)
(* ===================================================================== *)

(** A stand-in for time.ParseDuration on the inputs of the examples. *)
Definition parseDurationSample (s : string) : option Z :=
  if String.eqb s "30s" then Some (30 * Oast.Second)%Z
  else if String.eqb s "200s" then Some (200 * Oast.Second)%Z
  else if String.eqb s "120s" then Some (120 * Oast.Second)%Z
  else None.

Definition pollRequestSample : Oast.OastPollRequest :=
  {| Oast.OastID := "abc123"; Oast.Since := "last";
     Oast.Wait := "200s"; Oast.Limit := 0 |}.

Definition mcpPollRequestSample : gmap string Mcp.ArgValue :=
  <["oast_id" := Mcp.AString "abc123"]>
    (<["wait" := Mcp.AString "200s"]> ∅).

(** Connections used in the examples: a peer of UID 1000 and one of UID 0. *)
Definition connOwn : SocketSecurity.Conn :=
  {| SocketSecurity.connID := 1; SocketSecurity.isUnixConn := true;
     SocketSecurity.syscallConnOK := true; SocketSecurity.controlOK := true;
     SocketSecurity.getsockoptOK := true; SocketSecurity.peerUID := 1000 |}.

Definition connForeign : SocketSecurity.Conn :=
  {| SocketSecurity.connID := 2; SocketSecurity.isUnixConn := true;
     SocketSecurity.syscallConnOK := true; SocketSecurity.controlOK := true;
     SocketSecurity.getsockoptOK := true; SocketSecurity.peerUID := 0 |}.

(** A file system for the examples: [/run/sectool/service] is a directory
    of mode 0755 owned by root, [/home/u/.sectool/service] a directory of
    mode 0700 owned by UID 1000. The parent of a path is found by a table
    standing in for filepath.Dir. *)
Definition dirSample (path : string) : string :=
  if String.eqb path "/run/sectool/service/socket" then "/run/sectool/service"
  else if String.eqb path "/home/u/.sectool/service/socket"
       then "/home/u/.sectool/service"
  else ".".

Definition lstatSample (path : string) : option SocketSecurity.FileInfo :=
  if String.eqb path "/run/sectool/service"
  then Some {| SocketSecurity.fiMode := SocketSecurity.ModeDir + 493 (* 0755 *);
               SocketSecurity.fiStatUid := Some 0%Z |}
  else if String.eqb path "/home/u/.sectool/service"
  then Some {| SocketSecurity.fiMode := SocketSecurity.ModeDir + 448 (* 0700 *);
               SocketSecurity.fiStatUid := Some 1000%Z |}
  else None.

(** Collaborators of the replay handlers for the examples: one recorded
    flow [f1], a proxy port that answers every request with the same
    response, no header or JSON edits. *)
Definition crlf (s : string) : string := s +:+ CRLF.

Definition baseRequestSample : string :=
  crlf "POST /api HTTP/1.1" +:+ crlf "Host: example.com"
    +:+ crlf "Content-Length: 3" +:+ CRLF +:+ "old".

Definition lookupSample (flowID : string) : option Z :=
  if String.eqb flowID "f1" then Some 0%Z else None.

Definition historySample (count offset : Z) : option (list string) :=
  Some [baseRequestSample].

Definition headerModsSample (headers : string) (r : Replay.ReplaySendRequest)
    : string := headers.

Definition jsonEditSample (body : string) (sets removes : list string)
    : option string := Some (body +:+ join "," sets).

Definition validateSample (raw : string) : list Replay.validationIssue := [].

Definition parseTargetSample (raw target : string) : string * Z * bool :=
  ("example.com", 443%Z, true).

Definition sendSample (name : string) (input : Replay.SendRequestInput)
    : option Replay.SendRequestResult :=
  Some {| Replay.ResultHeaders := crlf "HTTP/1.1 200 OK" +:+ CRLF;
          Replay.ResultBody := "hello";
          Replay.ResultDuration := 5000000 |}.

Definition parseStatusSample (headers : string) : Z * string :=
  (StatusLine.readResponseStatusCode headers, "HTTP/1.1 200 OK").

Definition previewSample (body : string) : string := body.

Definition durationStringSample (d : Z) : string := itoa (Z.to_nat d) +:+ "ns".

Definition replaySendSample : gmap string Mcp.ArgValue :=
  <["flow_id" := Mcp.AString "f1"]> (<["body" := Mcp.AString "new body"]> ∅).

Definition replaySendEmptyBodySample : gmap string Mcp.ArgValue :=
  <["flow_id" := Mcp.AString "f1"]> (<["body" := Mcp.AString ""]> ∅).


(** The second end-to-end scenario of the specification: the body
    [{"a":1,"b":2}] (13 bytes) with set_json [a=3] and remove_json [b]
    becomes [{"a":3}] (7 bytes). The JSON editor is a table with that one
    entry. *)
Definition dq : string := String "034"%char EmptyString.

Definition jsonBodyBefore : string :=
  "{" +:+ dq +:+ "a" +:+ dq +:+ ":1," +:+ dq +:+ "b" +:+ dq +:+ ":2}".

Definition jsonBodyAfter : string := "{" +:+ dq +:+ "a" +:+ dq +:+ ":3}".

Definition jsonScenarioSample (body : string) (sets removes : list string)
    : option string :=
  if String.eqb body jsonBodyBefore then Some jsonBodyAfter else None.

Definition jsonScenarioBase : string :=
  crlf "POST /api HTTP/1.1" +:+ crlf "Host: example.com"
    +:+ crlf "Content-Length: 13" +:+ CRLF +:+ jsonBodyBefore.

Definition jsonScenarioRequest : gmap string Mcp.ArgValue :=
  <["flow_id" := Mcp.AString "f1"]>
    (<["set_json" := Mcp.AStrings ["a=3"]]>
       (<["remove_json" := Mcp.AStrings ["b"]]> ∅)).

(** The events Accept emits for one rejected connection. *)
Definition isRejectEvent (e : SocketSecurity.Event) : Prop :=
  match e with
  | SocketSecurity.EvLogRejected _ _ | SocketSecurity.EvClose _ => True
  | SocketSecurity.EvRead _ | SocketSecurity.EvWrite _ => False
  end.

Definition hostTail : string := crlf "Host: example.com" +:+ CRLF.

Definition noOpts : HttpUtil.PathQueryOpts :=
  {| HttpUtil.Path := ""; HttpUtil.Query := "";
     HttpUtil.SetQuery := []; HttpUtil.RemoveQuery := [] |}.

(** The request-line options and the header edits the handler reads. *)
Definition replayOpts (req : gmap string Mcp.ArgValue) : HttpUtil.PathQueryOpts :=
  {| HttpUtil.Path := Mcp.GetString req "path" "";
     HttpUtil.Query := Mcp.GetString req "query" "";
     HttpUtil.SetQuery := Mcp.GetStringSlice req "set_query" [];
     HttpUtil.RemoveQuery := Mcp.GetStringSlice req "remove_query" [] |}.

(** The body the handler has in hand before the body edits. *)
Definition flowBody (req : gmap string Mcp.ArgValue) (base : string) : string :=
  snd (HttpUtil.splitHeadersBody (HttpUtil.modifyRequestLine base (Some (replayOpts req)))).


(* ===================================================================== *)
(** ** Further code: auxiliary definitions                                *)
(* ===================================================================== *)

From Stdlib Require Import Sorting.Sorted Sorting.Permutation.

(** What Accept does to one connection it is not going to return: on a
    failed check, a log line and a Close. *)
Definition rejectEvents (p : SocketSecurity.Platform) (serverUID : Z)
    (conn : SocketSecurity.Conn) : list SocketSecurity.Event :=
  match SocketSecurity.verifyPeerCredentials p serverUID conn with
  | Some err => [SocketSecurity.EvLogRejected conn err; SocketSecurity.EvClose conn]
  | None => []
  end.

(** What is left in front of the wrapped listener's queue when Accept
    returns [res]. *)
Definition deliveredLast (res : SocketSecurity.AcceptResult)
    : list SocketSecurity.Incoming :=
  match res with
  | SocketSecurity.Accepted conn => [SocketSecurity.InConn conn]
  | SocketSecurity.AcceptFailed msg => [SocketSecurity.InError msg]
  | SocketSecurity.Blocked => []
  end.

(** The tool-call arguments that carry the fields of an OastPollRequest. *)
Definition pollArgs (req : Oast.OastPollRequest) : gmap string Mcp.ArgValue :=
  <["oast_id" := Mcp.AString (Oast.OastID req)]>
    (<["since" := Mcp.AString (Oast.Since req)]>
       (<["wait" := Mcp.AString (Oast.Wait req)]>
          (<["limit" := Mcp.ANumber (Oast.Limit req)]> ∅))).


(** A replay_send request with force set, and a validator that reports
    one error-level issue whatever the request. *)
Definition replaySendForcedSample : gmap string Mcp.ArgValue :=
  <["force" := Mcp.ABool true]> replaySendSample.

Definition validateRejectSample (raw : string) : list Replay.validationIssue :=
  [{| Replay.Severity := "warning"; Replay.Message := "odd header" |};
   {| Replay.Severity := "error"; Replay.Message := "bad request line" |}].

(* ===================================================================== *)
(** ** Proxy tools (MCP gateway)                                          *)
(* ===================================================================== *)

Module ProxyRules.

(** What a tool handler returns: errorResult(message) or
    jsonResult(data). json.MarshalIndent does not fail on the response
    types of these handlers, so jsonResult is the text result. *)
Inductive ToolResult (A : Type) :=
| errorResult (message : string)
| jsonResult (data : A).
Arguments errorResult {A} message.
Arguments jsonResult {A} data.

(** An error of the HTTP backend, as far as the handlers look at it:
    errors.Is(err, ErrNotFound), errors.Is(err, ErrLabelExists) and
    err.Error(). *)
Record BackendError := {
  IsNotFound : bool;
  IsLabelExists : bool;
  Error : string
}.

(** ProxyRuleInput; [RuleType] is the field Type. *)
Record ProxyRuleInput := {
  Label : string;
  RuleType : string;
  IsRegex : bool;
  Match : string;
  Replace : string
}.

(** ProxyListRequest *)
Record ProxyListRequest := {
  Host : string;
  Path : string;
  Method : string;
  Status : string;
  Contains : string;
  ContainsBody : string;
  Since : string;
  ExcludeHost : string;
  ExcludePath : string;
  Limit : Z
}.

Section Handlers.
(** The rules of the backend, validateRuleType ([Some message]: the
    rule type is rejected with that error text), the four calls of the
    HTTP backend, and Server.processProxyList with its response
    ([inl message]: it failed with that error text). *)
Variable Rule : Type.
Variable validateRuleType : string -> option string.
Variable ListRules : bool -> BackendError + list Rule.
Variable AddRule : bool -> ProxyRuleInput -> BackendError + Rule.
Variable UpdateRule : string -> ProxyRuleInput -> BackendError + Rule.
Variable DeleteRule : string -> option BackendError.
Variable ProxyListResponse : Type.
Variable processProxyList : ProxyListRequest -> string + ProxyListResponse.

(** mcpServer.handleProxyList *)
Definition handleProxyList (req : gmap string Mcp.ArgValue)
    : ToolResult ProxyListResponse :=
  let listReq :=
    {| Host := Mcp.GetString req "host" "";
       Path := Mcp.GetString req "path" "";
       Method := Mcp.GetString req "method" "";
       Status := Mcp.GetString req "status" "";
       Contains := Mcp.GetString req "contains" "";
       ContainsBody := Mcp.GetString req "contains_body" "";
       Since := Mcp.GetString req "since" "";
       ExcludeHost := Mcp.GetString req "exclude_host" "";
       ExcludePath := Mcp.GetString req "exclude_path" "";
       Limit := Mcp.GetInt req "limit" 0 |} in
  match processProxyList listReq with
  | inl err => errorResult ("failed to fetch proxy history: " +:+ err)
  | inr resp => jsonResult resp
  end.

(** mcpServer.handleProxyRuleList *)
Definition handleProxyRuleList (req : gmap string Mcp.ArgValue)
    : ToolResult (list Rule) :=
  let websocket := Mcp.GetBool req "websocket" false in
  let limit := Mcp.GetInt req "limit" 0 in
  match ListRules websocket with
  | inl err => errorResult ("failed to list rules: " +:+ Error err)
  | inr rules =>
      let rules :=
        if (0 <? limit)%Z && (limit <? Z.of_nat (length rules))%Z
        then firstn (Z.to_nat limit) rules
        else rules in
      jsonResult rules
  end.

(** mcpServer.handleProxyRuleAdd *)
Definition handleProxyRuleAdd (req : gmap string Mcp.ArgValue)
    : ToolResult Rule :=
  let ruleType := Mcp.GetString req "type" "" in
  if String.eqb ruleType "" then errorResult "type is required"
  else
    match validateRuleType ruleType with
    | Some message => errorResult message
    | None =>
        let match_ := Mcp.GetString req "match" "" in
        let replace := Mcp.GetString req "replace" "" in
        if String.eqb match_ "" && String.eqb replace ""
        then errorResult "match or replace is required"
        else
          let websocket := Mcp.GetBool req "websocket" false in
          let label := Mcp.GetString req "label" "" in
          match AddRule websocket
                  {| Label := label; RuleType := ruleType;
                     IsRegex := Mcp.GetBool req "is_regex" false;
                     Match := match_; Replace := replace |} with
          | inl err =>
              if IsLabelExists err
              then errorResult ("label already exists: " +:+ Error err)
              else errorResult ("failed to add rule: " +:+ Error err)
          | inr rule => jsonResult rule
          end
    end.

(** mcpServer.handleProxyRuleUpdate *)
Definition handleProxyRuleUpdate (req : gmap string Mcp.ArgValue)
    : ToolResult Rule :=
  let ruleID := Mcp.GetString req "rule_id" "" in
  if String.eqb ruleID "" then errorResult "rule_id is required"
  else
    let ruleType := Mcp.GetString req "type" "" in
    if String.eqb ruleType "" then errorResult "type is required"
    else
      match validateRuleType ruleType with
      | Some message => errorResult message
      | None =>
          let match_ := Mcp.GetString req "match" "" in
          let replace := Mcp.GetString req "replace" "" in
          if String.eqb match_ "" && String.eqb replace ""
          then errorResult "match or replace is required"
          else
            match UpdateRule ruleID
                    {| Label := Mcp.GetString req "label" "";
                       RuleType := ruleType;
                       IsRegex := Mcp.GetBool req "is_regex" false;
                       Match := match_; Replace := replace |} with
            | inl err =>
                if IsNotFound err then errorResult "rule not found"
                else if IsLabelExists err
                then errorResult ("label already exists: " +:+ Error err)
                else errorResult ("failed to update rule: " +:+ Error err)
            | inr rule => jsonResult rule
            end
      end.

(** mcpServer.handleProxyRuleDelete; [tt] is the empty
    RuleDeleteResponse. *)
Definition handleProxyRuleDelete (req : gmap string Mcp.ArgValue)
    : ToolResult unit :=
  let ruleID := Mcp.GetString req "rule_id" "" in
  if String.eqb ruleID "" then errorResult "rule_id is required"
  else
    match DeleteRule ruleID with
    | Some err =>
        if IsNotFound err then errorResult "rule not found"
        else errorResult ("failed to delete rule: " +:+ Error err)
    | None => jsonResult tt
    end.
End Handlers.

End ProxyRules.

(* ===================================================================== *)
(** ** Listing OAST sessions (oast_handler.go, MCP gateway)               *)
(* ===================================================================== *)

Module OastList.

(** An error of the OAST backend, as far as the handlers look at it:
    errors.Is(err, ErrNotFound), errors.Is(err, ErrLabelExists),
    IsTimeoutError(err) and err.Error(). *)
Record BackendError := {
  IsNotFound : bool;
  IsLabelExists : bool;
  IsTimeout : bool;
  Error : string
}.

(** A session of the OAST backend; CreatedAt is an instant, in
    nanoseconds. *)
Record Session := {
  ID : string;
  Domain : string;
  Label : string;
  CreatedAt : Z
}.

(** OastSession, an entry of OastListResponse.Sessions. *)
Record OastSession := {
  OastID : string;
  ApiDomain : string;
  ApiLabel : string;
  ApiCreatedAt : string
}.

(** time.Time.After *)
Definition After (t u : Z) : bool := (u <? t)%Z.

(** The less function handed to sort.Slice: created later comes first. *)
Definition createdAfter (a b : Session) : bool :=
  After (CreatedAt a) (CreatedAt b).

Section ProcessOastList.
(** oastBackend.ListSessions, sort.Slice over a less function on the
    elements, and t.UTC().Format(time.RFC3339). *)
Variable ListSessions : BackendError + list Session.
Variable sortSlice : (Session -> Session -> bool) -> list Session -> list Session.
Variable formatRFC3339 : Z -> string.

(** The conversion loop of processOastList. *)
Definition apiSession (sess : Session) : OastSession :=
  {| OastID := ID sess; ApiDomain := Domain sess; ApiLabel := Label sess;
     ApiCreatedAt := formatRFC3339 (CreatedAt sess) |}.

(** Server.processOastList *)
Definition processOastList (limit : Z) : BackendError + list OastSession :=
  match ListSessions with
  | inl err => inl err
  | inr sessions =>
      let sessions := sortSlice createdAfter sessions in
      let sessions :=
        if (0 <? limit)%Z && (limit <? Z.of_nat (length sessions))%Z
        then firstn (Z.to_nat limit) sessions
        else sessions in
      inr (map apiSession sessions)
  end.

(** mcpServer.handleOastList *)
Definition handleOastList (req : gmap string Mcp.ArgValue)
    : ProxyRules.ToolResult (list OastSession) :=
  let limit := Mcp.GetInt req "limit" 0 in
  match processOastList limit with
  | inl err =>
      ProxyRules.errorResult ("failed to list OAST sessions: " +:+ Error err)
  | inr resp => ProxyRules.jsonResult resp
  end.
End ProcessOastList.

End OastList.

(* ===================================================================== *)
(** ** OAST sessions over HTTP and over MCP (oast_handler.go, gateway)    *)
(* ===================================================================== *)

Module OastApi.

Import OastList (BackendError, IsNotFound, IsLabelExists, IsTimeout, Error).

(** json.NewDecoder(r.Body).Decode(&req): the decoded request, io.EOF
    on an empty body, or another error. *)
Inductive Decoded (A : Type) :=
| DecodeOK (req : A)
| DecodeEOF
| DecodeFailed (message : string).
Arguments DecodeOK {A} req.
Arguments DecodeEOF {A}.
Arguments DecodeFailed {A} message.

Inductive ErrCode :=
| ErrCodeInvalidRequest
| ErrCodeNotFound
| ErrCodeBackendError
| ErrCodeTimeout.

Definition StatusOK : Z := 200.
Definition StatusBadRequest : Z := 400.
Definition StatusNotFound : Z := 404.
Definition StatusInternalServerError : Z := 500.
Definition StatusGatewayTimeout : Z := 504.

(** What an HTTP handler writes: s.writeError or s.writeJSON. *)
Inductive HttpResponse (A : Type) :=
| writeError (status : Z) (code : ErrCode) (message detail : string)
| writeJSON (status : Z) (data : A).
Arguments writeError {A} status code message detail.
Arguments writeJSON {A} status data.

Record OastCreateRequest := { CreateLabel : string }.
Record OastGetRequest := { GetOastID : string; GetEventID : string }.
Record OastListRequest := { ListLimit : Z }.
Record OastDeleteRequest := { DeleteOastID : string }.

Record OastCreateResponse := {
  CreatedOastID : string;
  CreatedDomain : string;
  CreatedLabel : string
}.

Section Handlers.
(** The details of an event are handed on as they are. *)
Variable Details : Type.

(** An event of the OAST backend; Time is an instant. *)
Record Event := {
  ID : string;
  Time : Z;
  EventType : string;
  SourceIP : string;
  Subdomain : string;
  EventDetails : Details
}.

Record OastGetResponse := {
  RespEventID : string;
  RespTime : string;
  RespType : string;
  RespSourceIP : string;
  RespSubdomain : string;
  RespDetails : Details
}.

(** The calls of the OAST backend, sort.Slice and
    t.UTC().Format(time.RFC3339). *)
Variable CreateSession : string -> BackendError + OastList.Session.
Variable GetEvent : string -> string -> BackendError + Event.
Variable ListSessions : BackendError + list OastList.Session.
Variable DeleteSession : string -> option BackendError.
Variable sortSlice :
  (OastList.Session -> OastList.Session -> bool) ->
  list OastList.Session -> list OastList.Session.
Variable formatRFC3339 : Z -> string.

Definition createResponse (sess : OastList.Session) : OastCreateResponse :=
  {| CreatedOastID := OastList.ID sess; CreatedDomain := OastList.Domain sess;
     CreatedLabel := OastList.Label sess |}.

Definition getResponse (event : Event) : OastGetResponse :=
  {| RespEventID := ID event; RespTime := formatRFC3339 (Time event);
     RespType := EventType event; RespSourceIP := SourceIP event;
     RespSubdomain := Subdomain event; RespDetails := EventDetails event |}.

(** Server.handleOastCreate; an empty body is the zero request. *)
Definition handleOastCreate (decoded : Decoded OastCreateRequest)
    : HttpResponse OastCreateResponse :=
  match decoded with
  | DecodeFailed message =>
      writeError StatusBadRequest ErrCodeInvalidRequest "invalid request body"
        message
  | _ =>
      let label :=
        match decoded with DecodeOK req => CreateLabel req | _ => "" end in
      match CreateSession label with
      | inl err =>
          if IsTimeout err then
            writeError StatusGatewayTimeout ErrCodeTimeout
              "OAST session creation timed out" (Error err)
          else if IsLabelExists err then
            writeError StatusBadRequest ErrCodeInvalidRequest
              "failed to create OAST session" (Error err)
          else
            writeError StatusInternalServerError ErrCodeBackendError
              "failed to create OAST session" (Error err)
      | inr sess => writeJSON StatusOK (createResponse sess)
      end
  end.

(** mcpServer.handleOastCreate *)
Definition mcpHandleOastCreate (req : gmap string Mcp.ArgValue)
    : ProxyRules.ToolResult OastCreateResponse :=
  let label := Mcp.GetString req "label" "" in
  match CreateSession label with
  | inl err =>
      ProxyRules.errorResult ("failed to create OAST session: " +:+ Error err)
  | inr sess => ProxyRules.jsonResult (createResponse sess)
  end.

(** Server.handleOastGet *)
Definition handleOastGet (decoded : Decoded OastGetRequest)
    : HttpResponse OastGetResponse :=
  match decoded with
  | DecodeFailed message =>
      writeError StatusBadRequest ErrCodeInvalidRequest "invalid request body"
        message
  | DecodeEOF =>
      writeError StatusBadRequest ErrCodeInvalidRequest "invalid request body"
        "EOF"
  | DecodeOK req =>
      if String.eqb (GetOastID req) "" then
        writeError StatusBadRequest ErrCodeInvalidRequest "oast_id is required" ""
      else if String.eqb (GetEventID req) "" then
        writeError StatusBadRequest ErrCodeInvalidRequest "event_id is required" ""
      else
        match GetEvent (GetOastID req) (GetEventID req) with
        | inl err =>
            if IsNotFound err then
              writeError StatusNotFound ErrCodeNotFound
                "session or event not found" (Error err)
            else
              writeError StatusInternalServerError ErrCodeBackendError
                "failed to get event" (Error err)
        | inr event => writeJSON StatusOK (getResponse event)
        end
  end.

(** mcpServer.handleOastGet *)
Definition mcpHandleOastGet (req : gmap string Mcp.ArgValue)
    : ProxyRules.ToolResult OastGetResponse :=
  let oastID := Mcp.GetString req "oast_id" "" in
  if String.eqb oastID "" then ProxyRules.errorResult "oast_id is required"
  else
    let eventID := Mcp.GetString req "event_id" "" in
    if String.eqb eventID "" then ProxyRules.errorResult "event_id is required"
    else
      match GetEvent oastID eventID with
      | inl err =>
          if IsNotFound err
          then ProxyRules.errorResult "session or event not found"
          else ProxyRules.errorResult ("failed to get event: " +:+ Error err)
      | inr event => ProxyRules.jsonResult (getResponse event)
      end.

(** Server.handleOastList; an empty body is the zero request. *)
Definition handleOastList (decoded : Decoded OastListRequest)
    : HttpResponse (list OastList.OastSession) :=
  match decoded with
  | DecodeFailed message =>
      writeError StatusBadRequest ErrCodeInvalidRequest "invalid request body"
        message
  | _ =>
      let limit :=
        match decoded with DecodeOK req => ListLimit req | _ => 0%Z end in
      match OastList.processOastList ListSessions sortSlice formatRFC3339
              limit with
      | inl err =>
          if IsTimeout err then
            writeError StatusGatewayTimeout ErrCodeTimeout
              "OAST session list timed out" (Error err)
          else
            writeError StatusInternalServerError ErrCodeBackendError
              "failed to list OAST sessions" (Error err)
      | inr resp => writeJSON StatusOK resp
      end
  end.

(** Server.handleOastDelete; [tt] is the empty OastDeleteResponse. *)
Definition handleOastDelete (decoded : Decoded OastDeleteRequest)
    : HttpResponse unit :=
  match decoded with
  | DecodeFailed message =>
      writeError StatusBadRequest ErrCodeInvalidRequest "invalid request body"
        message
  | DecodeEOF =>
      writeError StatusBadRequest ErrCodeInvalidRequest "invalid request body"
        "EOF"
  | DecodeOK req =>
      if String.eqb (DeleteOastID req) "" then
        writeError StatusBadRequest ErrCodeInvalidRequest "oast_id is required" ""
      else
        match DeleteSession (DeleteOastID req) with
        | Some err =>
            if IsNotFound err then
              writeError StatusNotFound ErrCodeNotFound "session not found"
                (Error err)
            else
              writeError StatusInternalServerError ErrCodeBackendError
                "failed to delete session" (Error err)
        | None => writeJSON StatusOK tt
        end
  end.

(** mcpServer.handleOastDelete *)
Definition mcpHandleOastDelete (req : gmap string Mcp.ArgValue)
    : ProxyRules.ToolResult unit :=
  let oastID := Mcp.GetString req "oast_id" "" in
  if String.eqb oastID "" then ProxyRules.errorResult "oast_id is required"
  else
    match DeleteSession oastID with
    | Some err =>
        if IsNotFound err then ProxyRules.errorResult "session not found"
        else ProxyRules.errorResult ("failed to delete session: " +:+ Error err)
    | None => ProxyRules.jsonResult tt
    end.
End Handlers.

End OastApi.

(* ===================================================================== *)
(** ** The base64 tool (MCP gateway)                                      *)
(* ===================================================================== *)

Module Encode.

(** The results of the encode handlers: the error results, by their
    message, and the text result. *)
Inductive EncodeResult :=
| InputRequired
| URLDecodeError (message : string)
| Base64DecodeError
| Text (result : string).

(** base64.StdEncoding skips carriage returns and line feeds in its
    input. *)
Fixpoint dropLineBreaks (s : string) : string :=
  match s with
  | EmptyString => EmptyString
  | String c s' =>
      if Ascii.eqb c CR || Ascii.eqb c LF then dropLineBreaks s'
      else String c (dropLineBreaks s')
  end.

(** mcpServer.handleEncodeBase64 *)
Definition handleEncodeBase64 (req : gmap string Mcp.ArgValue) : EncodeResult :=
  let input := Mcp.GetString req "input" "" in
  if String.eqb input "" then InputRequired
  else
    let decode := Mcp.GetBool req "decode" false in
    if decode then
      match Base64.DecodeString (dropLineBreaks input) with
      | None => Base64DecodeError
      | Some decoded => Text decoded
      end
    else Text (Base64.EncodeToString input).

Section StandardLibrary.
(** url.QueryEscape, url.QueryUnescape ([inl message]: it failed with
    that error text), html.EscapeString and html.UnescapeString. *)
Variable QueryEscape : string -> string.
Variable QueryUnescape : string -> string + string.
Variable EscapeString : string -> string.
Variable UnescapeString : string -> string.

(** mcpServer.handleEncodeURL *)
Definition handleEncodeURL (req : gmap string Mcp.ArgValue) : EncodeResult :=
  let input := Mcp.GetString req "input" "" in
  if String.eqb input "" then InputRequired
  else
    let decode := Mcp.GetBool req "decode" false in
    if decode then
      match QueryUnescape input with
      | inl message => URLDecodeError message
      | inr decoded => Text decoded
      end
    else Text (QueryEscape input).

(** mcpServer.handleEncodeHTML *)
Definition handleEncodeHTML (req : gmap string Mcp.ArgValue) : EncodeResult :=
  let input := Mcp.GetString req "input" "" in
  if String.eqb input "" then InputRequired
  else
    let decode := Mcp.GetBool req "decode" false in
    if decode then Text (UnescapeString input)
    else Text (EscapeString input).
End StandardLibrary.

End Encode.

(* ===================================================================== *)
(** ** Tool declarations (MCP gateway)                                    *)
(* ===================================================================== *)

Module Tools.

Inductive ParamKind := KString | KNumber | KBoolean | KArray.

(** A declared parameter: mcp.WithString, WithNumber, WithBoolean or
    WithArray, its name, and whether it carries mcp.Required(). *)
Record Param := {
  kind : ParamKind;
  name : string;
  required : bool
}.

Definition WithString (n : string) (r : bool) : Param :=
  {| kind := KString; name := n; required := r |}.
Definition WithNumber (n : string) : Param :=
  {| kind := KNumber; name := n; required := false |}.
Definition WithBoolean (n : string) : Param :=
  {| kind := KBoolean; name := n; required := false |}.
Definition WithArray (n : string) : Param :=
  {| kind := KArray; name := n; required := false |}.

Definition proxyListTool : list Param :=
  [WithString "host" false; WithString "path" false;
   WithString "method" false; WithString "status" false;
   WithString "contains" false; WithString "contains_body" false;
   WithString "since" false; WithString "exclude_host" false;
   WithString "exclude_path" false; WithNumber "limit"].

Definition proxyRuleListTool : list Param :=
  [WithBoolean "websocket"; WithNumber "limit"].

Definition proxyRuleAddTool : list Param :=
  [WithString "type" true; WithString "match" false;
   WithString "replace" false; WithString "label" false;
   WithBoolean "is_regex"; WithBoolean "websocket"].

Definition proxyRuleUpdateTool : list Param :=
  [WithString "rule_id" true; WithString "type" true;
   WithString "match" false; WithString "replace" false;
   WithString "label" false; WithBoolean "is_regex"].

Definition proxyRuleDeleteTool : list Param :=
  [WithString "rule_id" true].

Definition replaySendTool : list Param :=
  [WithString "flow_id" true; WithString "body" false;
   WithString "target" false; WithArray "add_headers";
   WithArray "remove_headers"; WithString "path" false;
   WithString "query" false; WithArray "set_query";
   WithArray "remove_query"; WithArray "set_json"; WithArray "remove_json";
   WithBoolean "follow_redirects"; WithString "timeout" false;
   WithBoolean "force"].

Definition replayGetTool : list Param :=
  [WithString "replay_id" true].

Definition oastCreateTool : list Param :=
  [WithString "label" false].

Definition oastPollTool : list Param :=
  [WithString "oast_id" true; WithString "since" false;
   WithString "wait" false; WithNumber "limit"].

Definition oastGetTool : list Param :=
  [WithString "oast_id" true; WithString "event_id" true].

Definition oastListTool : list Param :=
  [WithNumber "limit"].

Definition oastDeleteTool : list Param :=
  [WithString "oast_id" true].

Definition encodeURLTool : list Param :=
  [WithString "input" true; WithBoolean "decode"].

Definition encodeBase64Tool : list Param :=
  [WithString "input" true; WithBoolean "decode"].

Definition encodeHTMLTool : list Param :=
  [WithString "input" true; WithBoolean "decode"].

(** The names a tool declares, and the names it requires. *)
Definition declared (tool : list Param) : list string := map name tool.

Definition requiredNames (tool : list Param) : list string :=
  map name (List.filter required tool).

(** Two argument objects that hold the same values under the names in
    [keys]. *)
Definition agreeOn (keys : list string) (req1 req2 : gmap string Mcp.ArgValue)
    : Prop :=
  forall k, In k keys -> req1 !! k = req2 !! k.

End Tools.

(* ===================================================================== *)
(** ** Configuration file (package config)                                *)
(* ===================================================================== *)

Module Config.

Definition Version : string := "0.0.1".
Definition DefaultBurpMCPURL : string := "http://127.0.0.1:9876/sse".

(** Config; [ConfigVersion] is the field Version, InitializedAt an
    instant. *)
Record Config := {
  ConfigVersion : string;
  InitializedAt : Z;
  LastInitMode : string;
  BurpMCPURL : string;
  PreserveGuides : bool
}.

(** An error of package os, as far as the callers look at it:
    errors.Is(err, os.ErrNotExist) and err.Error(). *)
Record OsError := {
  IsNotExist : bool;
  OsErrorText : string
}.

(** The errors of Load: the one of os.ReadFile, or the one of
    json.Unmarshal (its text). *)
Inductive LoadError :=
| ReadFailed (err : OsError)
| UnmarshalFailed (message : string).

(** errors.Is(err, os.ErrNotExist) on an error of Load: the errors of
    encoding/json wrap no file-system error. *)
Definition isNotExist (err : LoadError) : bool :=
  match err with
  | ReadFailed e => IsNotExist e
  | UnmarshalFailed _ => false
  end.

(** The errors of Save. *)
Inductive SaveError :=
| ConfigIsNil
| MarshalFailed (message : string)
| WriteFailed (err : OsError).

(** DefaultConfig; [now] is time.Now().UTC(). *)
Definition DefaultConfig (now : Z) (version : string) : Config :=
  {| ConfigVersion := version; InitializedAt := now; LastInitMode := "";
     BurpMCPURL := DefaultBurpMCPURL; PreserveGuides := false |}.

Section Load.
(** os.ReadFile, and json.Unmarshal into a zero Config ([inl message]:
    it failed with that error text). *)
Variable ReadFile : string -> OsError + string.
Variable Unmarshal : string -> string + Config.

(** Load *)
Definition Load (path : string) : LoadError + Config :=
  match ReadFile path with
  | inl err => inl (ReadFailed err)
  | inr data =>
      match Unmarshal data with
      | inl message => inl (UnmarshalFailed message)
      | inr cfg =>
          if String.eqb (BurpMCPURL cfg) ""
          then inr {| ConfigVersion := ConfigVersion cfg;
                      InitializedAt := InitializedAt cfg;
                      LastInitMode := LastInitMode cfg;
                      BurpMCPURL := DefaultBurpMCPURL;
                      PreserveGuides := PreserveGuides cfg |}
          else inr cfg
      end
  end.
End Load.

End Config.

(* ===================================================================== *)
(** ** sectool init (package initialize)                                  *)
(* ===================================================================== *)

Module Initialize.
Import Config.

Definition exploreFileName : string := "AGENT-explore.md".
Definition testReportFileName : string := "AGENT-test-report.md".

(** service.ServicePaths, the fields that run uses. *)
Record ServicePaths := {
  WorkDir : string;
  SectoolDir : string;
  ConfigPath : string
}.

(** What run does to the world, in the order it does it: it stops the
    service, removes and creates directories, writes files and prints
    the closing message. Reading (ReadFile, Stat, CheckHealth) leaves
    no trace. A call is listed whether it succeeds or fails. *)
Inductive Call :=
| CallStop (workDir : string)
| CallRemoveAll (path : string)
| CallMkdirAll (path : string) (perm : Z)
| CallWriteFile (path data : string) (perm : Z)
| CallPrintSuccess (outputPath : string) (written : bool).

Inductive RunError :=
| GetwdFailed (err : OsError)
| RemoveSectoolDirFailed (err : OsError)
| CreateSectoolDirFailed (err : OsError)
| LoadConfigFailed (err : LoadError)
| UnknownInitMode (mode : string)
| WriteGuideFailed (err : OsError)
| SaveConfigFailed (err : SaveError).

(** A computation that performs calls and then fails or returns. *)
Definition Run (A : Type) : Type := list Call * (RunError + A).

Definition ret {A : Type} (a : A) : Run A := ([], inr a).

Definition fail {A : Type} (e : RunError) : Run A := ([], inl e).

Definition call (c : Call) : Run unit := ([c], inr tt).

Definition bindRun {A B : Type} (m : Run A) (k : A -> Run B) : Run B :=
  match m with
  | (calls, inl e) => (calls, inl e)
  | (calls, inr a) => let '(calls', r) := k a in (calls ++ calls', r)
  end.

Notation "x <~ m ;; k" := (bindRun m (fun x => k))
  (at level 100, m at next level, right associativity).

Section Run.
(** The world as run meets it: the answers of package os, of the
    service client and of encoding/json, the clock at the two places
    it is read, filepath.Join, service.NewServicePaths and the two
    embedded templates. *)
Variable Getwd : OsError + string.
Variable NewServicePaths : string -> ServicePaths.
Variable CheckHealth : string -> bool.
Variable RemoveAll : string -> option OsError.
Variable MkdirAll : string -> Z -> option OsError.
Variable ReadFile : string -> OsError + string.
Variable Unmarshal : string -> string + Config.
Variable Stat : string -> bool.
Variable WriteFile : string -> string -> Z -> option OsError.
Variable MarshalIndent : Config -> string + string.
Variable Join : string -> string -> string.
Variable nowCreated nowWritten : Z.
Variable exploreGuide testReportGuide : string.

(** Config.Save; the receiver is [None] when it is nil. *)
Definition Save (c : option Config) (path : string) : Run unit :=
  match c with
  | None => fail (SaveConfigFailed ConfigIsNil)
  | Some cfg =>
      match MarshalIndent cfg with
      | inl message => fail (SaveConfigFailed (MarshalFailed message))
      | inr data =>
          _ <~ call (CallWriteFile path data 384 (* 0600 *)) ;;
          match WriteFile path data 384 with
          | Some err => fail (SaveConfigFailed (WriteFailed err))
          | None => ret tt
          end
      end
  end.

(** performReset *)
Definition performReset (paths : ServicePaths) : Run unit :=
  _ <~ (if CheckHealth (WorkDir paths) then call (CallStop (WorkDir paths))
        else ret tt) ;;
  _ <~ call (CallRemoveAll (SectoolDir paths)) ;;
  match RemoveAll (SectoolDir paths) with
  | Some err =>
      if negb (IsNotExist err) then fail (RemoveSectoolDirFailed err)
      else ret tt
  | None => ret tt
  end.

(** loadOrCreateConfig *)
Definition loadOrCreateConfig (path : string) : RunError + Config :=
  match Load ReadFile Unmarshal path with
  | inr cfg => inr cfg
  | inl err =>
      if negb (isNotExist err) then inl (LoadConfigFailed err)
      else inr (DefaultConfig nowCreated Version)
  end.

(** writeGuideIfNeeded *)
Definition writeGuideIfNeeded (outputPath template : string)
    (preserveGuides : bool) : Run bool :=
  if preserveGuides && Stat outputPath then ret false
  else
    _ <~ call (CallWriteFile outputPath template 420 (* 0644 *)) ;;
    match WriteFile outputPath template 420 with
    | Some err => fail (WriteGuideFailed err)
    | None => ret true
    end.

(** The switch of run on the mode: the template and the file name. *)
Definition guideFor (mode : string) : option (string * string) :=
  if String.eqb mode "explore" then Some (exploreGuide, exploreFileName)
  else if String.eqb mode "test-report"
  then Some (testReportGuide, testReportFileName)
  else None.

(** run *)
Definition run (mode : string) (reset : bool) : Run unit :=
  match Getwd with
  | inl err => fail (GetwdFailed err)
  | inr workDir =>
      let paths := NewServicePaths workDir in
      _ <~ (if reset then performReset paths else ret tt) ;;
      _ <~ call (CallMkdirAll (SectoolDir paths) 448 (* 0700 *)) ;;
      match MkdirAll (SectoolDir paths) 448 with
      | Some err => fail (CreateSectoolDirFailed err)
      | None =>
          match loadOrCreateConfig (ConfigPath paths) with
          | inl err => fail err
          | inr cfg =>
              match guideFor mode with
              | None => fail (UnknownInitMode mode)
              | Some (template, filename) =>
                  let outputPath := Join (SectoolDir paths) filename in
                  written <~ writeGuideIfNeeded outputPath template
                               (PreserveGuides cfg) ;;
                  _ <~ (if written : bool then
                          Save (Some {| ConfigVersion := ConfigVersion cfg;
                                        InitializedAt := nowWritten;
                                        LastInitMode := mode;
                                        BurpMCPURL := BurpMCPURL cfg;
                                        PreserveGuides := PreserveGuides cfg |})
                            (ConfigPath paths)
                        else ret tt) ;;
                  call (CallPrintSuccess outputPath written)
              end
          end
      end
  end.
End Run.

End Initialize.

(* ===================================================================== *)
(** ** Subcommand dispatch (packages oast and service)                    *)
(* ===================================================================== *)

Module Cli.

(** What Parse does with its arguments: it prints the usage and fails
    with "subcommand required", prints the usage and succeeds, hands
    the remaining arguments to the parser of a subcommand and returns
    what that returns ([None]: nil), or fails with
    cli.UnknownSubcommandError. *)
Inductive Outcome :=
| SubcommandRequired
| PrintedUsage
| Ran (result : option string)
| UnknownSubcommandError (group name : string) (subcommands : list string).

Definition oastSubcommands : list string :=
  ["create"; "poll"; "get"; "list"; "delete"; "help"].

Definition serviceSubcommands : list string :=
  ["status"; "stop"; "logs"; "help"].

Section Parse.
(** The parsers of the subcommands; each parses its flags and runs the
    command. *)
Variable parseCreate parsePoll parseGet parseList parseDelete
  : list string -> option string.
Variable parseStatus parseStop parseLogs : list string -> option string.

(** oast.Parse *)
Definition oastParse (args : list string) : Outcome :=
  match args with
  | [] => SubcommandRequired
  | name :: rest =>
      if String.eqb name "create" then Ran (parseCreate rest)
      else if String.eqb name "poll" then Ran (parsePoll rest)
      else if String.eqb name "get" then Ran (parseGet rest)
      else if String.eqb name "list" then Ran (parseList rest)
      else if String.eqb name "delete" then Ran (parseDelete rest)
      else if String.eqb name "help" || String.eqb name "--help"
              || String.eqb name "-h" then PrintedUsage
      else UnknownSubcommandError "oast" name oastSubcommands
  end.

(** service.Parse *)
Definition serviceParse (args : list string) : Outcome :=
  match args with
  | [] => SubcommandRequired
  | name :: rest =>
      if String.eqb name "status" then Ran (parseStatus rest)
      else if String.eqb name "stop" then Ran (parseStop rest)
      else if String.eqb name "logs" then Ran (parseLogs rest)
      else if String.eqb name "help" || String.eqb name "--help"
              || String.eqb name "-h" then PrintedUsage
      else UnknownSubcommandError "service" name serviceSubcommands
  end.
End Parse.

End Cli.

(** Sample collaborators of the proxy rule tools: the rule types the
    tool description lists, and a backend that knows the rule ["r1"]
    and the label ["taken"]. *)
Definition validateRuleTypeSample (ruleType : string) : option string :=
  if existsb (String.eqb ruleType)
       ["request_header"; "request_body"; "response_header"; "response_body"]
  then None
  else Some ("invalid rule type: " +:+ ruleType).

Definition labelExistsSample : ProxyRules.BackendError :=
  {| ProxyRules.IsNotFound := false; ProxyRules.IsLabelExists := true;
     ProxyRules.Error := "label already exists" |}.

Definition notFoundSample : ProxyRules.BackendError :=
  {| ProxyRules.IsNotFound := true; ProxyRules.IsLabelExists := false;
     ProxyRules.Error := "not found" |}.

Definition addRuleSample (websocket : bool) (input : ProxyRules.ProxyRuleInput)
    : ProxyRules.BackendError + (string * ProxyRules.ProxyRuleInput) :=
  if String.eqb (ProxyRules.Label input) "taken" then inl labelExistsSample
  else inr ("r2", input).

Definition updateRuleSample (ruleID : string) (input : ProxyRules.ProxyRuleInput)
    : ProxyRules.BackendError + (string * ProxyRules.ProxyRuleInput) :=
  if negb (String.eqb ruleID "r1") then inl notFoundSample
  else if String.eqb (ProxyRules.Label input) "taken" then inl labelExistsSample
  else inr (ruleID, input).

Definition deleteRuleSample (ruleID : string) : option ProxyRules.BackendError :=
  if String.eqb ruleID "r1" then None else Some notFoundSample.

Definition listRulesSample (websocket : bool)
    : ProxyRules.BackendError + list (string * ProxyRules.ProxyRuleInput) :=
  inr [].

Definition proxyRuleUpdateSample : gmap string Mcp.ArgValue :=
  <["rule_id" := Mcp.AString "r1"]>
    (<["type" := Mcp.AString "request_header"]>
       (<["replace" := Mcp.AString "X-Test: 1"]> ∅)).

(** Three sessions, the newest in the middle, and an insertion sort in
    the place of sort.Slice. *)
Definition sessionsSample : list OastList.Session :=
  [{| OastList.ID := "a"; OastList.Domain := "a.oast.fun";
      OastList.Label := ""; OastList.CreatedAt := 10 |};
   {| OastList.ID := "b"; OastList.Domain := "b.oast.fun";
      OastList.Label := "ssrf"; OastList.CreatedAt := 30 |};
   {| OastList.ID := "c"; OastList.Domain := "c.oast.fun";
      OastList.Label := ""; OastList.CreatedAt := 20 |}].

Fixpoint insertBy {A : Type} (less : A -> A -> bool) (x : A) (l : list A)
    : list A :=
  match l with
  | [] => [x]
  | y :: l' => if less x y then x :: l else y :: insertBy less x l'
  end.

Definition insertionSort {A : Type} (less : A -> A -> bool) (l : list A)
    : list A :=
  fold_right (insertBy less) [] l.

Definition formatSample (t : Z) : string := itoa (Z.to_nat t).

Definition sessionGoneSample : OastList.BackendError :=
  {| OastList.IsNotFound := true; OastList.IsLabelExists := false;
     OastList.IsTimeout := false; OastList.Error := "session not found" |}.

Definition createSessionSample (label : string)
    : OastList.BackendError + OastList.Session :=
  inr {| OastList.ID := "d"; OastList.Domain := "d.oast.fun";
         OastList.Label := label; OastList.CreatedAt := 40 |}.

Definition encodeSample : gmap string Mcp.ArgValue :=
  <["input" := Mcp.AString "hello"]> ∅.

Definition decodeSample : gmap string Mcp.ArgValue :=
  <["input" := Mcp.AString "aGVsbG8="]> (<["decode" := Mcp.ABool true]> ∅).

(** The calls of the reset step of run, and the file writes among a
    list of calls. *)
Definition resetCalls (CheckHealth : string -> bool)
    (paths : Initialize.ServicePaths) (reset : bool) : list Initialize.Call :=
  if reset then
    (if CheckHealth (Initialize.WorkDir paths)
     then [Initialize.CallStop (Initialize.WorkDir paths)] else [])
    ++ [Initialize.CallRemoveAll (Initialize.SectoolDir paths)]
  else [].

Definition isWrite (c : Initialize.Call) : bool :=
  match c with
  | Initialize.CallWriteFile _ _ _ => true
  | _ => false
  end.

(** The configuration that run saves after writing the guide. *)
Definition stamped (cfg : Config.Config) (mode : string) (now : Z)
    : Config.Config :=
  {| Config.ConfigVersion := Config.ConfigVersion cfg;
     Config.InitializedAt := now;
     Config.LastInitMode := mode;
     Config.BurpMCPURL := Config.BurpMCPURL cfg;
     Config.PreserveGuides := Config.PreserveGuides cfg |}.

(** A sample world for sectool init: a fresh working directory, a
    healthy service, and calls that all succeed. *)
Definition pathsSample (workDir : string) : Initialize.ServicePaths :=
  {| Initialize.WorkDir := workDir;
     Initialize.SectoolDir := workDir +:+ "/.sectool";
     Initialize.ConfigPath := workDir +:+ "/.sectool/config.json" |}.

Definition readFileMissingSample (path : string) : Config.OsError + string :=
  inl {| Config.IsNotExist := true;
         Config.OsErrorText := "no such file or directory" |}.

Definition unmarshalSample (data : string) : string + Config.Config :=
  inl "unexpected end of JSON input".

Definition marshalSample (cfg : Config.Config) : string + string :=
  inr ("last_init_mode=" +:+ Config.LastInitMode cfg).

Definition joinSample (dir file : string) : string := dir +:+ "/" +:+ file.

Definition runSample (mode : string) (reset : bool) : Initialize.Run unit :=
  Initialize.run (inr "/work") pathsSample (fun _ => true) (fun _ => None)
    (fun _ _ => None) readFileMissingSample unmarshalSample (fun _ => false)
    (fun _ _ _ => None) marshalSample joinSample 100 101 "explore guide"
    "report guide" mode reset.

(** An HTTP answer and a tool result that say the same: both carry the
    same data, the HTTP one with status 200, or both are errors, the
    HTTP one with a 4xx or 5xx status. *)
Definition sameAnswer {A : Type} (h : OastApi.HttpResponse A)
    (t : ProxyRules.ToolResult A) : Prop :=
  match h, t with
  | OastApi.writeJSON status data, ProxyRules.jsonResult data' =>
      status = 200%Z /\ data = data'
  | OastApi.writeError status _ _ _, ProxyRules.errorResult _ =>
      (400 <= status < 600)%Z
  | _, _ => False
  end.

(** A validator that reports one warning and no error. *)
Definition validateWarnSample (raw : string) : list Replay.validationIssue :=
  [{| Replay.Severity := "warning"; Replay.Message := "odd header" |}].

(** The header block of the request built from [baseRequestSample] and
    [replaySendSample]. *)
Definition builtHeadersSample : string :=
  crlf "POST /api HTTP/1.1" +:+ crlf "Host: example.com"
    +:+ crlf "Content-Length: 8" +:+ CRLF.

(* ===================================================================== *)
(** * Properties                                                          *)
(* ===================================================================== *)

(* ===================================================================== *)
(** ** Bytes and lines: cutting at a separator                            *)
(* ===================================================================== *)

Lemma append_cons (c : ascii) (s t : string) :
  String c s +:+ t = String c (s +:+ t).
Proof. reflexivity. Qed.

Lemma append_nil_l (s : string) : "" +:+ s = s.
Proof. reflexivity. Qed.

Lemma append_nil_r (s : string) : s +:+ "" = s.
Proof. induction s as [| c s IH]; [reflexivity |]. rewrite append_cons, IH. reflexivity. Qed.

Lemma append_assoc (s t u : string) : (s +:+ t) +:+ u = s +:+ (t +:+ u).
Proof.
  induction s as [| c s IH]; [reflexivity |].
  rewrite !append_cons, IH. reflexivity.
Qed.

Lemma length_append (s t : string) :
  String.length (s +:+ t) = (String.length s + String.length t)%nat.
Proof.
  induction s as [| c s IH]; [reflexivity |].
  rewrite append_cons. cbn. rewrite IH. reflexivity.
Qed.

Lemma cut_eq (sep s : string) :
  cut sep s =
  if hasPrefix sep s then Some ("", dropBytes (String.length sep) s)
  else match s with
       | "" => None
       | String c s' =>
           match cut sep s' with
           | Some (before, after) => Some (String c before, after)
           | None => None
           end
       end.
Proof. destruct s; reflexivity. Qed.

Lemma hasPrefix_app (sep s : string) : hasPrefix sep (sep +:+ s) = true.
Proof.
  induction sep as [| c sep IH]; [reflexivity |].
  rewrite append_cons. cbn. rewrite Ascii.eqb_refl. exact IH.
Qed.

Lemma dropBytes_app (sep s : string) : dropBytes (String.length sep) (sep +:+ s) = s.
Proof. induction sep as [| c sep IH]; [reflexivity | exact IH]. Qed.

Lemma hasPrefix_true (sep s : string) :
  hasPrefix sep s = true -> s = sep +:+ dropBytes (String.length sep) s.
Proof.
  revert s. induction sep as [| c sep IH]; intros s H; [reflexivity |].
  destruct s as [| d s]; [discriminate |]. cbn in H.
  destruct (Ascii.eqb_spec c d) as [-> |]; [| discriminate].
  rewrite append_cons. cbn. f_equal. apply IH, H.
Qed.

(** What [cut] returns is a decomposition of its argument. *)
Lemma cut_Some (sep s before after : string) :
  cut sep s = Some (before, after) -> s = before +:+ sep +:+ after.
Proof.
  revert before. induction s as [| c s IH]; intros before; rewrite cut_eq.
  - destruct (hasPrefix sep "") eqn:Hp; [| discriminate].
    intros H. inversion H; subst. apply hasPrefix_true in Hp. exact Hp.
  - destruct (hasPrefix sep (String c s)) eqn:Hp.
    + intros H. inversion H; subst. apply hasPrefix_true in Hp. exact Hp.
    + destruct (cut sep s) as [[b a] |] eqn:Hc; [| discriminate].
      intros H. inversion H; subst. rewrite append_cons. f_equal. apply IH.
      reflexivity.
Qed.

(** [cut] skips a stretch in which the separator does not start. *)
Lemma cut_skip (sep l rest : string) :
  noPrefixIn sep l rest = true ->
  cut sep (l +:+ rest) =
  match cut sep rest with
  | Some (before, after) => Some (l +:+ before, after)
  | None => None
  end.
Proof.
  induction l as [| c l IH]; intros H.
  - rewrite append_nil_l. destruct (cut sep rest) as [[b a] |]; reflexivity.
  - cbn [noPrefixIn] in H. apply andb_true_iff in H as [Hp Hl].
    apply negb_true_iff in Hp. rewrite cut_eq, Hp, append_cons, (IH Hl).
    destruct (cut sep rest) as [[b a] |]; reflexivity.
Qed.

(** The first occurrence of the separator is where [cut] cuts. *)
Lemma cut_first (sep l rest : string) :
  noPrefixIn sep l (sep +:+ rest) = true ->
  cut sep (l +:+ sep +:+ rest) = Some (l, rest).
Proof.
  intros H. rewrite (cut_skip _ _ _ H), cut_eq, hasPrefix_app, dropBytes_app.
  rewrite append_nil_r. reflexivity.
Qed.

(** A one-byte separator that does not occur in [l]. *)
Lemma noPrefixIn_byte (ch : ascii) (l rest : string) :
  cut (String ch "") l = None -> noPrefixIn (String ch "") l rest = true.
Proof.
  induction l as [| c l IH]; [reflexivity |].
  rewrite cut_eq. cbn [hasPrefix noPrefixIn]. rewrite append_cons. cbn [hasPrefix].
  destruct (Ascii.eqb ch c); [discriminate |].
  destruct (cut (String ch "") l) as [[b a] |]; [discriminate |].
  intros _. cbn. apply IH. reflexivity.
Qed.

Lemma cut_first_byte (ch : ascii) (l rest : string) :
  cut (String ch "") l = None ->
  cut (String ch "") (l +:+ String ch rest) = Some (l, rest).
Proof.
  intros H. apply (cut_first (String ch "") l rest), noPrefixIn_byte, H.
Qed.

(** A line without CRLF, followed by something that does not start with
    LF: no CRLF starts inside the line. *)
Lemma noPrefixIn_CRLF (l rest : string) :
  cut CRLF l = None ->
  hasPrefix (String LF "") rest = false ->
  noPrefixIn CRLF l rest = true.
Proof.
  intros Hl Hrest. induction l as [| c l IH]; [reflexivity |].
  rewrite cut_eq in Hl.
  destruct (hasPrefix CRLF (String c l)) eqn:Hp; [discriminate |].
  destruct (cut CRLF l) as [[b a] |] eqn:Hc; [discriminate |].
  cbn [noPrefixIn]. rewrite (IH eq_refl), andb_true_r. apply negb_true_iff.
  rewrite append_cons. unfold CRLF in *. cbn [hasPrefix] in *.
  destruct (Ascii.eqb CR c); [| reflexivity].
  destruct l as [| d l]; [exact Hrest |].
  rewrite append_cons. cbn [hasPrefix]. exact Hp.
Qed.

Lemma cut_CRLF_first (l rest : string) :
  cut CRLF l = None -> cut CRLF (l +:+ CRLF +:+ rest) = Some (l, rest).
Proof.
  intros H. apply cut_first, noPrefixIn_CRLF; [exact H | reflexivity].
Qed.

(* ===================================================================== *)
(** ** OAST long-poll cap                                                 *)
(* ===================================================================== *)

Section OastPollCap.
Variable ParseDuration : string -> option Z.

Lemma eqb_empty_false (s : string) : s <> "" -> String.eqb s "" = false.
Proof. intros H. apply String.eqb_neq. exact H. Qed.

(** The capping step alone: what both handlers do with a parsed wait. *)
Lemma cap_is_min (w : Z) :
  (if (w >? 120 * Oast.Second)%Z then (120 * Oast.Second)%Z else w)
  = Z.min w (120 * Oast.Second).
Proof.
  destruct (Z.gtb_spec w (120 * Oast.Second)) as [Hgt | Hle]; lia.
Qed.

Lemma handleOastPoll_wait (req : Oast.OastPollRequest) (w : Z) :
  Oast.OastID req <> "" ->
  Oast.Wait req <> "" ->
  ParseDuration (Oast.Wait req) = Some w ->
  Oast.handleOastPoll ParseDuration (Some req)
  = inr {| Oast.pollID := Oast.OastID req;
           Oast.pollSince := Oast.Since req;
           Oast.pollWait := Z.min w (120 * Oast.Second);
           Oast.pollLimit := Oast.Limit req |}.
Proof.
  intros Hid Hwait Hparse. unfold Oast.handleOastPoll.
  rewrite (eqb_empty_false _ Hid), (eqb_empty_false _ Hwait), Hparse.
  cbn [negb]. rewrite <- cap_is_min.
  destruct (w >? 120 * Oast.Second)%Z; reflexivity.
Qed.

Lemma mcpHandleOastPoll_wait (req : gmap string Mcp.ArgValue) (w : Z) :
  Mcp.GetString req "oast_id" "" <> "" ->
  Mcp.GetString req "wait" "" <> "" ->
  ParseDuration (Mcp.GetString req "wait" "") = Some w ->
  Oast.mcpHandleOastPoll ParseDuration req
  = inr {| Oast.pollID := Mcp.GetString req "oast_id" "";
           Oast.pollSince := Mcp.GetString req "since" "";
           Oast.pollWait := Z.min w (120 * Oast.Second);
           Oast.pollLimit := Mcp.GetInt req "limit" 0 |}.
Proof.
  intros Hid Hwait Hparse. unfold Oast.mcpHandleOastPoll.
  rewrite (eqb_empty_false _ Hid), (eqb_empty_false _ Hwait), Hparse.
  cbn [negb]. rewrite <- cap_is_min.
  destruct (w >? 120 * Oast.Second)%Z; reflexivity.
Qed.
End OastPollCap.

(** C8. For every poll request that carries a positive wait [w] (a wait
    string that time.ParseDuration accepts as [w > 0]), the wait handed to
    the backend's PollSession is [min w 120s], on the local-socket handler
    and on the MCP gateway handler alike; in particular a wait above 120
    seconds becomes exactly 120 seconds. *)
Theorem oast_poll_wait_is_min_120s
    (ParseDuration : string -> option Z)
    (req : Oast.OastPollRequest) (mreq : gmap string Mcp.ArgValue) (w : Z) :
  (0 < w)%Z ->
  Oast.OastID req <> "" ->
  Oast.Wait req <> "" ->
  ParseDuration (Oast.Wait req) = Some w ->
  Mcp.GetString mreq "oast_id" "" <> "" ->
  Mcp.GetString mreq "wait" "" = Oast.Wait req ->
  (exists call,
      Oast.handleOastPoll ParseDuration (Some req) = inr call /\
      Oast.pollWait call = Z.min w (120 * Oast.Second) /\
      ((120 * Oast.Second < w)%Z -> Oast.pollWait call = 120000000000%Z)) /\
  (exists call,
      Oast.mcpHandleOastPoll ParseDuration mreq = inr call /\
      Oast.pollWait call = Z.min w (120 * Oast.Second) /\
      ((120 * Oast.Second < w)%Z -> Oast.pollWait call = 120000000000%Z)).
Proof.
  intros Hpos Hid Hwait Hparse Hmid Hmwait.
  assert (Hcap : (120 * Oast.Second < w)%Z ->
                 Z.min w (120 * Oast.Second) = 120000000000%Z).
  { unfold Oast.Second. lia. }
  split.
  - eexists. split; [apply handleOastPoll_wait; eassumption |].
    cbn [Oast.pollWait]. split; [reflexivity | exact Hcap].
  - eexists. split.
    + apply mcpHandleOastPoll_wait; [exact Hmid | | ]; rewrite Hmwait; eassumption.
    + cbn [Oast.pollWait]. split; [reflexivity | exact Hcap].
Qed.

Lemma oast_poll_wait_is_min_120s_witness :
  (exists call,
      Oast.handleOastPoll parseDurationSample (Some pollRequestSample) = inr call /\
      Oast.pollWait call = Z.min (200 * Oast.Second) (120 * Oast.Second) /\
      ((120 * Oast.Second < 200 * Oast.Second)%Z ->
       Oast.pollWait call = 120000000000%Z)) /\
  (exists call,
      Oast.mcpHandleOastPoll parseDurationSample mcpPollRequestSample = inr call /\
      Oast.pollWait call = Z.min (200 * Oast.Second) (120 * Oast.Second) /\
      ((120 * Oast.Second < 200 * Oast.Second)%Z ->
       Oast.pollWait call = 120000000000%Z)).
Proof.
  apply (oast_poll_wait_is_min_120s parseDurationSample pollRequestSample
           mcpPollRequestSample (200 * Oast.Second)%Z).
  - reflexivity.
  - discriminate.
  - discriminate.
  - reflexivity.
  - vm_compute. discriminate.
  - vm_compute. reflexivity.
Defined.

(* ===================================================================== *)
(** ** The secure listener                                                *)
(* ===================================================================== *)

Section SecureListener.
Import SocketSecurity.

Lemma verify_supported_uid (p : Platform) (serverUID : Z) (conn : Conn) :
  peerCredentialsSupported p = true ->
  verifyPeerCredentials p serverUID conn = None ->
  peerUID conn = serverUID.
Proof.
  intros Hp Hv. destruct p; try discriminate Hp; cbn in Hv;
    destruct (isUnixConn conn), (syscallConnOK conn), (controlOK conn),
             (getsockoptOK conn); cbn in Hv; try discriminate Hv;
    destruct (Z.eqb_spec (peerUID conn) serverUID); cbn in Hv;
    congruence.
Qed.

Lemma verify_supported_mismatch (p : Platform) (serverUID : Z) (conn : Conn) :
  peerCredentialsSupported p = true ->
  peerUID conn <> serverUID ->
  verifyPeerCredentials p serverUID conn <> None.
Proof.
  intros Hp Hne Hv. apply Hne. eapply verify_supported_uid; eassumption.
Qed.

(** Accept consumes a prefix of what the wrapped listener delivers, emits
    only log and close events, closes every connection of the prefix that
    fails the check, and returns only a connection that passes it. *)
Lemma Accept_consumes (p : Platform) (serverUID : Z) (incoming : list Incoming) :
  forall evs res rest,
    Accept p serverUID incoming = (evs, res, rest) ->
    Forall isRejectEvent evs /\
    (forall conn, res = Accepted conn ->
                  verifyPeerCredentials p serverUID conn = None) /\
    exists consumed,
      incoming = consumed ++ rest /\
      forall conn, In (InConn conn) consumed ->
                   verifyPeerCredentials p serverUID conn <> None ->
                   In (EvClose conn) evs.
Proof.
  induction incoming as [| i incoming IH]; intros evs res rest H; cbn in H.
  - inversion H; subst. split; [constructor |]. split; [discriminate |].
    exists []. split; [reflexivity | intros ? []].
  - destruct i as [msg | conn].
    + inversion H; subst. split; [constructor |]. split; [discriminate |].
      exists [InError msg]. split; [reflexivity |].
      intros c [Hc | []]. discriminate Hc.
    + destruct (verifyPeerCredentials p serverUID conn) as [err |] eqn:Hv.
      * destruct (Accept p serverUID incoming) as [[evs' res'] rest'] eqn:Hrec.
        inversion H; subst.
        destruct (IH _ _ _ eq_refl) as (Hevs & Hres & consumed & Hcons & Hclosed).
        split; [repeat constructor; exact Hevs |].
        split; [exact Hres |].
        exists (InConn conn :: consumed). split; [cbn; congruence |].
        intros c [Hc | Hc] Hbad.
        -- inversion Hc; subst. right. left. reflexivity.
        -- right. right. apply Hclosed; assumption.
      * inversion H; subst. split; [constructor |].
        split; [intros c Hc; inversion Hc; subst; exact Hv |].
        exists [InConn conn]. split; [reflexivity |].
        intros c [Hc | []] Hbad. inversion Hc; subst. contradiction.
Qed.

(** Rejected connections do not stop the listener: Accept skips them and
    returns the next connection that passes the check. *)
Lemma Accept_skips_rejected (p : Platform) (serverUID : Z)
    (rejected : list Conn) (good : Conn) (rest : list Incoming) :
  Forall (fun c => verifyPeerCredentials p serverUID c <> None) rejected ->
  verifyPeerCredentials p serverUID good = None ->
  exists evs,
    Accept p serverUID (map InConn rejected ++ InConn good :: rest)
    = (evs, Accepted good, rest).
Proof.
  intros Hrej Hgood. induction Hrej as [| c rejected Hc _ IH]; cbn.
  - rewrite Hgood. eexists. reflexivity.
  - destruct (verifyPeerCredentials p serverUID c) as [err |] eqn:Hv;
      [| contradiction].
    destruct IH as [evs IH]. rewrite IH. eexists. reflexivity.
Qed.
End SecureListener.

(** C2, as stated, fails on the build without peer credentials
    ([!linux && !darwin]): there verifyPeerCredentials is a no-op and Accept
    returns a connection of a peer whose UID is not the daemon's. *)
Lemma secure_listener_other_build_counterexample :
  ~ (forall (p : SocketSecurity.Platform) (serverUID : Z)
            (incoming : list SocketSecurity.Incoming) evs conn rest,
        SocketSecurity.Accept p serverUID incoming
        = (evs, SocketSecurity.Accepted conn, rest) ->
        SocketSecurity.peerUID conn = serverUID).
Proof.
  intros H.
  specialize (H SocketSecurity.Other 1000%Z
                [SocketSecurity.InConn connForeign] [] connForeign [] eq_refl).
  discriminate H.
Qed.

(** C2 (amended). On the builds that support peer credentials (linux and
    darwin), whatever the wrapped listener delivers: Accept returns only a
    connection whose peer UID equals the daemon's; every connection it
    consumed whose peer UID differs was closed, with nothing read from it
    and nothing written to it (Accept emits log and close events only);
    and rejected connections do not stop it, the next connection passing
    the check is returned. *)
Theorem secure_listener_verifies_peer
    (p : SocketSecurity.Platform) (serverUID : Z)
    (incoming : list SocketSecurity.Incoming)
    (evs : list SocketSecurity.Event) (res : SocketSecurity.AcceptResult)
    (rest : list SocketSecurity.Incoming) :
  SocketSecurity.peerCredentialsSupported p = true ->
  SocketSecurity.Accept p serverUID incoming = (evs, res, rest) ->
  (forall conn, res = SocketSecurity.Accepted conn ->
                SocketSecurity.peerUID conn = serverUID) /\
  (exists consumed,
      incoming = consumed ++ rest /\
      forall conn,
        In (SocketSecurity.InConn conn) consumed ->
        SocketSecurity.peerUID conn <> serverUID ->
        res <> SocketSecurity.Accepted conn /\
        In (SocketSecurity.EvClose conn) evs /\
        ~ In (SocketSecurity.EvRead conn) evs /\
        ~ In (SocketSecurity.EvWrite conn) evs) /\
  (forall rejected good later,
      Forall (fun c => SocketSecurity.peerUID c <> serverUID) rejected ->
      SocketSecurity.verifyPeerCredentials p serverUID good = None ->
      exists evs',
        SocketSecurity.Accept p serverUID
          (map SocketSecurity.InConn rejected
             ++ SocketSecurity.InConn good :: later)
        = (evs', SocketSecurity.Accepted good, later)).
Proof.
  intros Hp HA.
  destruct (Accept_consumes _ _ _ _ _ _ HA)
    as (Hevs & Hres & consumed & Hcons & Hclosed).
  assert (Hacc : forall conn, res = SocketSecurity.Accepted conn ->
                              SocketSecurity.peerUID conn = serverUID).
  { intros conn Hc. eapply verify_supported_uid; eauto. }
  split; [exact Hacc |]. split.
  - exists consumed. split; [exact Hcons |]. intros conn Hin Hne.
    split; [intros Hc; apply Hne, Hacc, Hc |].
    split; [apply Hclosed; [exact Hin | apply verify_supported_mismatch; assumption] |].
    rewrite List.Forall_forall in Hevs.
    split; intros Hbad; apply (Hevs _ Hbad).
  - intros rejected good later Hrej Hgood.
    apply Accept_skips_rejected; [| exact Hgood].
    eapply List.Forall_impl; [| exact Hrej]. cbn.
    intros c Hc. apply verify_supported_mismatch; assumption.
Qed.

Lemma secure_listener_verifies_peer_witness :
  SocketSecurity.Accept SocketSecurity.Linux 1000
    [SocketSecurity.InConn connForeign; SocketSecurity.InConn connOwn]
  = ([SocketSecurity.EvLogRejected connForeign
        (SocketSecurity.PeerUIDMismatch 0 1000);
      SocketSecurity.EvClose connForeign],
     SocketSecurity.Accepted connOwn, []) /\
  (forall conn, SocketSecurity.Accepted connOwn = SocketSecurity.Accepted conn ->
                SocketSecurity.peerUID conn = 1000%Z) /\
  (exists consumed,
      [SocketSecurity.InConn connForeign; SocketSecurity.InConn connOwn]
      = consumed ++ [] /\
      forall conn,
        In (SocketSecurity.InConn conn) consumed ->
        SocketSecurity.peerUID conn <> 1000%Z ->
        SocketSecurity.Accepted connOwn <> SocketSecurity.Accepted conn /\
        In (SocketSecurity.EvClose conn)
           [SocketSecurity.EvLogRejected connForeign
              (SocketSecurity.PeerUIDMismatch 0 1000);
            SocketSecurity.EvClose connForeign] /\
        ~ In (SocketSecurity.EvRead conn)
           [SocketSecurity.EvLogRejected connForeign
              (SocketSecurity.PeerUIDMismatch 0 1000);
            SocketSecurity.EvClose connForeign] /\
        ~ In (SocketSecurity.EvWrite conn)
           [SocketSecurity.EvLogRejected connForeign
              (SocketSecurity.PeerUIDMismatch 0 1000);
            SocketSecurity.EvClose connForeign]) /\
  (forall rejected good later,
      Forall (fun c => SocketSecurity.peerUID c <> 1000%Z) rejected ->
      SocketSecurity.verifyPeerCredentials SocketSecurity.Linux 1000 good = None ->
      exists evs',
        SocketSecurity.Accept SocketSecurity.Linux 1000
          (map SocketSecurity.InConn rejected
             ++ SocketSecurity.InConn good :: later)
        = (evs', SocketSecurity.Accepted good, later)).
Proof.
  split; [reflexivity |].
  apply (secure_listener_verifies_peer SocketSecurity.Linux 1000%Z
           [SocketSecurity.InConn connForeign; SocketSecurity.InConn connOwn]).
  - reflexivity.
  - reflexivity.
Defined.

(* ===================================================================== *)
(** ** Validation of the socket's parent directory                        *)
(* ===================================================================== *)

Section SocketPath.
Import SocketSecurity.
Variable Dir : string -> string.
Variable Lstat : string -> option FileInfo.

(** Perm() keeps the bits that the 0022 mask looks at. *)
Lemma Perm_land_0022 (info : FileInfo) :
  Z.land (Perm info) 18 = Z.land (fiMode info) 18.
Proof.
  unfold Perm, ModePerm. rewrite <- Z.land_assoc. reflexivity.
Qed.

(** The checks that do not depend on the platform, then the owner. *)
Lemma Validate_nil_iff (p : Platform) (currentUID : Z) (socketPath : string) :
  ValidateSocketPathSecurity Dir Lstat p currentUID socketPath = None <->
  exists info,
    Lstat (Dir socketPath) = Some info /\
    Z.land (fiMode info) ModeSymlink = 0%Z /\
    Z.land (fiMode info) ModeDir <> 0%Z /\
    getFileOwnerUID p currentUID info = Some currentUID /\
    Z.land (fiMode info) 18 = 0%Z.
Proof.
  unfold ValidateSocketPathSecurity, IsDir.
  destruct (Lstat (Dir socketPath)) as [info |].
  2: { split; [discriminate | intros (info & H & _); discriminate H]. }
  rewrite Perm_land_0022.
  destruct (Z.eqb_spec (Z.land (fiMode info) ModeSymlink) 0) as [Hs | Hs]; cbn.
  2: { split; [discriminate |].
       intros (i & Hi & Hs' & _). inversion Hi; subst. contradiction. }
  destruct (Z.eqb_spec (Z.land (fiMode info) ModeDir) 0) as [Hd | Hd]; cbn.
  { split; [discriminate |].
    intros (i & Hi & _ & Hd' & _). inversion Hi; subst. contradiction. }
  destruct (getFileOwnerUID p currentUID info) as [uid |] eqn:Hown.
  2: { split; [discriminate |].
       intros (i & Hi & _ & _ & Ho & _). inversion Hi; subst. congruence. }
  destruct (Z.eqb_spec uid currentUID) as [Hu | Hu]; cbn.
  2: { split; [discriminate |].
       intros (i & Hi & _ & _ & Ho & _). inversion Hi; subst. congruence. }
  subst uid.
  destruct (Z.eqb_spec (Z.land (fiMode info) 18) 0) as [Hm | Hm]; cbn.
  - split; [| reflexivity]. intros _. exists info. auto.
  - split; [discriminate |].
    intros (i & Hi & _ & _ & _ & Hm'). inversion Hi; subst. contradiction.
Qed.
End SocketPath.

(** C5, as stated, fails on the build without peer credentials: there
    getFileOwnerUID returns the current UID, so a parent directory owned by
    root passes the validation run by UID 1000. *)
Lemma validate_socket_path_other_build_counterexample :
  ~ (forall (p : SocketSecurity.Platform) (currentUID : Z) (socketPath : string),
        SocketSecurity.ValidateSocketPathSecurity dirSample lstatSample
          p currentUID socketPath = None <->
        SocketSecurity.parentIsSecure dirSample lstatSample currentUID socketPath).
Proof.
  intros H.
  destruct (proj1 (H SocketSecurity.Other 1000%Z "/run/sectool/service/socket")
              eq_refl) as (info & Hinfo & _ & _ & Hown & _).
  vm_compute in Hinfo. inversion Hinfo; subst. discriminate Hown.
Qed.

(** C5 (amended). On the linux and darwin builds the validation returns nil
    exactly when the parent of the socket path exists (Lstat succeeds), is
    not a symbolic link, is a directory, is owned by the current UID and
    has no write bit for group or others (mode & 0022 = 0), and an error
    otherwise. On the other builds the owner is not checked: it returns
    nil exactly when the other four conditions hold. *)
Theorem validate_socket_path_iff
    (Dir : string -> string)
    (Lstat : string -> option SocketSecurity.FileInfo)
    (p : SocketSecurity.Platform) (currentUID : Z) (socketPath : string) :
  (SocketSecurity.ValidateSocketPathSecurity Dir Lstat p currentUID socketPath
   = None <->
   if SocketSecurity.peerCredentialsSupported p
   then SocketSecurity.parentIsSecure Dir Lstat currentUID socketPath
   else SocketSecurity.parentIsSecureButOwner Dir Lstat socketPath) /\
  (SocketSecurity.ValidateSocketPathSecurity Dir Lstat p currentUID socketPath
   <> None <->
   ~ (if SocketSecurity.peerCredentialsSupported p
      then SocketSecurity.parentIsSecure Dir Lstat currentUID socketPath
      else SocketSecurity.parentIsSecureButOwner Dir Lstat socketPath)).
Proof.
  assert (Hiff :
    SocketSecurity.ValidateSocketPathSecurity Dir Lstat p currentUID socketPath
    = None <->
    if SocketSecurity.peerCredentialsSupported p
    then SocketSecurity.parentIsSecure Dir Lstat currentUID socketPath
    else SocketSecurity.parentIsSecureButOwner Dir Lstat socketPath).
  { rewrite Validate_nil_iff.
    unfold SocketSecurity.parentIsSecure, SocketSecurity.parentIsSecureButOwner.
    destruct p; cbn; split; intros (info & H); exists info; tauto. }
  split; [exact Hiff |]. rewrite Hiff. reflexivity.
Qed.

(* ===================================================================== *)
(** ** The tests of httputil_test.go on the model                         *)
(* ===================================================================== *)

Section HttpUtilTests.
Import HttpUtil.

Example test_splitHeadersBody_body :
  splitHeadersBody (crlf "GET / HTTP/1.1" +:+ crlf "Host: example.com"
                      +:+ CRLF +:+ "body here")
  = (crlf "GET / HTTP/1.1" +:+ crlf "Host: example.com" +:+ CRLF, "body here").
Proof. reflexivity. Qed.

Example test_splitHeadersBody_no_separator :
  splitHeadersBody "malformed request" = ("malformed request", "").
Proof. reflexivity. Qed.

Example test_parseRequestLine_query :
  parseRequestLine "GET /api/users?id=123&role=admin HTTP/1.1"
  = ("GET", "/api/users", "id=123&role=admin", "HTTP/1.1").
Proof. reflexivity. Qed.

Example test_parseRequestLine_empty :
  parseRequestLine "" = ("", "", "", "").
Proof. reflexivity. Qed.

Example test_modifyRequestLine_nil :
  modifyRequestLine (crlf "GET /api/users HTTP/1.1" +:+ hostTail) None
  = crlf "GET /api/users HTTP/1.1" +:+ hostTail.
Proof. reflexivity. Qed.

Example test_modifyRequestLine_empty :
  modifyRequestLine (crlf "GET /api/users HTTP/1.1" +:+ hostTail) (Some noOpts)
  = crlf "GET /api/users HTTP/1.1" +:+ hostTail.
Proof. reflexivity. Qed.

Example test_modifyRequestLine_replace_path_preserves_query :
  modifyRequestLine (crlf "GET /api/users?id=123 HTTP/1.1" +:+ hostTail)
    (Some {| Path := "/api/v2/accounts"; Query := "";
             SetQuery := []; RemoveQuery := [] |})
  = crlf "GET /api/v2/accounts?id=123 HTTP/1.1" +:+ hostTail.
Proof. reflexivity. Qed.

Example test_modifyRequestLine_replace_query :
  modifyRequestLine (crlf "GET /api/users?old=value HTTP/1.1" +:+ hostTail)
    (Some {| Path := ""; Query := "new=param&foo=bar";
             SetQuery := []; RemoveQuery := [] |})
  = crlf "GET /api/users?new=param&foo=bar HTTP/1.1" +:+ hostTail.
Proof. reflexivity. Qed.

Example test_modifyRequestLine_add_query :
  modifyRequestLine (crlf "GET /api/users HTTP/1.1" +:+ hostTail)
    (Some {| Path := ""; Query := "id=123"; SetQuery := []; RemoveQuery := [] |})
  = crlf "GET /api/users?id=123 HTTP/1.1" +:+ hostTail.
Proof. reflexivity. Qed.

Example test_modifyRequestLine_set_query_param :
  modifyRequestLine (crlf "GET /api/users?id=123&role=user HTTP/1.1" +:+ hostTail)
    (Some {| Path := ""; Query := ""; SetQuery := ["role=admin"];
             RemoveQuery := [] |})
  = crlf "GET /api/users?id=123&role=admin HTTP/1.1" +:+ hostTail.
Proof. reflexivity. Qed.

Example test_modifyRequestLine_remove_query_param :
  modifyRequestLine (crlf "GET /api/users?id=123&secret=abc HTTP/1.1" +:+ hostTail)
    (Some {| Path := ""; Query := ""; SetQuery := [];
             RemoveQuery := ["secret"] |})
  = crlf "GET /api/users?id=123 HTTP/1.1" +:+ hostTail.
Proof. reflexivity. Qed.

Example test_modifyRequestLine_preserves_body :
  modifyRequestLine
    (crlf "POST /api/data HTTP/1.1" +:+ crlf "Host: example.com"
       +:+ crlf "Content-Length: 4" +:+ CRLF +:+ "test")
    (Some {| Path := "/api/v2/data"; Query := ""; SetQuery := [];
             RemoveQuery := [] |})
  = crlf "POST /api/v2/data HTTP/1.1" +:+ crlf "Host: example.com"
      +:+ crlf "Content-Length: 4" +:+ CRLF +:+ "test".
Proof. reflexivity. Qed.

Example test_modifyRequestLine_http_2_version_preserved :
  modifyRequestLine (crlf "GET /api/test HTTP/2" +:+ hostTail)
    (Some {| Path := "/api/v2/test"; Query := ""; SetQuery := [];
             RemoveQuery := [] |})
  = crlf "GET /api/v2/test HTTP/2" +:+ hostTail.
Proof. reflexivity. Qed.

Example test_transform_http_2_to_http_1_1 :
  transformRequestForValidation (crlf "POST /api/example HTTP/2" +:+ hostTail)
  = crlf "POST /api/example HTTP/1.1" +:+ hostTail.
Proof. reflexivity. Qed.

Example test_transform_http_1_1_unchanged :
  transformRequestForValidation (crlf "GET / HTTP/1.1" +:+ hostTail)
  = crlf "GET / HTTP/1.1" +:+ hostTail.
Proof. reflexivity. Qed.

Example test_transform_http_1_0_unchanged :
  transformRequestForValidation (crlf "GET / HTTP/1.0" +:+ hostTail)
  = crlf "GET / HTTP/1.0" +:+ hostTail.
Proof. reflexivity. Qed.

Example test_transform_http_2_with_body :
  transformRequestForValidation
    (crlf "POST /api HTTP/2" +:+ crlf "Host: test.com"
       +:+ crlf "Content-Length: 4" +:+ CRLF +:+ "test")
  = crlf "POST /api HTTP/1.1" +:+ crlf "Host: test.com"
      +:+ crlf "Content-Length: 4" +:+ CRLF +:+ "test".
Proof. reflexivity. Qed.

Example test_transform_no_crlf :
  transformRequestForValidation "GET / HTTP/2" = "GET / HTTP/2".
Proof. reflexivity. Qed.
End HttpUtilTests.

(* ===================================================================== *)
(** ** base64: decoding inverts encoding                                  *)
(* ===================================================================== *)

Section Base64RoundTrip.
Import Base64.
Local Open Scope N_scope.

Lemma sextet_cases (P : N -> Prop) :
  (forall k, (k < 64)%nat -> P (N.of_nat k)) -> forall n, n < 64 -> P n.
Proof.
  intros H n Hn. rewrite <- (N2Nat.id n). apply H. lia.
Qed.

(** Every 6-bit value has its own character, none of them the padding. *)
Lemma decode_encode_sextet (n : N) :
  n < 64 ->
  decodeSextet (encodeSextet n) = Some n /\
  Ascii.eqb (encodeSextet n) padding = false.
Proof.
  revert n. apply sextet_cases. intros k Hk.
  do 64 (destruct k as [| k]; [vm_compute; split; reflexivity |]).
  lia.
Qed.

Lemma div_mul_add (a b c : N) : c < b -> (a * b + c) / b = a.
Proof. intros H. symmetry. apply (N.div_unique _ b a c); lia. Qed.

Lemma mod_mul_add (a b c : N) : c < b -> (a * b + c) mod b = c.
Proof. intros H. symmetry. apply (N.mod_unique _ b a c); lia. Qed.

Lemma div_mul_mod (x b : N) : b <> 0 -> x / b * b + x mod b = x.
Proof. intros Hb. rewrite (N.div_mod x b) at 3 by exact Hb. lia. Qed.

Lemma div_below (x b q : N) : b <> 0 -> x < b * q -> x / b < q.
Proof. intros Hb H. apply N.Div0.div_lt_upper_bound. exact H. Qed.

Lemma mod_below (x b : N) : b <> 0 -> x mod b < b.
Proof. intros Hb. apply N.mod_lt. exact Hb. Qed.

(** The four sextets of three bytes are 6-bit values ... *)
Lemma sextets_bounded (x y z : N) :
  x < 256 -> y < 256 -> z < 256 ->
  x / 4 < 64 /\ (x mod 4) * 16 + y / 16 < 64 /\
  (y mod 16) * 4 + z / 64 < 64 /\ z mod 64 < 64.
Proof.
  intros Hx Hy Hz.
  pose proof (div_below x 4 64 ltac:(lia) ltac:(lia)).
  pose proof (div_below y 16 16 ltac:(lia) ltac:(lia)).
  pose proof (div_below z 64 4 ltac:(lia) ltac:(lia)).
  pose proof (mod_below x 4 ltac:(lia)).
  pose proof (mod_below y 16 ltac:(lia)).
  pose proof (mod_below z 64 ltac:(lia)).
  lia.
Qed.

(** ... and the bytes are recovered from them. *)
Lemma first_byte (x y : N) :
  y < 256 -> x / 4 * 4 + ((x mod 4) * 16 + y / 16) / 16 = x.
Proof.
  intros Hy. rewrite div_mul_add by (apply div_below; lia).
  apply div_mul_mod. lia.
Qed.

Lemma second_byte (x y z : N) :
  y < 256 -> z < 256 ->
  (((x mod 4) * 16 + y / 16) mod 16) * 16 + ((y mod 16) * 4 + z / 64) / 4 = y.
Proof.
  intros Hy Hz. rewrite mod_mul_add by (apply div_below; lia).
  rewrite div_mul_add by (apply div_below; lia).
  apply div_mul_mod. lia.
Qed.

Lemma third_byte (y z : N) :
  z < 256 -> (((y mod 16) * 4 + z / 64) mod 4) * 64 + z mod 64 = z.
Proof.
  intros Hz. rewrite mod_mul_add by (apply div_below; lia).
  apply div_mul_mod. lia.
Qed.

(** The same for a final group of one or two bytes. *)
Lemma first_byte_alone (x : N) : x / 4 * 4 + ((x mod 4) * 16) / 16 = x.
Proof. rewrite N.div_mul by lia. apply div_mul_mod. lia. Qed.

Lemma second_byte_last (x y : N) :
  y < 256 ->
  (((x mod 4) * 16 + y / 16) mod 16) * 16 + ((y mod 16) * 4) / 4 = y.
Proof.
  intros Hy. rewrite mod_mul_add by (apply div_below; lia).
  rewrite N.div_mul by lia. apply div_mul_mod. lia.
Qed.

Lemma byte_of_ascii (a : ascii) : N_of_ascii a < 256.
Proof. apply N_ascii_bounded. Qed.

Lemma low_sextet_one (x : N) : (x mod 4) * 16 < 64.
Proof. pose proof (mod_below x 4 ltac:(lia)). lia. Qed.

Lemma low_sextet_two (y : N) : (y mod 16) * 4 < 64.
Proof. pose proof (mod_below y 16 ltac:(lia)). lia. Qed.

Lemma decode_encode_upto (n : nat) :
  forall s, (String.length s <= n)%nat ->
            DecodeString (EncodeToString s) = Some s.
Proof.
  induction n as [| n IH]; intros s Hlen.
  - destruct s; [reflexivity | cbn in Hlen; lia].
  - destruct s as [| a [| b [| c rest]]]; [reflexivity | | |].
    + cbn -[encodeSextet decodeSextet N.div N.modulo N.mul N.add].
      pose proof (byte_of_ascii a) as Ha.
      destruct (decode_encode_sextet (N_of_ascii a / 4)
                  ltac:(apply div_below; lia)) as [-> _].
      destruct (decode_encode_sextet ((N_of_ascii a mod 4) * 16)
                  (low_sextet_one _)) as [-> _].
      cbn -[N.div N.modulo N.mul N.add].
      rewrite first_byte_alone, ascii_N_embedding. reflexivity.
    + cbn -[encodeSextet decodeSextet N.div N.modulo N.mul N.add].
      pose proof (byte_of_ascii a) as Ha. pose proof (byte_of_ascii b) as Hb.
      destruct (sextets_bounded _ _ 0 Ha Hb ltac:(lia)) as (H1 & H2 & _ & _).
      destruct (decode_encode_sextet _ H1) as [-> _].
      destruct (decode_encode_sextet _ H2) as [-> _].
      destruct (decode_encode_sextet _ (low_sextet_two (N_of_ascii b))) as [-> ->].
      cbn -[N.div N.modulo N.mul N.add].
      rewrite first_byte, second_byte_last by lia.
      rewrite !ascii_N_embedding. reflexivity.
    + cbn -[encodeSextet decodeSextet N.div N.modulo N.mul N.add].
      pose proof (byte_of_ascii a) as Ha. pose proof (byte_of_ascii b) as Hb.
      pose proof (byte_of_ascii c) as Hc.
      destruct (sextets_bounded _ _ _ Ha Hb Hc) as (H1 & H2 & H3 & H4).
      destruct (decode_encode_sextet _ H1) as [-> _].
      destruct (decode_encode_sextet _ H2) as [-> _].
      destruct (decode_encode_sextet _ H3) as [-> ->].
      destruct (decode_encode_sextet _ H4) as [-> ->].
      rewrite IH by (cbn in Hlen; lia).
      rewrite first_byte, second_byte, third_byte by lia.
      rewrite !ascii_N_embedding. reflexivity.
Qed.

(** DecodeString (EncodeToString b) = b for every byte sequence. *)
Lemma Base64_round_trip (s : string) :
  DecodeString (EncodeToString s) = Some s.
Proof. apply (decode_encode_upto (String.length s)). lia. Qed.
End Base64RoundTrip.

(* ===================================================================== *)
(** ** The replay store                                                   *)
(* ===================================================================== *)

Example test_store_sets_created_time_when_zero :
  Store.Get "id"
    (Store.Store 77 "id"
       {| Store.Headers := "h1"; Store.Body := "body";
          Store.Duration := Oast.Second; Store.CreatedAt := 0 |}
       Store.NewRequestStore)
  = Some {| Store.Headers := "h1"; Store.Body := "body";
            Store.Duration := Oast.Second; Store.CreatedAt := 77 |}.
Proof. reflexivity. Qed.

Example test_store_preserves_existing_created_time :
  Store.Get "id"
    (Store.Store 77 "id"
       {| Store.Headers := "h2"; Store.Body := "body2";
          Store.Duration := 60 * Oast.Second; Store.CreatedAt := Store.Unix 100 |}
       Store.NewRequestStore)
  = Some {| Store.Headers := "h2"; Store.Body := "body2";
            Store.Duration := 60 * Oast.Second;
            Store.CreatedAt := Store.Unix 100 |}.
Proof. reflexivity. Qed.

Example test_store_delete :
  Store.Count (Store.Store 77 "delete"
                 {| Store.Headers := ""; Store.Body := "";
                    Store.Duration := 0; Store.CreatedAt := 0 |}
                 Store.NewRequestStore) = 1%nat /\
  Store.Get "delete"
    (Store.Delete "delete"
       (Store.Store 77 "delete"
          {| Store.Headers := ""; Store.Body := "";
             Store.Duration := 0; Store.CreatedAt := 0 |}
          Store.NewRequestStore)) = None /\
  Store.Count
    (Store.Delete "delete"
       (Store.Store 77 "delete"
          {| Store.Headers := ""; Store.Body := "";
             Store.Duration := 0; Store.CreatedAt := 0 |}
          Store.NewRequestStore)) = 0%nat.
Proof. vm_compute. repeat split; reflexivity. Qed.

Example test_store_clear :
  Store.Get "one"
    (Store.Clear
       (Store.Store 77 "one"
          {| Store.Headers := ""; Store.Body := "";
             Store.Duration := 0; Store.CreatedAt := 0 |}
          Store.NewRequestStore)) = None.
Proof. reflexivity. Qed.

Lemma Get_Store (now : Z) (id : string) (entry : Store.RequestEntry)
    (s : gmap string Store.RequestEntry) :
  Store.Get id (Store.Store now id entry s)
  = Some (if Store.IsZero (Store.CreatedAt entry)
          then {| Store.Headers := Store.Headers entry;
                  Store.Body := Store.Body entry;
                  Store.Duration := Store.Duration entry;
                  Store.CreatedAt := now |}
          else entry).
Proof. unfold Store.Get, Store.Store. apply lookup_insert_eq. Qed.

Lemma Get_Store_other (now : Z) (id id' : string) (entry : Store.RequestEntry)
    (s : gmap string Store.RequestEntry) :
  id <> id' ->
  Store.Get id' (Store.Store now id entry s) = Store.Get id' s.
Proof. intros H. unfold Store.Get, Store.Store. apply lookup_insert_ne, H. Qed.

(** C10. Whatever entry is stored under whatever id, a Get of that id
    right after Store finds an entry with the same headers, body and
    duration; its creation time is the current time when the entry came
    with the zero time, and the entry's own creation time otherwise. *)
Theorem store_sets_created_at_only_when_zero
    (now : Z) (id : string) (entry : Store.RequestEntry)
    (s : gmap string Store.RequestEntry) :
  exists stored,
    Store.Get id (Store.Store now id entry s) = Some stored /\
    Store.Headers stored = Store.Headers entry /\
    Store.Body stored = Store.Body entry /\
    Store.Duration stored = Store.Duration entry /\
    Store.CreatedAt stored
    = (if (Store.CreatedAt entry =? 0)%Z then now else Store.CreatedAt entry).
Proof.
  rewrite Get_Store. eexists. split; [reflexivity |].
  unfold Store.IsZero. destruct (Store.CreatedAt entry =? 0)%Z; cbn; auto.
Qed.

(* ===================================================================== *)
(** ** replay_send and replay_get                                         *)
(* ===================================================================== *)

Section ReplayHandlers.
Import Replay.
Variable Lookup : string -> option Z.
Variable GetProxyHistory : Z -> Z -> option (list string).
Variable applyHeaderModifications : string -> ReplaySendRequest -> string.
Variable modifyJSONBody : string -> list string -> list string -> option string.
Variable validateRequest : string -> list validationIssue.
Variable parseTarget : string -> string -> string * Z * bool.
Variable Generate : string.
Variable ParseDuration : string -> option Z.
Variable SendRequest : string -> SendRequestInput -> option SendRequestResult.
Variable parseResponseStatus : string -> Z * string.
Variable previewBody : string -> string.
Variable DurationString : Z -> string.
Variable now : Z.

Lemma bindE_inr {A B : Type} (r : ToolError + A) (k : A -> ToolError + B) (b : B) :
  bindE r k = inr b -> exists a, r = inr a /\ k a = inr b.
Proof. destruct r as [e | a]; cbn; [discriminate | eauto]. Qed.

Lemma orFail_inr {A : Type} (e : ToolError) (o : option A) (a : A) :
  orFail e o = inr a -> o = Some a.
Proof. destruct o; cbn; congruence. Qed.

(** An absent body argument and an empty one read the same. *)
Lemma GetString_body_empty (req : gmap string Mcp.ArgValue) :
  req !! "body" = None \/ req !! "body" = Some (Mcp.AString "") ->
  Mcp.GetString req "body" "" = "".
Proof. unfold Mcp.GetString. intros [-> | ->]; reflexivity. Qed.

Lemma overrideBody_empty (req : gmap string Mcp.ArgValue) (reqBody : string) :
  Mcp.GetString req "body" "" = "" -> overrideBody req reqBody = reqBody.
Proof. unfold overrideBody. intros ->. reflexivity. Qed.

Lemma overrideBody_given (req : gmap string Mcp.ArgValue) (reqBody : string) :
  Mcp.GetString req "body" "" <> "" ->
  overrideBody req reqBody = Mcp.GetString req "body" "".
Proof.
  unfold overrideBody. intros H.
  apply String.eqb_neq in H. rewrite H. reflexivity.
Qed.

Lemma GetString_delete (req : gmap string Mcp.ArgValue) (k key def : string) :
  k <> key -> Mcp.GetString (delete k req) key def = Mcp.GetString req key def.
Proof. intros H. unfold Mcp.GetString. rewrite lookup_delete_ne by exact H. reflexivity. Qed.

Lemma GetStringSlice_delete (req : gmap string Mcp.ArgValue) (k key : string)
    (def : list string) :
  k <> key ->
  Mcp.GetStringSlice (delete k req) key def = Mcp.GetStringSlice req key def.
Proof.
  intros H. unfold Mcp.GetStringSlice. rewrite lookup_delete_ne by exact H.
  reflexivity.
Qed.

Lemma GetString_delete_same (req : gmap string Mcp.ArgValue) (k def : string) :
  Mcp.GetString (delete k req) k def = def.
Proof. unfold Mcp.GetString. rewrite lookup_delete_eq. reflexivity. Qed.

(** C9. When the body argument of replay_send is absent or is the empty
    string, the literal override does nothing: the body of the base flow
    goes on to the JSON edits unchanged, it is the final body when there
    are no JSON edits, and the request built is the one built without any
    body argument; so the parameter cannot replace a body by an empty
    one. The override applies exactly when the argument reads as a
    non-empty string. *)
Theorem mcp_body_override_needs_non_empty_body
    (req : gmap string Mcp.ArgValue) (base : string) :
  req !! "body" = None \/ req !! "body" = Some (Mcp.AString "") ->
  (forall reqBody, overrideBody req reqBody = reqBody) /\
  (forall headers body raw,
      buildReplayRequest applyHeaderModifications modifyJSONBody req base
      = inr (headers, body, raw) ->
      editJSONBody modifyJSONBody req (flowBody req base) = inr body /\
      (Mcp.GetStringSlice req "set_json" [] = [] ->
       Mcp.GetStringSlice req "remove_json" [] = [] ->
       body = flowBody req base)) /\
  buildReplayRequest applyHeaderModifications modifyJSONBody req base
  = buildReplayRequest applyHeaderModifications modifyJSONBody
      (delete "body" req) base /\
  (forall req' reqBody,
      overrideBody req' reqBody <> reqBody ->
      Mcp.GetString req' "body" "" <> "" /\
      overrideBody req' reqBody = Mcp.GetString req' "body" "").
Proof.
  intros Hbody. pose proof (GetString_body_empty req Hbody) as Hget.
  split; [intros b; apply overrideBody_empty, Hget |].
  split; [| split].
  - intros headers body raw. unfold buildReplayRequest, flowBody, replayOpts.
    destruct (HttpUtil.splitHeadersBody _) as [h b0]. cbn [snd].
    rewrite (overrideBody_empty req b0 Hget).
    intros H. apply bindE_inr in H as (b & Hb & H). inversion H; subst.
    split; [exact Hb |].
    intros Hs Hr. unfold editJSONBody in Hb. rewrite Hs, Hr in Hb.
    cbn in Hb. congruence.
  - unfold buildReplayRequest, editJSONBody.
    rewrite !GetString_delete, !GetStringSlice_delete by discriminate.
    destruct (HttpUtil.splitHeadersBody _) as [h b0].
    rewrite (overrideBody_empty req b0 Hget).
    rewrite (overrideBody_empty (delete "body" req) b0)
      by apply GetString_delete_same.
    reflexivity.
  - intros req' b Hne.
    destruct (String.eqb_spec (Mcp.GetString req' "body" "") "") as [He | He].
    + exfalso. apply Hne, overrideBody_empty, He.
    + split; [exact He | apply overrideBody_given, He].
Qed.


End ReplayHandlers.

Lemma mcp_body_override_needs_non_empty_body_witness :
  (forall reqBody, Replay.overrideBody replaySendEmptyBodySample reqBody = reqBody) /\
  Replay.buildReplayRequest headerModsSample jsonEditSample
    replaySendEmptyBodySample baseRequestSample
  = Replay.buildReplayRequest headerModsSample jsonEditSample
      (delete "body" replaySendEmptyBodySample) baseRequestSample.
Proof.
  destruct (mcp_body_override_needs_non_empty_body headerModsSample jsonEditSample
              replaySendEmptyBodySample baseRequestSample (or_intror eq_refl))
    as (Hkeep & _ & Hsame & _).
  split; [exact Hkeep | exact Hsame].
Defined.

Example replay_send_empty_body_keeps_flow_body :
  Replay.buildReplayRequest headerModsSample jsonEditSample
    replaySendEmptyBodySample baseRequestSample
  = inr (crlf "POST /api HTTP/1.1" +:+ crlf "Host: example.com"
           +:+ crlf "Content-Length: 3" +:+ CRLF,
         "old",
         crlf "POST /api HTTP/1.1" +:+ crlf "Host: example.com"
           +:+ crlf "Content-Length: 3" +:+ CRLF +:+ "old").
Proof. vm_compute. reflexivity. Qed.

Example replay_send_body_override :
  Replay.buildReplayRequest headerModsSample jsonEditSample
    replaySendSample baseRequestSample
  = inr (crlf "POST /api HTTP/1.1" +:+ crlf "Host: example.com"
           +:+ crlf "Content-Length: 8" +:+ CRLF,
         "new body",
         crlf "POST /api HTTP/1.1" +:+ crlf "Host: example.com"
           +:+ crlf "Content-Length: 8" +:+ CRLF +:+ "new body").
Proof. vm_compute. reflexivity. Qed.


(* ===================================================================== *)
(** ** Response status line                                               *)
(* ===================================================================== *)

Section StatusLineProperties.
Import StatusLine.
Local Open Scope Z_scope.

Example test_status_http_1_1_200 :
  readResponseStatusCode
    (crlf "HTTP/1.1 200 OK" +:+ crlf "Content-Type: text/html" +:+ CRLF +:+ "<html>")
  = 200.
Proof. reflexivity. Qed.

Example test_status_http_1_0_404 :
  readResponseStatusCode (crlf "HTTP/1.0 404 Not Found" +:+ CRLF) = 404.
Proof. reflexivity. Qed.

Example test_status_http_2_200 :
  readResponseStatusCode (crlf "HTTP/2 200" +:+ CRLF +:+ "{}") = 200.
Proof. reflexivity. Qed.

Example test_status_http_2_0_500 :
  readResponseStatusCode (crlf "HTTP/2.0 500 Internal Server Error" +:+ CRLF) = 500.
Proof. reflexivity. Qed.

Example test_status_lf_only_line_ending :
  readResponseStatusCode ("HTTP/1.1 200 OK" +:+ String LF "Content-Type: text/html")
  = 200.
Proof. reflexivity. Qed.

Example test_status_only_no_reason :
  readResponseStatusCode (crlf "HTTP/1.1 200" +:+ CRLF) = 200.
Proof. reflexivity. Qed.

Example test_status_no_http_prefix :
  readResponseStatusCode (crlf "GET / HTTP/1.1") = 0.
Proof. reflexivity. Qed.

Example test_status_malformed_no_space :
  readResponseStatusCode (crlf "HTTP/1.1200OK") = 0.
Proof. reflexivity. Qed.

Example test_status_partial_status_code :
  readResponseStatusCode "HTTP/1.1 20" = 0.
Proof. reflexivity. Qed.

Lemma acceptedVersion_cases (v : string) :
  acceptedVersion v = true ->
  v = "HTTP/1.0" \/ v = "HTTP/1.1" \/ v = "HTTP/2" \/ v = "HTTP/2.0".
Proof.
  unfold acceptedVersion. rewrite !orb_true_iff, !String.eqb_eq. tauto.
Qed.

Lemma acceptedVersion_no_space (v : string) :
  acceptedVersion v = true -> cut " " v = None.
Proof.
  intros H. destruct (acceptedVersion_cases v H) as [-> | [-> | [-> | ->]]];
    reflexivity.
Qed.

(** The status line [version SP d1 d2 d3 tail] with an accepted version and
    three digits followed by nothing, a space or a line end. *)
Lemma read_three_digits (v : string) (a b c : ascii) (tail : string) (x y z : Z) :
  acceptedVersion v = true ->
  digitValue a = Some x -> digitValue b = Some y -> digitValue c = Some z ->
  endsCode tail = true ->
  readResponseStatusCode (v +:+ " " +:+ String a (String b (String c tail)))
  = if (100 * x + 10 * y + z <? 100) || (100 * x + 10 * y + z >? 599)
    then 0 else 100 * x + 10 * y + z.
Proof.
  intros Hv Ha Hb Hc He. unfold readResponseStatusCode.
  change (" " +:+ String a (String b (String c tail)))
    with (String " " (String a (String b (String c tail)))).
  rewrite (cut_first_byte " " v _ (acceptedVersion_no_space v Hv)).
  rewrite Hv, Ha, Hb, Hc, He. reflexivity.
Qed.

(** Whatever the input, a non-zero result comes from such a status line
    and lies in [100, 599]. *)
Lemma read_nonzero (input : string) :
  readResponseStatusCode input <> 0 ->
  exists v a b c tail x y z,
    input = v +:+ " " +:+ String a (String b (String c tail)) /\
    acceptedVersion v = true /\
    digitValue a = Some x /\ digitValue b = Some y /\ digitValue c = Some z /\
    endsCode tail = true /\
    readResponseStatusCode input = 100 * x + 10 * y + z /\
    100 <= readResponseStatusCode input <= 599.
Proof.
  unfold readResponseStatusCode.
  destruct (cut " " input) as [[v rest] |] eqn:Hcut; [| congruence].
  apply cut_Some in Hcut.
  destruct (acceptedVersion v) eqn:Hv; cbn [negb]; [| congruence].
  destruct rest as [| a [| b [| c tail]]]; try congruence.
  destruct (digitValue a) as [x |] eqn:Ha; [| congruence].
  destruct (digitValue b) as [y |] eqn:Hb; [| congruence].
  destruct (digitValue c) as [z |] eqn:Hc; [| congruence].
  destruct (endsCode tail) eqn:He; cbn [negb]; [| congruence].
  destruct (Z.ltb_spec (100 * x + 10 * y + z) 100); cbn [orb]; [congruence |].
  destruct (Z.gtb_spec (100 * x + 10 * y + z) 599); [congruence |].
  intros _. exists v, a, b, c, tail, x, y, z. repeat split; auto; lia.
Qed.
End StatusLineProperties.

(** C7. Status-line parsing accepts the versions HTTP/1.0, HTTP/1.1, HTTP/2
    and HTTP/2.0 followed by a three-digit code: it returns the code when
    the code lies in [100, 599] and 0 when it lies outside; the code is
    exactly three digits, so a fourth digit or any other byte than a
    space or a line end directly after them gives 0; on any input the
    result is 0 or lies in [100, 599], and a non-zero result is the
    three-digit code of such a status line, followed by nothing, a
    space or a line end; codes 99, 099, 600 and 5999, malformed input
    and the empty input give 0. *)
Theorem status_code_three_digits_in_range :
  (forall v a b c tail x y z,
      StatusLine.acceptedVersion v = true ->
      StatusLine.digitValue a = Some x ->
      StatusLine.digitValue b = Some y ->
      StatusLine.digitValue c = Some z ->
      (tail = "" \/
       exists d tail', tail = String d tail' /\ (d = " "%char \/ d = CR \/ d = LF)) ->
      let code := (100 * x + 10 * y + z)%Z in
      let input := v +:+ " " +:+ String a (String b (String c tail)) in
      ((100 <= code <= 599)%Z -> StatusLine.readResponseStatusCode input = code) /\
      ((code < 100 \/ 599 < code)%Z -> StatusLine.readResponseStatusCode input = 0%Z)) /\
  (forall v a b c d tail,
      StatusLine.acceptedVersion v = true ->
      d <> " "%char -> d <> CR -> d <> LF ->
      StatusLine.readResponseStatusCode
        (v +:+ " " +:+ String a (String b (String c (String d tail))))
      = 0%Z) /\
  (forall v, In v ["HTTP/1.0"; "HTTP/1.1"; "HTTP/2"; "HTTP/2.0"] <->
             StatusLine.acceptedVersion v = true) /\
  (forall c x, StatusLine.digitValue c = Some x <->
               (0 <= x <= 9)%Z /\ c = ascii_of_nat (48 + Z.to_nat x)) /\
  (forall input,
      StatusLine.readResponseStatusCode input = 0%Z \/
      (100 <= StatusLine.readResponseStatusCode input <= 599)%Z) /\
  (forall input,
      StatusLine.readResponseStatusCode input <> 0%Z ->
      exists v a b c tail x y z,
        input = v +:+ " " +:+ String a (String b (String c tail)) /\
        StatusLine.acceptedVersion v = true /\
        StatusLine.digitValue a = Some x /\
        StatusLine.digitValue b = Some y /\
        StatusLine.digitValue c = Some z /\
        (tail = "" \/
         exists d tail', tail = String d tail' /\ (d = " "%char \/ d = CR \/ d = LF)) /\
        (100 <= 100 * x + 10 * y + z <= 599)%Z /\
        StatusLine.readResponseStatusCode input = (100 * x + 10 * y + z)%Z) /\
  StatusLine.readResponseStatusCode (crlf "HTTP/1.1 5999 Too Long") = 0%Z /\
  StatusLine.readResponseStatusCode (crlf "HTTP/1.1 2000") = 0%Z /\
  StatusLine.readResponseStatusCode (crlf "HTTP/1.1 200OK") = 0%Z /\
  StatusLine.readResponseStatusCode (crlf "HTTP/1.1 99 Too Low") = 0%Z /\
  StatusLine.readResponseStatusCode (crlf "HTTP/1.1 099 Too Low") = 0%Z /\
  StatusLine.readResponseStatusCode (crlf "HTTP/1.1 600 Too High") = 0%Z /\
  StatusLine.readResponseStatusCode (crlf "HTTP/1.1 ABC OK") = 0%Z /\
  StatusLine.readResponseStatusCode "" = 0%Z.
Proof.
  split; [| split; [| split; [| split; [| split; [| split]]]]].
  - intros v a b c tail x y z Hv Ha Hb Hc Hend code input. subst code input.
    assert (He : StatusLine.endsCode tail = true).
    { destruct Hend as [-> | (d & tail' & -> & [-> | [-> | ->]])]; reflexivity. }
    rewrite (read_three_digits v a b c tail x y z Hv Ha Hb Hc He).
    destruct (Z.ltb_spec (100 * x + 10 * y + z) 100);
      destruct (Z.gtb_spec (100 * x + 10 * y + z) 599); cbn [orb];
      split; intros Hcode; solve [reflexivity | lia].
  - intros v a b c d tail Hv Hsp Hcr Hlf.
    unfold StatusLine.readResponseStatusCode.
    change (" " +:+ String a (String b (String c (String d tail))))
      with (String " " (String a (String b (String c (String d tail))))).
    rewrite (cut_first_byte " " v _ (acceptedVersion_no_space v Hv)), Hv.
    cbn [negb StatusLine.endsCode].
    apply Ascii.eqb_neq in Hsp, Hcr, Hlf. unfold SP. rewrite Hsp, Hcr, Hlf.
    cbn [orb negb].
    destruct (StatusLine.digitValue a), (StatusLine.digitValue b),
      (StatusLine.digitValue c); reflexivity.
  - intros v. split.
    + intros Hin. cbn in Hin.
      destruct Hin as [<- | [<- | [<- | [<- | []]]]]; reflexivity.
    + intros Hv. cbn.
      destruct (acceptedVersion_cases v Hv) as [-> | [-> | [-> | ->]]]; auto.
  - intros c x. unfold StatusLine.digitValue.
    destruct (Nat.leb_spec 48 (nat_of_ascii c)) as [Hlo | Hlo];
      destruct (Nat.leb_spec (nat_of_ascii c) 57) as [Hhi | Hhi]; cbn [andb].
    + split.
      * intros H. inversion H; subst. split; [lia |].
        rewrite Nat2Z.id.
        replace (48 + (nat_of_ascii c - 48))%nat with (nat_of_ascii c) by lia.
        symmetry. apply ascii_nat_embedding.
      * intros [Hx ->]. rewrite nat_ascii_embedding by lia.
        f_equal. lia.
    + split; [discriminate |]. intros [Hx ->].
      rewrite nat_ascii_embedding in Hhi by lia. lia.
    + split; [discriminate |]. intros [Hx ->].
      rewrite nat_ascii_embedding in Hlo by lia. lia.
    + split; [discriminate |]. intros [Hx ->].
      rewrite nat_ascii_embedding in Hlo by lia. lia.
  - intros input.
    destruct (Z.eq_dec (StatusLine.readResponseStatusCode input) 0%Z) as [H | H];
      [left; exact H | right].
    destruct (read_nonzero input H) as (? & ? & ? & ? & ? & ? & ? & ? & H'); tauto.
  - intros input H.
    destruct (read_nonzero input H)
      as (v & a & b & c & tail & x & y & z & Hin & Hv & Ha & Hb & Hc & He
          & Hcode & Hrange).
    exists v, a, b, c, tail, x, y, z.
    do 5 (split; [assumption |]).
    split; [| split; [rewrite <- Hcode; exact Hrange | exact Hcode]].
    destruct tail as [| d tail']; [left; reflexivity | right].
    exists d, tail'. split; [reflexivity |].
    cbn [StatusLine.endsCode] in He. unfold SP in He.
    rewrite !orb_true_iff, !Ascii.eqb_eq in He. tauto.
  - repeat split; reflexivity.
Qed.

(* ===================================================================== *)
(** ** Version normalization                                              *)
(* ===================================================================== *)

Section VersionNormalization.
Import HttpUtil.

Lemma append_inj_tail (x y u v : string) :
  String.length u = String.length v ->
  x +:+ u = y +:+ v -> x = y /\ u = v.
Proof.
  intros Hlen. revert y. induction x as [| c x IH]; intros y H.
  - destruct y as [| d y]; [split; [reflexivity | exact H] |].
    exfalso. apply (f_equal String.length) in H.
    rewrite append_nil_l, append_cons in H. cbn in H. rewrite length_append in H. lia.
  - destruct y as [| d y].
    + exfalso. apply (f_equal String.length) in H.
      rewrite append_nil_l, append_cons in H. cbn in H. rewrite length_append in H. lia.
    + rewrite !append_cons in H. inversion H; subst.
      destruct (IH y H2) as [-> ->]. split; reflexivity.
Qed.

Lemma cutSuffix_eq (suffix s : string) :
  cutSuffix suffix s =
  if String.eqb s suffix then Some ""
  else match s with
       | "" => None
       | String c s' =>
           match cutSuffix suffix s' with
           | Some before => Some (String c before)
           | None => None
           end
       end.
Proof. destruct s; reflexivity. Qed.

Lemma cutSuffix_Some (suffix s before : string) :
  cutSuffix suffix s = Some before -> s = before +:+ suffix.
Proof.
  revert before. induction s as [| c s IH]; intros before; rewrite cutSuffix_eq.
  - destruct (String.eqb_spec "" suffix) as [<- |]; [| discriminate].
    intros H. inversion H. reflexivity.
  - destruct (String.eqb_spec (String c s) suffix) as [<- |].
    + intros H. inversion H. reflexivity.
    + destruct (cutSuffix suffix s) as [b |]; [| discriminate].
      intros H. inversion H; subst. rewrite append_cons, <- (IH b eq_refl).
      reflexivity.
Qed.

Lemma cutSuffix_app (suffix before : string) :
  cutSuffix suffix (before +:+ suffix) = Some before.
Proof.
  induction before as [| c before IH]; rewrite cutSuffix_eq.
  - rewrite append_nil_l, String.eqb_refl. reflexivity.
  - destruct (String.eqb_spec (String c before +:+ suffix) suffix) as [H |].
    + exfalso. apply (f_equal String.length) in H.
      rewrite append_cons in H. cbn in H. rewrite length_append in H. lia.
    + rewrite append_cons, IH. reflexivity.
Qed.

(** A line that ends in [u] does not end in a different [v] of the same
    length. *)
Lemma cutSuffix_mismatch (pre u suffix : string) :
  String.length u = String.length suffix -> u <> suffix ->
  cutSuffix suffix (pre +:+ u) = None.
Proof.
  intros Hlen Hne.
  destruct (cutSuffix suffix (pre +:+ u)) as [b |] eqn:H; [| reflexivity].
  apply cutSuffix_Some, append_inj_tail in H; [| exact Hlen].
  destruct H as [_ H]. contradiction.
Qed.

(** The start line [pre SP version], ended by CRLF. *)
Lemma transform_http2 (pre rest : string) :
  cut CRLF (pre +:+ " HTTP/2") = None ->
  transformRequestForValidation (pre +:+ " HTTP/2" +:+ CRLF +:+ rest)
  = pre +:+ " HTTP/1.1" +:+ CRLF +:+ rest.
Proof.
  intros Hline. unfold transformRequestForValidation.
  rewrite <- append_assoc, (cut_CRLF_first _ rest Hline), cutSuffix_app.
  reflexivity.
Qed.

Lemma transform_http2_0 (pre rest : string) :
  cut CRLF (pre +:+ " HTTP/2.0") = None ->
  transformRequestForValidation (pre +:+ " HTTP/2.0" +:+ CRLF +:+ rest)
  = pre +:+ " HTTP/1.1" +:+ CRLF +:+ rest.
Proof.
  intros Hline. unfold transformRequestForValidation.
  rewrite <- append_assoc, (cut_CRLF_first _ rest Hline).
  change (pre +:+ " HTTP/2.0") with (pre +:+ (" H" +:+ "TTP/2.0")).
  rewrite <- append_assoc.
  rewrite (cutSuffix_mismatch (pre +:+ " H") "TTP/2.0" " HTTP/2")
    by (reflexivity || discriminate).
  rewrite append_assoc. change (" H" +:+ "TTP/2.0") with " HTTP/2.0".
  rewrite cutSuffix_app. reflexivity.
Qed.

Lemma transform_http1 (pre v rest : string) :
  v = "HTTP/1.1" \/ v = "HTTP/1.0" ->
  cut CRLF (pre +:+ " " +:+ v) = None ->
  transformRequestForValidation (pre +:+ " " +:+ v +:+ CRLF +:+ rest)
  = pre +:+ " " +:+ v +:+ CRLF +:+ rest.
Proof.
  intros Hv Hline. unfold transformRequestForValidation.
  replace (pre +:+ " " +:+ v +:+ CRLF +:+ rest)
    with ((pre +:+ " " +:+ v) +:+ CRLF +:+ rest) by (rewrite !append_assoc; reflexivity).
  rewrite (cut_CRLF_first _ rest Hline).
  destruct Hv as [-> | ->].
  - change (pre +:+ " " +:+ "HTTP/1.1") with (pre +:+ (" H" +:+ "TTP/1.1")) at 1.
    rewrite <- append_assoc.
    rewrite (cutSuffix_mismatch (pre +:+ " H") "TTP/1.1" " HTTP/2")
      by (reflexivity || discriminate).
    change (pre +:+ " " +:+ "HTTP/1.1") with (pre +:+ " HTTP/1.1").
    rewrite (cutSuffix_mismatch pre " HTTP/1.1" " HTTP/2.0")
      by (reflexivity || discriminate).
    reflexivity.
  - change (pre +:+ " " +:+ "HTTP/1.0") with (pre +:+ (" H" +:+ "TTP/1.0")) at 1.
    rewrite <- append_assoc.
    rewrite (cutSuffix_mismatch (pre +:+ " H") "TTP/1.0" " HTTP/2")
      by (reflexivity || discriminate).
    change (pre +:+ " " +:+ "HTTP/1.0") with (pre +:+ " HTTP/1.0").
    rewrite (cutSuffix_mismatch pre " HTTP/1.0" " HTTP/2.0")
      by (reflexivity || discriminate).
    reflexivity.
Qed.

Lemma transform_no_crlf (raw : string) :
  cut CRLF raw = None -> transformRequestForValidation raw = raw.
Proof. intros H. unfold transformRequestForValidation. rewrite H. reflexivity. Qed.
End VersionNormalization.

(* ===================================================================== *)
(** ** Start lines                                                        *)
(* ===================================================================== *)

Section StartLines.
Import HttpUtil.

Lemma space_app (s : string) : " " +:+ s = String " " s.
Proof. reflexivity. Qed.

(** Two CRLF-free fields joined by a space are CRLF-free. *)
Lemma cut_CRLF_space (a b : string) :
  cut CRLF a = None -> cut CRLF b = None -> cut CRLF (a +:+ " " +:+ b) = None.
Proof.
  intros Ha Hb.
  rewrite (cut_skip CRLF a (" " +:+ b)) by (apply noPrefixIn_CRLF; [exact Ha | reflexivity]).
  rewrite space_app, cut_eq. cbn [hasPrefix CRLF]. cbn. rewrite Hb. reflexivity.
Qed.

(** Parsing inverts formatting of a start line whose method and target
    contain no space. *)
Lemma parseRequestLine_fields (method target version : string) :
  cut " " method = None -> cut " " target = None ->
  parseRequestLine (method +:+ " " +:+ target +:+ " " +:+ version)
  = (method, fst (splitTarget target), snd (splitTarget target), version).
Proof.
  intros Hm Ht. unfold parseRequestLine.
  rewrite space_app, (cut_first_byte " " method _ Hm).
  rewrite space_app, (cut_first_byte " " target _ Ht).
  reflexivity.
Qed.

Lemma startLine_first (line rest : string) :
  cut CRLF line = None -> startLine (line +:+ CRLF +:+ rest) = line.
Proof. intros H. unfold startLine. rewrite (cut_CRLF_first _ _ H). reflexivity. Qed.
End StartLines.

(** C6, as stated, fails on a request whose start line is not followed by
    CRLF (the case [no_crlf] of TestTransformRequestForValidation): the
    start line carries HTTP/2 and the request is returned as it is. *)
Lemma version_normalization_no_crlf_counterexample :
  ~ (forall raw : string,
        HttpUtil.requestVersion raw = "HTTP/2" \/
        HttpUtil.requestVersion raw = "HTTP/2.0" ->
        HttpUtil.requestVersion (HttpUtil.transformRequestForValidation raw)
        = "HTTP/1.1").
Proof.
  intros H. specialize (H "GET / HTTP/2" (or_introl eq_refl)).
  vm_compute in H. discriminate H.
Qed.

(** C6 (amended). For every raw request whose start line
    [method SP target SP version] is ended by CRLF: when the version is
    HTTP/2 or HTTP/2.0 the normalization rewrites it to HTTP/1.1 and
    leaves the method, the target (path and query), and everything after
    the start line (headers and body) as they are; when the version is
    HTTP/1.1 or HTTP/1.0 the request is returned unmodified. A request
    without any CRLF is returned unmodified whatever its version. *)
Theorem version_normalization_rewrites_http2
    (method target version rest : string) :
  cut " " method = None -> cut CRLF method = None ->
  cut " " target = None -> cut CRLF target = None ->
  let raw := method +:+ " " +:+ target +:+ " " +:+ version +:+ CRLF +:+ rest in
  let fields :=
    (method, fst (HttpUtil.splitTarget target), snd (HttpUtil.splitTarget target)) in
  (version = "HTTP/2" \/ version = "HTTP/2.0" ->
   HttpUtil.parseRequestLine (HttpUtil.startLine raw) = (fields, version) /\
   HttpUtil.transformRequestForValidation raw
   = method +:+ " " +:+ target +:+ " " +:+ "HTTP/1.1" +:+ CRLF +:+ rest /\
   HttpUtil.parseRequestLine
     (HttpUtil.startLine (HttpUtil.transformRequestForValidation raw))
   = (fields, "HTTP/1.1")) /\
  (version = "HTTP/1.1" \/ version = "HTTP/1.0" ->
   HttpUtil.transformRequestForValidation raw = raw) /\
  (forall other, cut CRLF other = None ->
                 HttpUtil.transformRequestForValidation other = other).
Proof.
  intros Hm Hmc Ht Htc raw fields.
  assert (Hline : forall v, cut CRLF v = None ->
            cut CRLF (method +:+ " " +:+ target +:+ " " +:+ v) = None).
  { intros v Hv. apply cut_CRLF_space; [exact Hmc |].
    apply cut_CRLF_space; assumption. }
  assert (Hraw : forall v,
            method +:+ " " +:+ target +:+ " " +:+ v +:+ CRLF +:+ rest
            = (method +:+ " " +:+ target +:+ " " +:+ v) +:+ CRLF +:+ rest).
  { intros v. rewrite !append_assoc. reflexivity. }
  assert (Hparse : forall v,
            HttpUtil.parseRequestLine (method +:+ " " +:+ target +:+ " " +:+ v)
            = (fields, v)).
  { intros v. rewrite (parseRequestLine_fields _ _ _ Hm Ht). reflexivity. }
  assert (Hpre : forall v tail,
            method +:+ " " +:+ target +:+ " " +:+ v +:+ tail
            = (method +:+ " " +:+ target) +:+ (" " +:+ v) +:+ tail).
  { intros v tail. rewrite !append_assoc. reflexivity. }
  split; [| split].
  - intros Hv. subst raw.
    assert (Hout : HttpUtil.transformRequestForValidation
                     (method +:+ " " +:+ target +:+ " " +:+ version +:+ CRLF +:+ rest)
                   = method +:+ " " +:+ target +:+ " " +:+ "HTTP/1.1" +:+ CRLF +:+ rest).
    { rewrite !Hpre. destruct Hv as [-> | ->].
      - apply (transform_http2 (method +:+ " " +:+ target) rest).
        rewrite append_assoc. apply (Hline "HTTP/2"). reflexivity.
      - apply (transform_http2_0 (method +:+ " " +:+ target) rest).
        rewrite append_assoc. apply (Hline "HTTP/2.0"). reflexivity. }
    split; [| split; [exact Hout |]].
    + rewrite Hraw, startLine_first by (apply Hline; destruct Hv as [-> | ->]; reflexivity).
      apply Hparse.
    + rewrite Hout, Hraw, startLine_first by (apply Hline; reflexivity).
      apply Hparse.
  - intros Hv. subst raw. rewrite Hpre.
    apply (transform_http1 (method +:+ " " +:+ target) version rest Hv).
    rewrite append_assoc. apply Hline. destruct Hv as [-> | ->]; reflexivity.
  - intros other. apply transform_no_crlf.
Qed.

Lemma version_normalization_rewrites_http2_witness :
  HttpUtil.transformRequestForValidation
    (crlf "POST /api/example?x=1 HTTP/2" +:+ hostTail)
  = crlf "POST /api/example?x=1 HTTP/1.1" +:+ hostTail /\
  HttpUtil.parseRequestLine
    (HttpUtil.startLine
       (HttpUtil.transformRequestForValidation
          (crlf "POST /api/example?x=1 HTTP/2" +:+ hostTail)))
  = ("POST", "/api/example", "x=1", "HTTP/1.1").
Proof.
  destruct (version_normalization_rewrites_http2 "POST" "/api/example?x=1" "HTTP/2"
              hostTail eq_refl eq_refl eq_refl eq_refl) as [H _].
  destruct (H (or_introl eq_refl)) as (_ & Hout & Hparse).
  split; [exact Hout | exact Hparse].
Defined.

(* ===================================================================== *)
(** ** Request-line rewrite                                               *)
(* ===================================================================== *)

Section RequestLineRewrite.
Import HttpUtil.





Lemma filter_twice {A : Type} (f g : A -> bool) (l : list A) :
  List.filter f (List.filter g l) = List.filter (fun x => g x && f x) l.
Proof.
  induction l as [| x l IH]; [reflexivity |]. cbn.
  destruct (g x); cbn; [destruct (f x) |]; congruence.
Qed.











Lemma modifyRequestLine_no_edits (raw : string) (o : PathQueryOpts) :
  HasModifications o = false ->
  modifyRequestLine raw (Some o) = raw /\ modifyRequestLine raw None = raw.
Proof.
  intros H. unfold modifyRequestLine. rewrite H. split; reflexivity.
Qed.
End RequestLineRewrite.

Example test_modifyRequestLine_combined_operations :
  HttpUtil.modifyRequestLine
    (crlf "GET /old/path?a=1&b=2&c=3 HTTP/1.1" +:+ hostTail)
    (Some {| HttpUtil.Path := "/new/path"; HttpUtil.Query := "";
             HttpUtil.SetQuery := ["a=changed"; "d=4"];
             HttpUtil.RemoveQuery := ["b"] |})
  = crlf "GET /new/path?a=changed&c=3&d=4 HTTP/1.1" +:+ hostTail.
Proof. reflexivity. Qed.



(* ===================================================================== *)
(** ** Lines of a header block                                            *)
(* ===================================================================== *)

Lemma hasPrefix_app_r (p s t : string) :
  hasPrefix p s = true -> hasPrefix p (s +:+ t) = true.
Proof.
  revert s. induction p as [| c p IH]; intros s H; [reflexivity |].
  destruct s as [| d s]; [discriminate |]. rewrite append_cons. cbn in *.
  destruct (Ascii.eqb c d); [apply IH, H | discriminate].
Qed.

(** The part before the cut does not contain the separator. *)
Lemma cut_before_free (sep s before after : string) :
  sep <> "" -> cut sep s = Some (before, after) -> cut sep before = None.
Proof.
  intros Hsep. revert before. induction s as [| c s IH]; intros before; rewrite cut_eq.
  - destruct sep; [contradiction | cbn; discriminate].
  - destruct (hasPrefix sep (String c s)) eqn:Hp.
    + intros H. inversion H; subst. destruct sep; [contradiction | reflexivity].
    + destruct (cut sep s) as [[b a] |] eqn:Hc; [| discriminate].
      intros H. inversion H; subst. rewrite cut_eq, (IH b eq_refl).
      destruct (hasPrefix sep (String c b)) eqn:Hb; [| reflexivity].
      apply cut_Some in Hc. subst s.
      apply (hasPrefix_app_r _ _ (sep +:+ after)) in Hb.
      rewrite append_cons in Hb. congruence.
Qed.

(** Enough fuel: the length of the text. *)
Lemma splitOn_fuel_enough (sep : string) (fuel : nat) :
  sep <> "" ->
  forall s, (String.length s <= fuel)%nat ->
            splitOn_fuel fuel sep s = splitOn sep s.
Proof.
  intros Hsep. unfold splitOn.
  assert (Hstep : forall f1 f2 s, (String.length s <= f1)%nat ->
                                  (String.length s <= f2)%nat ->
                                  splitOn_fuel f1 sep s = splitOn_fuel f2 sep s).
  { induction f1 as [| f1 IH]; intros f2 s H1 H2.
    - destruct s; [| cbn in H1; lia].
      destruct f2; cbn; [reflexivity |].
      destruct sep; [contradiction | reflexivity].
    - destruct f2 as [| f2].
      + destruct s; [| cbn in H2; lia]. cbn.
        destruct sep; [contradiction | reflexivity].
      + cbn. destruct (cut sep s) as [[b a] |] eqn:Hc; [| reflexivity].
        f_equal. apply cut_Some in Hc. subst s.
        rewrite !length_append in H1, H2.
        assert (0 < String.length sep)%nat by (destruct sep; [contradiction | cbn; lia]).
        apply IH; lia. }
  intros s H. apply Hstep; [exact H | lia].
Qed.

Lemma splitOn_eq (sep s : string) :
  sep <> "" ->
  splitOn sep s = match cut sep s with
                  | Some (before, after) => before :: splitOn sep after
                  | None => [s]
                  end.
Proof.
  intros Hsep. unfold splitOn at 1.
  destruct (String.length s) as [| n] eqn:Hn.
  - destruct s; [| discriminate]. cbn.
    destruct sep; [contradiction | reflexivity].
  - cbn. destruct (cut sep s) as [[b a] |] eqn:Hc; [| reflexivity].
    f_equal. apply splitOn_fuel_enough; [exact Hsep |].
    apply cut_Some in Hc. subst s. rewrite !length_append in Hn.
    assert (0 < String.length sep)%nat by (destruct sep; [contradiction | cbn; lia]).
    lia.
Qed.

Lemma CRLF_nonempty : CRLF <> "".
Proof. discriminate. Qed.

(** Every line of a split is free of CRLF. *)
Lemma splitOn_CRLF_free (s : string) :
  List.Forall (fun l => cut CRLF l = None) (splitOn CRLF s).
Proof.
  remember (String.length s) as n eqn:Hn.
  assert (Hle : (String.length s <= n)%nat) by lia. clear Hn.
  revert s Hle. induction n as [| n IH]; intros s Hle;
    rewrite (splitOn_eq CRLF s CRLF_nonempty).
  - destruct s; [| cbn in Hle; lia]. repeat constructor.
  - destruct (cut CRLF s) as [[b a] |] eqn:Hc; [| repeat constructor; exact Hc].
    constructor; [exact (cut_before_free _ _ _ _ CRLF_nonempty Hc) |].
    apply IH. apply cut_Some in Hc. subst s.
    rewrite !length_append in Hle. cbn in Hle. lia.
Qed.

(** Splitting a CRLF-free line off the front. *)
Lemma splitOn_CRLF_line (l rest : string) :
  cut CRLF l = None ->
  splitOn CRLF (l +:+ CRLF +:+ rest) = l :: splitOn CRLF rest.
Proof.
  intros H. rewrite (splitOn_eq CRLF _ CRLF_nonempty), (cut_CRLF_first _ _ H).
  reflexivity.
Qed.

(* ===================================================================== *)
(** ** Decimal lengths                                                    *)
(* ===================================================================== *)

Lemma string_of_uint_digits (d : Decimal.uint) :
  allDigits (NilEmpty.string_of_uint d) = true.
Proof. induction d; cbn; try reflexivity; exact IHd. Qed.

Lemma itoa_digits (n : nat) : allDigits (itoa n) = true.
Proof. apply string_of_uint_digits. Qed.

Lemma to_uint_nonnil (n : nat) : Nat.to_uint n <> Decimal.Nil.
Proof.
  rewrite <- (Unsigned.of_to n) at 1. rewrite Unsigned.to_of.
  apply DecimalFacts.unorm_nonnil.
Qed.

Lemma itoa_nonempty (n : nat) : itoa n <> "".
Proof.
  unfold itoa. pose proof (to_uint_nonnil n) as H.
  destruct (Nat.to_uint n); [contradiction | discriminate ..].
Qed.

(** strconv.Atoi inverts strconv.Itoa. *)
Lemma atoi_itoa (n : nat) : atoi (itoa n) = Some n.
Proof.
  unfold atoi. pose proof (itoa_nonempty n) as H.
  destruct (itoa n) eqn:Hi; [contradiction |].
  rewrite <- Hi. unfold itoa. rewrite NilEmpty.usu. cbn.
  rewrite Unsigned.of_to. reflexivity.
Qed.

Lemma isDigit_not (c d : ascii) :
  isDigit c = true -> isDigit d = false -> Ascii.eqb d c = false.
Proof.
  intros Hc Hd. destruct (Ascii.eqb_spec d c) as [-> |]; [congruence | reflexivity].
Qed.

Lemma digits_no_CRLF (s : string) : allDigits s = true -> cut CRLF s = None.
Proof.
  induction s as [| c s IH]; [reflexivity |]. cbn [allDigits].
  intros H. apply andb_true_iff in H as [Hc Hs].
  rewrite cut_eq, (IH Hs). unfold CRLF. cbn [hasPrefix].
  rewrite (isDigit_not c CR Hc eq_refl). reflexivity.
Qed.

Lemma digits_head (s : string) (d : ascii) :
  allDigits s = true -> isDigit d = false ->
  hasPrefix (String d "") s = false.
Proof.
  intros Hs Hd. destruct s as [| c s]; [reflexivity |]. cbn in *.
  apply andb_true_iff in Hs as [Hc _]. rewrite (isDigit_not c d Hc Hd). reflexivity.
Qed.

Lemma digits_trimLeft (s : string) :
  allDigits s = true -> ContentLength.trimLeft s = s.
Proof.
  intros Hs. destruct s as [| c s]; [reflexivity |]. cbn in *.
  apply andb_true_iff in Hs as [Hc _].
  destruct (Ascii.eqb_spec c SP) as [-> |]; [discriminate | reflexivity].
Qed.

(* ===================================================================== *)
(** ** Content-Length reconciliation                                      *)
(* ===================================================================== *)

Section ContentLengthProperties.
Import ContentLength.

(** The new header line is a Content-Length header with the decimal
    length as its value; it is not blank and contains no CRLF. *)
Lemma contentLengthLine_isHeader (n : nat) :
  isHeader "Content-Length" (contentLengthLine n) = true.
Proof.
  unfold isHeader, contentLengthLine.
  change ("Content-Length: " +:+ itoa n)
    with ("Content-Length" +:+ String ":" (" " +:+ itoa n)).
  rewrite (cut_first_byte ":" "Content-Length" _ eq_refl). reflexivity.
Qed.

Lemma contentLengthLine_value (n : nat) :
  headerValue (contentLengthLine n) = itoa n.
Proof.
  unfold headerValue, contentLengthLine.
  change ("Content-Length: " +:+ itoa n)
    with ("Content-Length" +:+ String ":" (String " " (itoa n))).
  rewrite (cut_first_byte ":" "Content-Length" _ eq_refl).
  cbn [trimLeft]. change (Ascii.eqb " " SP) with true. cbn iota.
  apply digits_trimLeft, itoa_digits.
Qed.

Lemma contentLengthLine_not_blank (n : nat) :
  isBlank (contentLengthLine n) = false.
Proof. reflexivity. Qed.

Lemma contentLengthLine_no_CRLF (n : nat) :
  cut CRLF (contentLengthLine n) = None.
Proof.
  unfold contentLengthLine.
  rewrite (cut_skip CRLF "Content-Length: " (itoa n)).
  - rewrite (digits_no_CRLF _ (itoa_digits n)). reflexivity.
  - apply noPrefixIn_CRLF; [reflexivity |].
    apply digits_head; [apply itoa_digits | reflexivity].
Qed.
End ContentLengthProperties.

Section HeaderBlock.
Import ContentLength.

Lemma filter_none {A : Type} (f : A -> bool) (l : list A) :
  (forall x, f x = false) -> List.filter f l = [].
Proof.
  intros H. induction l as [| x l IH]; [reflexivity |]. cbn. rewrite H. exact IH.
Qed.

(** After the replacement every line is a proper header line and exactly
    one of them is a Content-Length header: the new one. *)
Lemma replaceContentLength_spec (cl : string) (fields : list string) :
  properLine cl -> isHeader "Content-Length" cl = true ->
  List.Forall (fun l => cut CRLF l = None) fields ->
  List.Forall properLine (replaceContentLength cl fields) /\
  List.filter (isHeader "Content-Length") (replaceContentLength cl fields) = [cl].
Proof.
  intros Hcl Hh Hfree. induction Hfree as [| f fields Hf Hfree IH]; cbn.
  - rewrite Hh. split; [repeat constructor; apply Hcl | reflexivity].
  - destruct (isBlank f) eqn:Hb; [exact IH |].
    destruct (isHeader "Content-Length" f) eqn:Hf'.
    + split.
      * constructor; [exact Hcl |].
        clear IH. induction Hfree as [| g fields Hg _ IHf]; cbn; [constructor |].
        destruct (isBlank g) eqn:Hgb; cbn; [exact IHf |].
        destruct (isHeader "Content-Length" g); cbn; [exact IHf |].
        constructor; [split; assumption | exact IHf].
      * cbn. rewrite Hh. f_equal. rewrite filter_twice. apply filter_none.
        intros x. destruct (isHeader "Content-Length" x), (isBlank x); reflexivity.
    + destruct IH as [IH1 IH2]. split.
      * constructor; [split; assumption | exact IH1].
      * cbn. rewrite Hf'. exact IH2.
Qed.

Lemma splitOn_cons (sep s : string) :
  sep <> "" -> exists first rest, splitOn sep s = first :: rest.
Proof.
  intros Hsep. rewrite (splitOn_eq sep s Hsep).
  destruct (cut sep s) as [[b a] |]; eauto.
Qed.

(** Joining lines and the blank line that ends a header block. *)
Lemma join_cons (sep l : string) (ls : list string) :
  ls <> [] -> join sep (l :: ls) = l +:+ sep +:+ join sep ls.
Proof. destruct ls; [contradiction | reflexivity]. Qed.

Lemma join_blank_line (lines : list string) :
  lines <> [] ->
  join CRLF (lines ++ [""; ""]) = join CRLF lines +:+ CRLF +:+ CRLF.
Proof.
  induction lines as [| l lines IH]; [contradiction |]. intros _.
  destruct lines as [| l2 lines].
  - cbn [app join]. rewrite append_nil_l, append_nil_r. reflexivity.
  - change ((l :: l2 :: lines) ++ [""; ""]) with (l :: ((l2 :: lines) ++ [""; ""])).
    rewrite join_cons by discriminate. rewrite IH by discriminate.
    rewrite (join_cons CRLF l (l2 :: lines)) by discriminate.
    rewrite !append_assoc. reflexivity.
Qed.

(** Splitting a header block followed by a body gives back its lines,
    then the blank line, then the lines of the body. *)
Lemma splitOn_header_block (lines : list string) (body : string) :
  lines <> [] ->
  List.Forall (fun l => cut CRLF l = None) lines ->
  splitOn CRLF ((join CRLF lines +:+ CRLF +:+ CRLF) +:+ body)
  = lines ++ "" :: splitOn CRLF body.
Proof.
  intros Hne Hfree. induction Hfree as [| l lines Hl Hfree IH]; [contradiction |].
  destruct lines as [| l2 lines].
  - cbn [join app]. rewrite !append_assoc.
    rewrite (splitOn_CRLF_line l _ Hl).
    rewrite <- (append_nil_l (CRLF +:+ body)).
    rewrite (splitOn_CRLF_line "" body eq_refl). reflexivity.
  - rewrite join_cons by discriminate. rewrite !append_assoc.
    rewrite (splitOn_CRLF_line l _ Hl).
    transitivity
      (l :: splitOn CRLF ((join CRLF (l2 :: lines) +:+ CRLF +:+ CRLF) +:+ body)).
    + rewrite !append_assoc. reflexivity.
    + rewrite IH by discriminate. reflexivity.
Qed.

Lemma untilBlank_proper (fields rest : list string) :
  List.Forall properLine fields ->
  untilBlank (fields ++ "" :: rest) = fields.
Proof.
  induction 1 as [| f fields [_ Hb] _ IH]; [reflexivity |].
  cbn. rewrite Hb. f_equal. exact IH.
Qed.
End HeaderBlock.

Section BlankLineSeparator.
Import ContentLength.

Lemma noPrefixIn_app (sep a b rest : string) :
  noPrefixIn sep (a +:+ b) rest
  = noPrefixIn sep a (b +:+ rest) && noPrefixIn sep b rest.
Proof.
  induction a as [| c a IH]; [reflexivity |].
  rewrite append_cons. cbn [noPrefixIn]. rewrite IH.
  rewrite <- append_cons, !append_assoc, andb_assoc. reflexivity.
Qed.

Lemma hasPrefix_shorter (p q s : string) :
  hasPrefix (p +:+ q) s = true -> hasPrefix p s = true.
Proof.
  revert s. induction p as [| c p IH]; intros s H; [reflexivity |].
  rewrite append_cons in H. destruct s as [| d s]; [discriminate |]. cbn in *.
  destruct (Ascii.eqb c d); [apply IH, H | discriminate].
Qed.

Lemma noPrefixIn_longer (p q l rest : string) :
  noPrefixIn p l rest = true -> noPrefixIn (p +:+ q) l rest = true.
Proof.
  induction l as [| c l IH]; [reflexivity |]. cbn [noPrefixIn].
  rewrite !andb_true_iff, !negb_true_iff. intros [Hp Hl]. split; [| apply IH, Hl].
  destruct (hasPrefix (p +:+ q) (String c l +:+ rest)) eqn:H; [| reflexivity].
  apply hasPrefix_shorter in H. congruence.
Qed.

(** A proper line followed by something that does not start with LF does
    not start with CRLF. *)
Lemma properLine_head (l rest : string) :
  properLine l -> hasPrefix (String LF "") rest = false ->
  hasPrefix CRLF (l +:+ rest) = false.
Proof.
  intros [Hfree Hb] Hrest. pose proof (noPrefixIn_CRLF l rest Hfree Hrest) as H.
  destruct l as [| c l]; [discriminate |]. cbn [noPrefixIn] in H.
  apply andb_true_iff in H as [H _]. apply negb_true_iff in H. exact H.
Qed.

Lemma separator_after_CRLF (rest : string) :
  hasPrefix CRLF rest = false ->
  noPrefixIn HttpUtil.CRLFCRLF CRLF rest = true.
Proof.
  intros H.
  change (noPrefixIn HttpUtil.CRLFCRLF CRLF rest)
    with (negb (hasPrefix CRLF rest) && true).
  rewrite H. reflexivity.
Qed.

Lemma join_head (l : string) (ls : list string) (rest : string) :
  hasPrefix (String LF "") rest = false ->
  exists tail, join CRLF (l :: ls) +:+ rest = l +:+ tail /\
               hasPrefix (String LF "") tail = false.
Proof.
  intros Hrest. destruct ls as [| l2 ls].
  - exists rest. split; [reflexivity | exact Hrest].
  - exists (CRLF +:+ join CRLF (l2 :: ls) +:+ rest). split; [| reflexivity].
    rewrite join_cons by discriminate. rewrite !append_assoc. reflexivity.
Qed.

(** In a block of CRLF-free lines of which only the first may be blank,
    followed by something that does not start with LF, no blank-line
    separator starts. *)
Lemma block_has_no_separator (lines : list string) (rest : string) :
  lines <> [] ->
  List.Forall (fun l => cut CRLF l = None) lines ->
  List.Forall properLine (tl lines) ->
  hasPrefix (String LF "") rest = false ->
  noPrefixIn HttpUtil.CRLFCRLF (join CRLF lines) rest = true.
Proof.
  intros Hne Hfree. revert rest.
  induction Hfree as [| l lines Hl Hfree IH]; [contradiction |].
  intros rest Hproper Hrest. cbn [tl] in Hproper.
  destruct lines as [| l2 lines].
  - cbn [join]. apply (noPrefixIn_longer CRLF CRLF), noPrefixIn_CRLF; assumption.
  - rewrite join_cons by discriminate.
    rewrite noPrefixIn_app. apply andb_true_iff. split.
    + apply (noPrefixIn_longer CRLF CRLF), noPrefixIn_CRLF; [exact Hl | reflexivity].
    + rewrite noPrefixIn_app. apply andb_true_iff. split.
      * inversion Hproper as [| ? ? Hl2 Hrest2]; subst.
        destruct (join_head l2 lines rest Hrest) as (tail & Htail & Hlf).
        rewrite Htail.
        apply separator_after_CRLF, properLine_head; assumption.
      * inversion Hproper as [| ? ? Hl2 Hrest2]; subst.
        apply IH; [discriminate | | exact Hrest].
        cbn [tl]. exact Hrest2.
Qed.

(** The first blank-line separator of a header block followed by a body
    is the one that ends the block. *)
Lemma splitHeadersBody_header_block (lines : list string) (body : string) :
  lines <> [] ->
  List.Forall (fun l => cut CRLF l = None) lines ->
  List.Forall properLine (tl lines) ->
  HttpUtil.splitHeadersBody ((join CRLF lines +:+ CRLF +:+ CRLF) +:+ body)
  = (join CRLF lines +:+ CRLF +:+ CRLF, body).
Proof.
  intros Hne Hfree Hproper. unfold HttpUtil.splitHeadersBody.
  replace ((join CRLF lines +:+ CRLF +:+ CRLF) +:+ body)
    with (join CRLF lines +:+ HttpUtil.CRLFCRLF +:+ body)
    by (unfold HttpUtil.CRLFCRLF; rewrite !append_assoc; reflexivity).
  rewrite cut_first
    by (apply block_has_no_separator; [assumption .. | reflexivity]).
  reflexivity.
Qed.

(** What updateContentLength returns: in the request made of the new
    header block and any body, the header lines carry exactly one
    Content-Length header, with the given length in decimal, and the
    body starts right after the block. *)
Lemma updateContentLength_spec (headers : string) (n : nat) (body : string) :
  headerValues "Content-Length" (updateContentLength headers n +:+ body) = [itoa n] /\
  HttpUtil.splitHeadersBody (updateContentLength headers n +:+ body)
  = (updateContentLength headers n, body).
Proof.
  unfold updateContentLength.
  destruct (splitOn_cons CRLF headers CRLF_nonempty) as (start & fields & Hsplit).
  pose proof (splitOn_CRLF_free headers) as Hfree. rewrite Hsplit in *.
  inversion Hfree as [| ? ? Hstart Hfields]; subst.
  set (cl := contentLengthLine n).
  assert (Hcl : properLine cl)
    by (split; [apply contentLengthLine_no_CRLF | apply contentLengthLine_not_blank]).
  destruct (replaceContentLength_spec cl fields Hcl
              (contentLengthLine_isHeader n) Hfields) as [Hproper Hone].
  set (fields' := replaceContentLength cl fields) in *.
  change (start :: fields' ++ [""; ""]) with ((start :: fields') ++ [""; ""]).
  rewrite join_blank_line by discriminate.
  assert (Hlines : List.Forall (fun l => cut CRLF l = None) (start :: fields')).
  { constructor; [exact Hstart |].
    eapply List.Forall_impl; [| exact Hproper]. intros l [Hl _]. exact Hl. }
  split.
  - unfold headerValues, headerFields.
    rewrite splitOn_header_block by (discriminate || exact Hlines).
    cbn [app tl]. rewrite (untilBlank_proper _ _ Hproper), Hone.
    cbn [map]. subst cl. rewrite contentLengthLine_value. reflexivity.
  - apply splitHeadersBody_header_block; [discriminate | exact Hlines | exact Hproper].
Qed.
End BlankLineSeparator.

(* ===================================================================== *)
(** ** Content-Length of a replayed request                               *)
(* ===================================================================== *)

Example scenario_json_edit_content_length :
  Replay.buildReplayRequest headerModsSample jsonScenarioSample
    jsonScenarioRequest jsonScenarioBase
  = inr (crlf "POST /api HTTP/1.1" +:+ crlf "Host: example.com"
           +:+ crlf "Content-Length: 7" +:+ CRLF,
         jsonBodyAfter,
         crlf "POST /api HTTP/1.1" +:+ crlf "Host: example.com"
           +:+ crlf "Content-Length: 7" +:+ CRLF +:+ jsonBodyAfter) /\
  String.length jsonBodyBefore = 13 /\ String.length jsonBodyAfter = 7.
Proof. vm_compute. repeat split; reflexivity. Qed.

(** C1. For every base request, every tool-call request and every
    behaviour of the header edits and of the JSON edits: the body edits
    (literal override, then JSON edits) either fail, and then no request
    is built, or give a final body, and then the raw request built is the
    final header block followed by that body, its header lines carry
    exactly one Content-Length header, whose value is the decimal byte
    length of the final body (whatever Content-Length headers there were
    before), and the body that follows its blank line is the final
    body. *)
Theorem replay_content_length_is_final_body_length
    (applyHeaderModifications : string -> Replay.ReplaySendRequest -> string)
    (modifyJSONBody : string -> list string -> list string -> option string)
    (req : gmap string Mcp.ArgValue) (base : string) :
  match Replay.editJSONBody modifyJSONBody req
          (Replay.overrideBody req (flowBody req base)) with
  | inl e =>
      Replay.buildReplayRequest applyHeaderModifications modifyJSONBody req base
      = inl e
  | inr body =>
      exists headers,
        Replay.buildReplayRequest applyHeaderModifications modifyJSONBody req base
        = inr (headers, body, headers +:+ body) /\
        ContentLength.headerValues "Content-Length" (headers +:+ body)
        = [itoa (String.length body)] /\
        map atoi (ContentLength.headerValues "Content-Length" (headers +:+ body))
        = [Some (String.length body)] /\
        HttpUtil.splitHeadersBody (headers +:+ body) = (headers, body)
  end.
Proof.
  unfold Replay.buildReplayRequest, flowBody, replayOpts.
  destruct (HttpUtil.splitHeadersBody _) as [h b0]. cbn [snd].
  destruct (Replay.editJSONBody modifyJSONBody req (Replay.overrideBody req b0))
    as [e | body]; cbn [Replay.bindE]; [reflexivity |].
  eexists. split; [reflexivity |].
  destruct (updateContentLength_spec
              (applyHeaderModifications h
                 {| Replay.AddHeaders := Mcp.GetStringSlice req "add_headers" [];
                    Replay.RemoveHeaders := Mcp.GetStringSlice req "remove_headers" [];
                    Replay.Target := Mcp.GetString req "target" "" |})
              (String.length body) body) as [Hvalues Hsplit].
  rewrite Hvalues. cbn [map]. rewrite atoi_itoa.
  split; [reflexivity |]. split; [reflexivity | exact Hsplit].
Qed.


(* ===================================================================== *)
(** * Further properties of the embedded code                             *)
(* ===================================================================== *)

(* ===================================================================== *)
(** ** The secure listener, on every build                                *)
(* ===================================================================== *)

Lemma Accept_shape (p : SocketSecurity.Platform) (serverUID : Z)
    (incoming : list SocketSecurity.Incoming) :
  exists rejected,
    List.Forall
      (fun c => SocketSecurity.verifyPeerCredentials p serverUID c <> None)
      rejected /\
    incoming
    = map SocketSecurity.InConn rejected
        ++ deliveredLast (SocketSecurity.Accept p serverUID incoming).1.2
        ++ (SocketSecurity.Accept p serverUID incoming).2 /\
    (SocketSecurity.Accept p serverUID incoming).1.1
    = flat_map (rejectEvents p serverUID) rejected.
Proof.
  induction incoming as [| i incoming IH].
  - exists []. repeat split; constructor.
  - destruct i as [msg | conn]; cbn [SocketSecurity.Accept].
    + exists []. repeat split; constructor.
    + destruct (SocketSecurity.verifyPeerCredentials p serverUID conn)
        as [err |] eqn:Hv.
      * destruct IH as (rejected & Hrej & Hin & Hev).
        destruct (SocketSecurity.Accept p serverUID incoming) as [[evs res] rest].
        cbn [fst snd] in *. exists (conn :: rejected). split; [| split].
        -- constructor; [congruence | exact Hrej].
        -- cbn [map app]. f_equal. exact Hin.
        -- cbn [flat_map]. unfold rejectEvents at 1. rewrite Hv.
           cbn [app]. rewrite Hev. reflexivity.
      * exists []. repeat split; constructor.
Qed.

(** X1. On every build and for everything the wrapped listener may
    deliver, Accept consumes a run of connections that all fail the
    credential check, then stops at the first connection that passes it
    (returned), at the first error of the wrapped listener (returned
    unchanged), or at the end of what is delivered; what it does is
    exactly one log line and one Close per rejected connection, in
    order. So a connection that Accept returns was never closed by it,
    and nothing is closed that passed the check. *)
Theorem accept_rejects_a_prefix_and_closes_only_it
    (p : SocketSecurity.Platform) (serverUID : Z)
    (incoming : list SocketSecurity.Incoming) :
  let evs := (SocketSecurity.Accept p serverUID incoming).1.1 in
  let res := (SocketSecurity.Accept p serverUID incoming).1.2 in
  let rest := (SocketSecurity.Accept p serverUID incoming).2 in
  (exists rejected,
      List.Forall
        (fun c => SocketSecurity.verifyPeerCredentials p serverUID c <> None)
        rejected /\
      incoming = map SocketSecurity.InConn rejected ++ deliveredLast res ++ rest /\
      evs = flat_map (rejectEvents p serverUID) rejected /\
      length evs = (2 * length rejected)%nat) /\
  (forall conn, In (SocketSecurity.EvClose conn) evs ->
                SocketSecurity.verifyPeerCredentials p serverUID conn <> None) /\
  (forall conn, res = SocketSecurity.Accepted conn ->
                SocketSecurity.verifyPeerCredentials p serverUID conn = None /\
                ~ In (SocketSecurity.EvClose conn) evs) /\
  (res = SocketSecurity.Blocked -> rest = []).
Proof.
  cbv zeta.
  pose proof (Accept_shape p serverUID incoming) as (rejected & Hrej & Hin & Hev).
  destruct (SocketSecurity.Accept p serverUID incoming) as [[evs res] rest] eqn:HA.
  cbn [fst snd] in *.
  assert (Hclosed : forall conn, In (SocketSecurity.EvClose conn) evs ->
            SocketSecurity.verifyPeerCredentials p serverUID conn <> None).
  { intros conn Hc. rewrite Hev in Hc. apply in_flat_map in Hc as (c & Hc & Hin').
    rewrite List.Forall_forall in Hrej. specialize (Hrej c Hc).
    unfold rejectEvents in Hin'.
    destruct (SocketSecurity.verifyPeerCredentials p serverUID c) as [err |] eqn:Hv;
      [| contradiction].
    destruct Hin' as [H | [H | []]]; inversion H; subst. congruence. }
  assert (Hacc : forall conn, res = SocketSecurity.Accepted conn ->
            SocketSecurity.verifyPeerCredentials p serverUID conn = None).
  { pose proof (Accept_consumes _ _ _ _ _ _ HA) as (_ & H & _). exact H. }
  split; [| split; [exact Hclosed | split]].
  - exists rejected. repeat split; try assumption.
    rewrite Hev. clear -Hrej. induction Hrej as [| c rejected Hc _ IH]; [reflexivity |].
    cbn [flat_map]. rewrite length_app, IH. unfold rejectEvents.
    destruct (SocketSecurity.verifyPeerCredentials p serverUID c); [| contradiction].
    cbn. lia.
  - intros conn Hres. split; [apply Hacc, Hres |].
    intros Hc. apply (Hclosed conn Hc), Hacc, Hres.
  - intros Hres. subst res. clear -HA. revert evs rest HA.
    induction incoming as [| i incoming IH]; intros evs rest HA.
    + cbn in HA. congruence.
    + destruct i as [msg | conn]; cbn [SocketSecurity.Accept] in HA; [discriminate |].
      destruct (SocketSecurity.verifyPeerCredentials p serverUID conn); [| discriminate].
      destruct (SocketSecurity.Accept p serverUID incoming) as [[e r] rs].
      inversion HA; subst. eapply IH. reflexivity.
Qed.

(** X2. On every build, a connection passes verifyPeerCredentials exactly
    when the build has no peer credentials at all, or when it is a Unix
    connection whose raw descriptor and peer-credential option can be
    read and whose peer UID is the daemon's: where credentials are
    supported, a connection whose credentials cannot be read is rejected
    even if its peer runs under the daemon's UID. *)
Theorem verify_peer_credentials_fails_closed
    (p : SocketSecurity.Platform) (serverUID : Z) (conn : SocketSecurity.Conn) :
  SocketSecurity.verifyPeerCredentials p serverUID conn = None <->
  SocketSecurity.peerCredentialsSupported p = false \/
  (SocketSecurity.isUnixConn conn = true /\
   SocketSecurity.syscallConnOK conn = true /\
   SocketSecurity.controlOK conn = true /\
   SocketSecurity.getsockoptOK conn = true /\
   SocketSecurity.peerUID conn = serverUID).
Proof.
  destruct p; cbn;
    try (split; [intros _; left; reflexivity | reflexivity]);
    destruct (SocketSecurity.isUnixConn conn), (SocketSecurity.syscallConnOK conn),
             (SocketSecurity.controlOK conn), (SocketSecurity.getsockoptOK conn);
    cbn; try (split; [discriminate | intros [H | H]; [discriminate | intuition discriminate]]);
    destruct (Z.eqb_spec (SocketSecurity.peerUID conn) serverUID); cbn;
    (split; [intros H; try discriminate H; right; auto 10
            | intros [H | H]; [discriminate | intuition congruence]]).
Qed.

(* ===================================================================== *)
(** ** OAST poll: the two transports                                      *)
(* ===================================================================== *)

Lemma pollArgs_fields (req : Oast.OastPollRequest) :
  Mcp.GetString (pollArgs req) "oast_id" "" = Oast.OastID req /\
  Mcp.GetString (pollArgs req) "since" "" = Oast.Since req /\
  Mcp.GetString (pollArgs req) "wait" "" = Oast.Wait req /\
  Mcp.GetInt (pollArgs req) "limit" 0 = Oast.Limit req.
Proof.
  unfold pollArgs, Mcp.GetString, Mcp.GetInt.
  repeat split;
    repeat (rewrite lookup_insert_ne by discriminate);
    rewrite lookup_insert_eq; reflexivity.
Qed.

(** X3. The local-socket handler and the MCP gateway handler of oast poll
    decide alike: on the same oast_id, since, wait and limit they reject
    with the same error or hand the same arguments to the backend's
    PollSession. *)
Theorem oast_poll_transports_agree
    (ParseDuration : string -> option Z) (req : Oast.OastPollRequest) :
  Oast.mcpHandleOastPoll ParseDuration (pollArgs req)
  = Oast.handleOastPoll ParseDuration (Some req).
Proof.
  destruct (pollArgs_fields req) as (Hid & Hsince & Hwait & Hlimit).
  unfold Oast.mcpHandleOastPoll, Oast.handleOastPoll.
  rewrite Hid, Hsince, Hwait, Hlimit. reflexivity.
Qed.

(** X4. The local-socket handler of oast poll reaches the backend exactly
    when the body decodes, the oast_id is not empty and the wait is empty
    or parses as a duration; the errors are, in this order and exactly
    then, invalid body, missing oast_id, invalid wait. It reaches the
    backend with a given call exactly when that call carries the
    oast_id, since and limit of the request and, as its wait, 0 when no
    wait is given and otherwise the smaller of the parsed wait and 120
    seconds (so a negative wait is passed as it is). *)
Theorem oast_poll_rejects_or_bounds_wait
    (ParseDuration : string -> option Z) (decoded : option Oast.OastPollRequest) :
  (Oast.handleOastPoll ParseDuration decoded = inl Oast.InvalidBody <->
   decoded = None) /\
  (Oast.handleOastPoll ParseDuration decoded = inl Oast.OastIDRequired <->
   exists req, decoded = Some req /\ Oast.OastID req = "") /\
  (Oast.handleOastPoll ParseDuration decoded = inl Oast.InvalidWaitDuration <->
   exists req, decoded = Some req /\ Oast.OastID req <> "" /\
               Oast.Wait req <> "" /\ ParseDuration (Oast.Wait req) = None) /\
  (forall call,
      Oast.handleOastPoll ParseDuration decoded = inr call <->
      exists req,
        decoded = Some req /\ Oast.OastID req <> "" /\
        Oast.pollID call = Oast.OastID req /\
        Oast.pollSince call = Oast.Since req /\
        Oast.pollLimit call = Oast.Limit req /\
        ((Oast.Wait req = "" /\ Oast.pollWait call = 0%Z) \/
         (Oast.Wait req <> "" /\
          exists w, ParseDuration (Oast.Wait req) = Some w /\
                    Oast.pollWait call = Z.min w 120000000000))) /\
  (forall call,
      Oast.handleOastPoll ParseDuration decoded = inr call ->
      (Oast.pollWait call <= 120000000000)%Z).
Proof.
  assert (Hcall : forall call,
      Oast.handleOastPoll ParseDuration decoded = inr call <->
      exists req,
        decoded = Some req /\ Oast.OastID req <> "" /\
        Oast.pollID call = Oast.OastID req /\
        Oast.pollSince call = Oast.Since req /\
        Oast.pollLimit call = Oast.Limit req /\
        ((Oast.Wait req = "" /\ Oast.pollWait call = 0%Z) \/
         (Oast.Wait req <> "" /\
          exists w, ParseDuration (Oast.Wait req) = Some w /\
                    Oast.pollWait call = Z.min w 120000000000))).
  { intros call. unfold Oast.handleOastPoll.
    destruct decoded as [req |].
    2: { split; [discriminate | intros (req & H & _); discriminate]. }
    destruct (String.eqb_spec (Oast.OastID req) "") as [Hid | Hid].
    { split; [discriminate |].
      intros (req' & H & Hne & _). inversion H; subst. contradiction. }
    destruct (String.eqb_spec (Oast.Wait req) "") as [Hw | Hw]; cbn [negb].
    - split.
      + intros H. inversion H; subst; clear H. exists req. cbn. auto 10.
      + intros (req' & H & _ & H1 & H2 & H3 & Hwait). inversion H; subst req'.
        destruct Hwait as [[_ H4] | [Hne _]]; [| contradiction].
        destruct call; cbn in *; subst; reflexivity.
    - destruct (ParseDuration (Oast.Wait req)) as [w |] eqn:Hp.
      + assert (Hmin :
          (if (w >? 120 * Oast.Second)%Z
           then inr {| Oast.pollID := Oast.OastID req;
                       Oast.pollSince := Oast.Since req;
                       Oast.pollWait := (120 * Oast.Second)%Z;
                       Oast.pollLimit := Oast.Limit req |}
           else inr {| Oast.pollID := Oast.OastID req;
                       Oast.pollSince := Oast.Since req;
                       Oast.pollWait := w;
                       Oast.pollLimit := Oast.Limit req |})
          = (inr {| Oast.pollID := Oast.OastID req;
                    Oast.pollSince := Oast.Since req;
                    Oast.pollWait := Z.min w 120000000000;
                    Oast.pollLimit := Oast.Limit req |}
             : Oast.PollReject + Oast.PollCall)).
        { unfold Oast.Second.
          destruct (Z.gtb_spec w (120 * 1000000000)); do 2 f_equal; lia. }
        rewrite Hmin. split.
        * intros H. inversion H; subst; clear H. exists req. cbn.
          do 5 (split; [auto |]). right. split; [exact Hw |]. eauto.
        * intros (req' & H & _ & H1 & H2 & H3 & Hwait). inversion H; subst req'.
          destruct Hwait as [[He _] | (_ & w' & Hw' & H4)]; [contradiction |].
          rewrite Hp in Hw'. inversion Hw'; subst w'.
          destruct call; cbn in *; subst; reflexivity.
      + split; [discriminate |].
        intros (req' & H & _ & _ & _ & _ & Hwait). inversion H; subst req'.
        destruct Hwait as [[He _] | (_ & w' & Hw' & _)];
          [contradiction | rewrite Hp in Hw'; discriminate]. }
  split; [| split; [| split; [| split; [exact Hcall |]]]].
  - unfold Oast.handleOastPoll. destruct decoded as [req |].
    + split; [| discriminate].
      destruct (String.eqb (Oast.OastID req) ""); [discriminate |].
      destruct (negb (String.eqb (Oast.Wait req) "")); [| discriminate].
      destruct (ParseDuration (Oast.Wait req)) as [w |]; [| discriminate].
      destruct (w >? 120 * Oast.Second)%Z; discriminate.
    + split; reflexivity.
  - unfold Oast.handleOastPoll. destruct decoded as [req |].
    + destruct (String.eqb_spec (Oast.OastID req) "") as [Hid | Hid].
      * split; [eauto |]. reflexivity.
      * split.
        -- destruct (negb (String.eqb (Oast.Wait req) "")); [| discriminate].
           destruct (ParseDuration (Oast.Wait req)) as [w |]; [| discriminate].
           destruct (w >? 120 * Oast.Second)%Z; discriminate.
        -- intros (req' & H & He). inversion H; subst. contradiction.
    + split; [discriminate | intros (req & H & _); discriminate].
  - unfold Oast.handleOastPoll. destruct decoded as [req |].
    + destruct (String.eqb_spec (Oast.OastID req) "") as [Hid | Hid].
      * split; [discriminate |].
        intros (req' & H & Hne & _). inversion H; subst. contradiction.
      * destruct (String.eqb_spec (Oast.Wait req) "") as [Hw | Hw]; cbn [negb].
        -- split; [discriminate |].
           intros (req' & H & _ & Hne & _). inversion H; subst. contradiction.
        -- destruct (ParseDuration (Oast.Wait req)) as [w |] eqn:Hp.
           ++ split.
              ** destruct (w >? 120 * Oast.Second)%Z; discriminate.
              ** intros (req' & H & _ & _ & Hnone). inversion H; subst.
                 rewrite Hp in Hnone. discriminate.
           ++ split; [| reflexivity]. intros _. exists req. auto.
    + split; [discriminate | intros (req & H & _); discriminate].
  - intros call H. apply Hcall in H as (req & _ & _ & _ & _ & _ & Hwait).
    destruct Hwait as [[_ ->] | (_ & w & _ & ->)]; lia.
Qed.

(* ===================================================================== *)
(** ** replay_send: failures, validation, what is sent                    *)
(* ===================================================================== *)

Section ReplaySendFurther.
Import Replay.
Variable Lookup : string -> option Z.
Variable GetProxyHistory : Z -> Z -> option (list string).
Variable applyHeaderModifications : string -> ReplaySendRequest -> string.
Variable modifyJSONBody : string -> list string -> list string -> option string.
Variable parseTarget : string -> string -> string * Z * bool.
Variable Generate : string.
Variable ParseDuration : string -> option Z.
Variable parseResponseStatus : string -> Z * string.
Variable previewBody : string -> string.
Variable DurationString : Z -> string.
Variable now : Z.

(** A built request is its header block followed by its body, with the
    Content-Length of that body. *)
Lemma buildReplayRequest_inr (req : gmap string Mcp.ArgValue) (base : string)
    (headers body raw : string) :
  buildReplayRequest applyHeaderModifications modifyJSONBody req base
  = inr (headers, body, raw) ->
  raw = headers +:+ body /\
  ContentLength.headerValues "Content-Length" raw = [itoa (String.length body)] /\
  HttpUtil.splitHeadersBody raw = (headers, body).
Proof.
  unfold buildReplayRequest.
  destruct (HttpUtil.splitHeadersBody _) as [h b0].
  intros H. apply bindE_inr in H as (b & _ & H). inversion H; subst.
  split; [reflexivity |]. apply updateContentLength_spec.
Qed.

(** The steps of a successful replay_send. *)
Lemma handleReplaySend_steps
    (validateRequest : string -> list validationIssue)
    (SendRequest : string -> SendRequestInput -> option SendRequestResult)
    (req : gmap string Mcp.ArgValue)
    (store store' : gmap string Store.RequestEntry) (resp : ReplaySendResponse) :
  handleReplaySend Lookup GetProxyHistory applyHeaderModifications modifyJSONBody
    validateRequest parseTarget Generate ParseDuration SendRequest
    parseResponseStatus previewBody DurationString now req store
  = (inr resp, store') ->
  exists offset entries base headers body raw timeout result,
    Mcp.GetString req "flow_id" "" <> "" /\
    Lookup (Mcp.GetString req "flow_id" "") = Some offset /\
    GetProxyHistory 1 offset = Some entries /\
    head entries = Some base /\
    buildReplayRequest applyHeaderModifications modifyJSONBody req base
    = inr (headers, body, raw) /\
    (Mcp.GetBool req "force" false = false ->
     hasError (validateRequest raw) = false) /\
    (if String.eqb (Mcp.GetString req "timeout" "") "" then timeout = 0%Z
     else ParseDuration (Mcp.GetString req "timeout" "") = Some timeout) /\
    SendRequest ("sectool-" +:+ Generate)
      {| RawRequest := raw;
         SendTarget :=
           {| Hostname := (parseTarget raw (Mcp.GetString req "target" "")).1.1;
              Port := (parseTarget raw (Mcp.GetString req "target" "")).1.2;
              UsesHTTPS := (parseTarget raw (Mcp.GetString req "target" "")).2 |};
         FollowRedirects := Mcp.GetBool req "follow_redirects" false;
         Timeout := timeout |}
    = Some result /\
    SendReplayID resp = Generate /\
    RespHeaders (SendDetails resp) = ResultHeaders result /\
    RespSize (SendDetails resp) = String.length (ResultBody result) /\
    SendDuration resp = DurationString (ResultDuration result) /\
    store' = Store.Store now Generate
               {| Store.Headers := ResultHeaders result;
                  Store.Body := ResultBody result;
                  Store.Duration := ResultDuration result;
                  Store.CreatedAt := 0 |} store.
Proof.
  unfold handleReplaySend.
  match goal with
  | |- (match ?o with _ => _ end) = _ -> _ => destruct o as [e | [rid result]] eqn:Hout
  end; [discriminate |].
  destruct (parseResponseStatus (ResultHeaders result)) as [code line] eqn:Hst.
  intros H. inversion H; subst; clear H.
  cbn [SendReplayID SendDetails RespHeaders RespSize SendDuration].
  apply bindE_inr in Hout as (u1 & Hflow & Hout).
  apply bindE_inr in Hout as (offset & Hoff & Hout).
  apply bindE_inr in Hout as (entries & Hent & Hout).
  apply bindE_inr in Hout as (base & Hbase & Hout).
  apply bindE_inr in Hout as ([[headers body] raw] & Hbuilt & Hout).
  apply bindE_inr in Hout as (u2 & Hvalid & Hout).
  cbn [snd] in *.
  destruct (parseTarget raw (Mcp.GetString req "target" "")) as [[host port] tls]
    eqn:Hpt.
  apply bindE_inr in Hout as (timeout & Htime & Hout).
  apply bindE_inr in Hout as (res & Hsend & Hout).
  apply orFail_inr in Hoff, Hent, Hbase, Hsend. inversion Hout; subst.
  exists offset, entries, base, headers, body, raw, timeout, result.
  split.
  { revert Hflow.
    destruct (String.eqb_spec (Mcp.GetString req "flow_id" "") "");
      [discriminate | intros _; assumption]. }
  do 4 (split; [assumption |]).
  split.
  { intros Hf. rewrite Hf in Hvalid. cbn [negb andb] in Hvalid.
    destruct (hasError (validateRequest raw)); [discriminate | reflexivity]. }
  split.
  { destruct (String.eqb (Mcp.GetString req "timeout" "")); cbn [negb] in Htime.
    - inversion Htime. reflexivity.
    - apply orFail_inr in Htime. exact Htime. }
  rewrite Hpt. cbn [fst snd].
  split; [exact Hsend |]. repeat split; reflexivity.
Qed.

(** X5. Whenever replay_send succeeds, the request handed to the proxy
    port under the name sectool-<replay id> is exactly the request built
    from the stored flow and the edits, its header block followed by its
    body; unless force is set it has no error-level validation issue;
    the target is the one parseTarget derives from that very request
    and the target argument; follow_redirects is the argument; the
    timeout is 0 without a timeout argument and the parsed duration
    otherwise. *)
Theorem replay_send_sends_the_request_it_built
    (validateRequest : string -> list validationIssue)
    (SendRequest : string -> SendRequestInput -> option SendRequestResult)
    (req : gmap string Mcp.ArgValue)
    (store store' : gmap string Store.RequestEntry) (resp : ReplaySendResponse) :
  handleReplaySend Lookup GetProxyHistory applyHeaderModifications modifyJSONBody
    validateRequest parseTarget Generate ParseDuration SendRequest
    parseResponseStatus previewBody DurationString now req store
  = (inr resp, store') ->
  exists base headers body input result,
    (exists offset entries,
        Lookup (Mcp.GetString req "flow_id" "") = Some offset /\
        GetProxyHistory 1 offset = Some entries /\
        head entries = Some base) /\
    buildReplayRequest applyHeaderModifications modifyJSONBody req base
    = inr (headers, body, headers +:+ body) /\
    SendRequest ("sectool-" +:+ SendReplayID resp) input = Some result /\
    RawRequest input = headers +:+ body /\
    (Mcp.GetBool req "force" false = false ->
     hasError (validateRequest (RawRequest input)) = false) /\
    (Hostname (SendTarget input), Port (SendTarget input), UsesHTTPS (SendTarget input))
    = parseTarget (RawRequest input) (Mcp.GetString req "target" "") /\
    FollowRedirects input = Mcp.GetBool req "follow_redirects" false /\
    (if String.eqb (Mcp.GetString req "timeout" "") "" then Timeout input = 0%Z
     else ParseDuration (Mcp.GetString req "timeout" "") = Some (Timeout input)).
Proof.
  intros H.
  destruct (handleReplaySend_steps _ _ _ _ _ _ H)
    as (offset & entries & base & headers & body & raw & timeout & result
        & _ & Hoff & Hent & Hbase & Hbuilt & Hvalid & Htime & Hsend & Hid & _).
  destruct (buildReplayRequest_inr _ _ _ _ _ Hbuilt) as (Hraw & _).
  subst raw. rewrite Hid.
  exists base, headers, body. eexists. exists result.
  split; [eauto |]. split; [exact Hbuilt |]. split; [exact Hsend |].
  cbn [RawRequest SendTarget Hostname Port UsesHTTPS FollowRedirects Timeout].
  split; [reflexivity |].
  split; [exact Hvalid |]. split; [| split; [reflexivity | exact Htime]].
  destruct (parseTarget _ _) as [[h p] t]. reflexivity.
Qed.

End ReplaySendFurther.

Section ReplaySendValidation.
Import Replay.
Variable Lookup : string -> option Z.
Variable GetProxyHistory : Z -> Z -> option (list string).
Variable applyHeaderModifications : string -> ReplaySendRequest -> string.
Variable modifyJSONBody : string -> list string -> list string -> option string.
Variable parseTarget : string -> string -> string * Z * bool.
Variable Generate : string.
Variable ParseDuration : string -> option Z.
Variable SendRequest : string -> SendRequestInput -> option SendRequestResult.
Variable parseResponseStatus : string -> Z * string.
Variable previewBody : string -> string.
Variable DurationString : Z -> string.
Variable now : Z.

(** X7. With force set, replay_send does not depend on the validator at
    all: whatever issues it would report, the outcome and the store are
    the same. *)
Theorem replay_send_force_skips_validation
    (validate1 validate2 : string -> list validationIssue)
    (req : gmap string Mcp.ArgValue) (store : gmap string Store.RequestEntry) :
  Mcp.GetBool req "force" false = true ->
  handleReplaySend Lookup GetProxyHistory applyHeaderModifications
    modifyJSONBody validate1 parseTarget Generate ParseDuration SendRequest
    parseResponseStatus previewBody DurationString now req store
  = handleReplaySend Lookup GetProxyHistory applyHeaderModifications
      modifyJSONBody validate2 parseTarget Generate ParseDuration SendRequest
      parseResponseStatus previewBody DurationString now req store.
Proof.
  intros Hforce. unfold handleReplaySend. rewrite Hforce. reflexivity.
Qed.

(** X8. Without force, a request that was built is refused exactly on
    an error-level validation issue. With an issue of severity error
    the answer is the validation error, whatever the target, the
    timeout and the answer of the proxy port would be, and the replay
    store is left as it was. Without one, whatever other issues the
    validator reports, replay_send goes on exactly as with a validator
    that reports nothing, and its answer is not the validation error. *)
Theorem replay_send_refuses_invalid_request
    (validateRequest : string -> list validationIssue)
    (req : gmap string Mcp.ArgValue) (store : gmap string Store.RequestEntry)
    (offset : Z) (entries : list string) (base headers body raw : string) :
  Mcp.GetBool req "force" false = false ->
  Mcp.GetString req "flow_id" "" <> "" ->
  Lookup (Mcp.GetString req "flow_id" "") = Some offset ->
  GetProxyHistory 1 offset = Some entries ->
  head entries = Some base ->
  buildReplayRequest applyHeaderModifications modifyJSONBody req base
  = inr (headers, body, raw) ->
  ((exists issue, In issue (validateRequest raw) /\ Severity issue = "error") ->
   handleReplaySend Lookup GetProxyHistory applyHeaderModifications
     modifyJSONBody validateRequest parseTarget Generate ParseDuration
     SendRequest parseResponseStatus previewBody DurationString now req store
   = (inl ValidationFailed, store)) /\
  ((forall issue, In issue (validateRequest raw) -> Severity issue <> "error") ->
   handleReplaySend Lookup GetProxyHistory applyHeaderModifications
     modifyJSONBody validateRequest parseTarget Generate ParseDuration
     SendRequest parseResponseStatus previewBody DurationString now req store
   = handleReplaySend Lookup GetProxyHistory applyHeaderModifications
       modifyJSONBody (fun _ => []) parseTarget Generate ParseDuration
       SendRequest parseResponseStatus previewBody DurationString now req store
   /\
   fst (handleReplaySend Lookup GetProxyHistory applyHeaderModifications
          modifyJSONBody validateRequest parseTarget Generate ParseDuration
          SendRequest parseResponseStatus previewBody DurationString now req
          store)
   <> inl ValidationFailed).
Proof.
  intros Hforce Hflow Hoff Hent Hbase Hbuilt.
  unfold handleReplaySend.
  apply String.eqb_neq in Hflow. rewrite Hflow. cbn [bindE].
  rewrite Hoff. cbn [orFail bindE]. rewrite Hent. cbn [orFail bindE].
  rewrite Hbase. cbn [orFail bindE]. rewrite Hbuilt. cbn [bindE snd].
  rewrite Hforce. cbn [negb andb hasError existsb].
  split.
  - intros (issue & Hin & Hsev).
    assert (Herr : hasError (validateRequest raw) = true).
    { unfold hasError. apply existsb_exists. exists issue.
      split; [exact Hin | apply String.eqb_eq, Hsev]. }
    rewrite Herr. reflexivity.
  - intros Hnone.
    assert (Herr : hasError (validateRequest raw) = false).
    { unfold hasError. apply not_true_is_false. intros H.
      apply existsb_exists in H as (issue & Hin & Hsev).
      apply String.eqb_eq in Hsev. exact (Hnone issue Hin Hsev). }
    rewrite Herr. split; [reflexivity |].
    cbn [bindE].
    destruct (parseTarget raw (Mcp.GetString req "target" "")) as [[host port] tls].
    destruct (negb (String.eqb (Mcp.GetString req "timeout" "") "")).
    + destruct (ParseDuration (Mcp.GetString req "timeout" "")) as [t |];
        cbn [orFail bindE]; [| cbn; discriminate].
      destruct (SendRequest _ _) as [result |]; cbn [orFail bindE];
        [| cbn; discriminate].
      destruct (parseResponseStatus (ResultHeaders result)). cbn. discriminate.
    + cbn [bindE].
      destruct (SendRequest _ _) as [result |]; cbn [orFail bindE];
        [| cbn; discriminate].
      destruct (parseResponseStatus (ResultHeaders result)). cbn. discriminate.
Qed.
End ReplaySendValidation.


Lemma replay_send_sends_the_request_it_built_witness :
  exists input result,
    sendSample "sectool-r3pl4y01" input = Some result /\
    Replay.RawRequest input
    = (crlf "POST /api HTTP/1.1" +:+ crlf "Host: example.com"
         +:+ crlf "Content-Length: 8" +:+ CRLF) +:+ "new body" /\
    Replay.Timeout input = 0%Z.
Proof.
  edestruct (replay_send_sends_the_request_it_built
               lookupSample historySample headerModsSample jsonEditSample
               parseTargetSample "r3pl4y01" parseDurationSample
               parseStatusSample previewSample durationStringSample 77
               validateSample sendSample replaySendSample ∅)
    as (base & headers & body & input & result
        & (offset & entries & _ & Hent & Hbase) & Hbuilt & Hsend & Hraw
        & _ & _ & _ & Htime).
  - vm_compute. reflexivity.
  - inversion Hent; subst entries. inversion Hbase; subst base.
    vm_compute in Hbuilt. inversion Hbuilt; subst headers body.
    exists input, result.
    split; [exact Hsend |]. split; [exact Hraw |].
    exact Htime.
Defined.

Lemma replay_send_force_skips_validation_witness :
  Replay.handleReplaySend lookupSample historySample headerModsSample
    jsonEditSample validateSample parseTargetSample "r3pl4y01"
    parseDurationSample sendSample parseStatusSample previewSample
    durationStringSample 77 replaySendForcedSample ∅
  = Replay.handleReplaySend lookupSample historySample headerModsSample
      jsonEditSample validateRejectSample parseTargetSample "r3pl4y01"
      parseDurationSample sendSample parseStatusSample previewSample
      durationStringSample 77 replaySendForcedSample ∅.
Proof.
  apply (replay_send_force_skips_validation
           lookupSample historySample headerModsSample jsonEditSample
           parseTargetSample "r3pl4y01" parseDurationSample sendSample
           parseStatusSample previewSample durationStringSample 77
           validateSample validateRejectSample replaySendForcedSample ∅).
  vm_compute. reflexivity.
Defined.

Lemma replay_send_refuses_invalid_request_witness :
  Replay.handleReplaySend lookupSample historySample headerModsSample
    jsonEditSample validateRejectSample parseTargetSample "r3pl4y01"
    parseDurationSample sendSample parseStatusSample previewSample
    durationStringSample 77 replaySendSample ∅
  = (inl Replay.ValidationFailed, ∅) /\
  fst (Replay.handleReplaySend lookupSample historySample headerModsSample
         jsonEditSample validateWarnSample parseTargetSample "r3pl4y01"
         parseDurationSample sendSample parseStatusSample previewSample
         durationStringSample 77 replaySendSample ∅)
  <> inl Replay.ValidationFailed.
Proof.
  split.
  - refine (proj1 (replay_send_refuses_invalid_request
              lookupSample historySample headerModsSample jsonEditSample
              parseTargetSample "r3pl4y01" parseDurationSample sendSample
              parseStatusSample previewSample durationStringSample 77
              validateRejectSample replaySendSample ∅ 0%Z [baseRequestSample]
              baseRequestSample _ _
              (builtHeadersSample +:+ "new body")
              _ _ _ _ _ _) _).
    + vm_compute. reflexivity.
    + discriminate.
    + vm_compute. reflexivity.
    + reflexivity.
    + reflexivity.
    + vm_compute. reflexivity.
    + eexists. split; [right; left; reflexivity | reflexivity].
  - refine (proj2 (proj2 (replay_send_refuses_invalid_request
              lookupSample historySample headerModsSample jsonEditSample
              parseTargetSample "r3pl4y01" parseDurationSample sendSample
              parseStatusSample previewSample durationStringSample 77
              validateWarnSample replaySendSample ∅ 0%Z [baseRequestSample]
              baseRequestSample _ _
              (builtHeadersSample +:+ "new body")
              _ _ _ _ _ _) _)).
    + vm_compute. reflexivity.
    + discriminate.
    + vm_compute. reflexivity.
    + reflexivity.
    + reflexivity.
    + vm_compute. reflexivity.
    + intros issue [<- | []]. discriminate.
Defined.

(* ===================================================================== *)
(** ** Tool declarations and the handlers registered for them             *)
(* ===================================================================== *)

Lemma agreeOn_GetString (keys : list string) (req1 req2 : gmap string Mcp.ArgValue) :
  Tools.agreeOn keys req1 req2 ->
  forall k d, In k keys -> Mcp.GetString req1 k d = Mcp.GetString req2 k d.
Proof. intros H k d Hk. unfold Mcp.GetString. rewrite (H k Hk). reflexivity. Qed.

Lemma agreeOn_GetInt (keys : list string) (req1 req2 : gmap string Mcp.ArgValue) :
  Tools.agreeOn keys req1 req2 ->
  forall k d, In k keys -> Mcp.GetInt req1 k d = Mcp.GetInt req2 k d.
Proof. intros H k d Hk. unfold Mcp.GetInt. rewrite (H k Hk). reflexivity. Qed.

Lemma agreeOn_GetBool (keys : list string) (req1 req2 : gmap string Mcp.ArgValue) :
  Tools.agreeOn keys req1 req2 ->
  forall k d, In k keys -> Mcp.GetBool req1 k d = Mcp.GetBool req2 k d.
Proof. intros H k d Hk. unfold Mcp.GetBool. rewrite (H k Hk). reflexivity. Qed.

Lemma agreeOn_GetStringSlice (keys : list string)
    (req1 req2 : gmap string Mcp.ArgValue) :
  Tools.agreeOn keys req1 req2 ->
  forall k d, In k keys ->
    Mcp.GetStringSlice req1 k d = Mcp.GetStringSlice req2 k d.
Proof. intros H k d Hk. unfold Mcp.GetStringSlice. rewrite (H k Hk). reflexivity. Qed.

Ltac in_list := cbn; repeat (first [left; reflexivity | right]).

Ltac same_arguments H :=
  repeat first
    [ rewrite (agreeOn_GetString _ _ _ H) by in_list
    | rewrite (agreeOn_GetInt _ _ _ H) by in_list
    | rewrite (agreeOn_GetBool _ _ _ H) by in_list
    | rewrite (agreeOn_GetStringSlice _ _ _ H) by in_list ].

Section ToolDeclarations.
Import Tools.
Variable Lookup : string -> option Z.
Variable GetProxyHistory : Z -> Z -> option (list string).
Variable applyHeaderModifications : string -> Replay.ReplaySendRequest -> string.
Variable modifyJSONBody : string -> list string -> list string -> option string.
Variable validateRequest : string -> list Replay.validationIssue.
Variable parseTarget : string -> string -> string * Z * bool.
Variable Generate : string.
Variable ParseDuration : string -> option Z.
Variable SendRequest :
  string -> Replay.SendRequestInput -> option Replay.SendRequestResult.
Variable parseResponseStatus : string -> Z * string.
Variable previewBody : string -> string.
Variable DurationString : Z -> string.
Variable now : Z.
Variable Rule : Type.
Variable validateRuleType : string -> option string.
Variable ListRules : bool -> ProxyRules.BackendError + list Rule.
Variable AddRule : bool -> ProxyRules.ProxyRuleInput -> ProxyRules.BackendError + Rule.
Variable UpdateRule :
  string -> ProxyRules.ProxyRuleInput -> ProxyRules.BackendError + Rule.
Variable DeleteRule : string -> option ProxyRules.BackendError.
Variable ListSessions : OastList.BackendError + list OastList.Session.
Variable sortSlice :
  (OastList.Session -> OastList.Session -> bool) ->
  list OastList.Session -> list OastList.Session.
Variable formatRFC3339 : Z -> string.
Variable Details : Type.
Variable CreateSession : string -> OastList.BackendError + OastList.Session.
Variable GetEvent :
  string -> string -> OastList.BackendError + OastApi.Event Details.
Variable DeleteSession : string -> option OastList.BackendError.
Variable ProxyListResponse : Type.
Variable processProxyList :
  ProxyRules.ProxyListRequest -> string + ProxyListResponse.
Variable QueryEscape : string -> string.
Variable QueryUnescape : string -> string + string.
Variable EscapeString : string -> string.
Variable UnescapeString : string -> string.

(** X9. Each of the fifteen handlers that registerTools pairs with a
    tool declaration reads only the arguments that declaration names:
    two calls whose arguments agree under the declared names have the
    same outcome (and leave the same replay store), whatever else the
    argument objects hold. *)
Theorem handlers_read_only_declared_arguments
    (req1 req2 : gmap string Mcp.ArgValue) :
  (agreeOn (declared replaySendTool) req1 req2 ->
   forall store,
     Replay.handleReplaySend Lookup GetProxyHistory applyHeaderModifications
       modifyJSONBody validateRequest parseTarget Generate ParseDuration
       SendRequest parseResponseStatus previewBody DurationString now req1 store
     = Replay.handleReplaySend Lookup GetProxyHistory applyHeaderModifications
         modifyJSONBody validateRequest parseTarget Generate ParseDuration
         SendRequest parseResponseStatus previewBody DurationString now req2
         store) /\
  (agreeOn (declared replayGetTool) req1 req2 ->
   forall store,
     Replay.handleReplayGet parseResponseStatus DurationString req1 store
     = Replay.handleReplayGet parseResponseStatus DurationString req2 store) /\
  (agreeOn (declared oastPollTool) req1 req2 ->
   Oast.mcpHandleOastPoll ParseDuration req1
   = Oast.mcpHandleOastPoll ParseDuration req2) /\
  (agreeOn (declared oastCreateTool) req1 req2 ->
   OastApi.mcpHandleOastCreate CreateSession req1
   = OastApi.mcpHandleOastCreate CreateSession req2) /\
  (agreeOn (declared oastGetTool) req1 req2 ->
   OastApi.mcpHandleOastGet Details GetEvent formatRFC3339 req1
   = OastApi.mcpHandleOastGet Details GetEvent formatRFC3339 req2) /\
  (agreeOn (declared oastListTool) req1 req2 ->
   OastList.handleOastList ListSessions sortSlice formatRFC3339 req1
   = OastList.handleOastList ListSessions sortSlice formatRFC3339 req2) /\
  (agreeOn (declared oastDeleteTool) req1 req2 ->
   OastApi.mcpHandleOastDelete DeleteSession req1
   = OastApi.mcpHandleOastDelete DeleteSession req2) /\
  (agreeOn (declared proxyListTool) req1 req2 ->
   ProxyRules.handleProxyList ProxyListResponse processProxyList req1
   = ProxyRules.handleProxyList ProxyListResponse processProxyList req2) /\
  (agreeOn (declared proxyRuleListTool) req1 req2 ->
   ProxyRules.handleProxyRuleList Rule ListRules req1
   = ProxyRules.handleProxyRuleList Rule ListRules req2) /\
  (agreeOn (declared proxyRuleAddTool) req1 req2 ->
   ProxyRules.handleProxyRuleAdd Rule validateRuleType AddRule req1
   = ProxyRules.handleProxyRuleAdd Rule validateRuleType AddRule req2) /\
  (agreeOn (declared proxyRuleUpdateTool) req1 req2 ->
   ProxyRules.handleProxyRuleUpdate Rule validateRuleType UpdateRule req1
   = ProxyRules.handleProxyRuleUpdate Rule validateRuleType UpdateRule req2) /\
  (agreeOn (declared proxyRuleDeleteTool) req1 req2 ->
   ProxyRules.handleProxyRuleDelete DeleteRule req1
   = ProxyRules.handleProxyRuleDelete DeleteRule req2) /\
  (agreeOn (declared encodeURLTool) req1 req2 ->
   Encode.handleEncodeURL QueryEscape QueryUnescape req1
   = Encode.handleEncodeURL QueryEscape QueryUnescape req2) /\
  (agreeOn (declared encodeBase64Tool) req1 req2 ->
   Encode.handleEncodeBase64 req1 = Encode.handleEncodeBase64 req2) /\
  (agreeOn (declared encodeHTMLTool) req1 req2 ->
   Encode.handleEncodeHTML EscapeString UnescapeString req1
   = Encode.handleEncodeHTML EscapeString UnescapeString req2).
Proof.
  repeat split; intros H; intros.
  - unfold Replay.handleReplaySend, Replay.buildReplayRequest,
      Replay.overrideBody, Replay.editJSONBody.
    same_arguments H. reflexivity.
  - unfold Replay.handleReplayGet. same_arguments H. reflexivity.
  - unfold Oast.mcpHandleOastPoll. same_arguments H. reflexivity.
  - unfold OastApi.mcpHandleOastCreate. same_arguments H. reflexivity.
  - unfold OastApi.mcpHandleOastGet. same_arguments H. reflexivity.
  - unfold OastList.handleOastList. same_arguments H. reflexivity.
  - unfold OastApi.mcpHandleOastDelete. same_arguments H. reflexivity.
  - unfold ProxyRules.handleProxyList. same_arguments H. reflexivity.
  - unfold ProxyRules.handleProxyRuleList. same_arguments H. reflexivity.
  - unfold ProxyRules.handleProxyRuleAdd. same_arguments H. reflexivity.
  - unfold ProxyRules.handleProxyRuleUpdate. same_arguments H. reflexivity.
  - unfold ProxyRules.handleProxyRuleDelete. same_arguments H. reflexivity.
  - unfold Encode.handleEncodeURL. same_arguments H. reflexivity.
  - unfold Encode.handleEncodeBase64. same_arguments H. reflexivity.
  - unfold Encode.handleEncodeHTML. same_arguments H. reflexivity.
Qed.

(** X10. An argument that a declaration marks mcp.Required() is
    enforced by the handler registered for it: when it is absent, not
    a string or empty, the handler answers with its own error and
    consults no collaborator (flow cache, proxy port, backend,
    validator, replay store). *)
Theorem required_arguments_are_enforced
    (req : gmap string Mcp.ArgValue) (k : string) :
  Mcp.GetString req k "" = "" ->
  (In k (requiredNames replaySendTool) ->
   forall store,
     Replay.handleReplaySend Lookup GetProxyHistory applyHeaderModifications
       modifyJSONBody validateRequest parseTarget Generate ParseDuration
       SendRequest parseResponseStatus previewBody DurationString now req store
     = (inl Replay.FlowIDRequired, store)) /\
  (In k (requiredNames replayGetTool) ->
   forall store,
     Replay.handleReplayGet parseResponseStatus DurationString req store
     = inl Replay.ReplayIDRequired) /\
  (In k (requiredNames oastPollTool) ->
   Oast.mcpHandleOastPoll ParseDuration req = inl Oast.OastIDRequired) /\
  (In k (requiredNames oastGetTool) ->
   OastApi.mcpHandleOastGet Details GetEvent formatRFC3339 req
   = ProxyRules.errorResult "oast_id is required" \/
   OastApi.mcpHandleOastGet Details GetEvent formatRFC3339 req
   = ProxyRules.errorResult "event_id is required") /\
  (In k (requiredNames oastDeleteTool) ->
   OastApi.mcpHandleOastDelete DeleteSession req
   = ProxyRules.errorResult "oast_id is required") /\
  (In k (requiredNames proxyRuleAddTool) ->
   ProxyRules.handleProxyRuleAdd Rule validateRuleType AddRule req
   = ProxyRules.errorResult "type is required") /\
  (In k (requiredNames proxyRuleUpdateTool) ->
   ProxyRules.handleProxyRuleUpdate Rule validateRuleType UpdateRule req
   = ProxyRules.errorResult "rule_id is required" \/
   ProxyRules.handleProxyRuleUpdate Rule validateRuleType UpdateRule req
   = ProxyRules.errorResult "type is required") /\
  (In k (requiredNames proxyRuleDeleteTool) ->
   ProxyRules.handleProxyRuleDelete DeleteRule req
   = ProxyRules.errorResult "rule_id is required") /\
  (In k (requiredNames encodeURLTool) ->
   Encode.handleEncodeURL QueryEscape QueryUnescape req
   = Encode.InputRequired) /\
  (In k (requiredNames encodeBase64Tool) ->
   Encode.handleEncodeBase64 req = Encode.InputRequired) /\
  (In k (requiredNames encodeHTMLTool) ->
   Encode.handleEncodeHTML EscapeString UnescapeString req
   = Encode.InputRequired).
Proof.
  intros Hk.
  repeat split; cbn; intros Hin; intros;
    repeat match goal with
           | H : _ \/ _ |- _ => destruct H as [H | H]
           | H : False |- _ => destruct H
           | H : _ = k |- _ => subst k
           end.
  - unfold Replay.handleReplaySend. rewrite Hk. reflexivity.
  - unfold Replay.handleReplayGet. rewrite Hk. reflexivity.
  - unfold Oast.mcpHandleOastPoll. rewrite Hk. reflexivity.
  - left. unfold OastApi.mcpHandleOastGet. rewrite Hk. reflexivity.
  - unfold OastApi.mcpHandleOastGet. rewrite Hk.
    destruct (String.eqb (Mcp.GetString req "oast_id" "") "");
      [left | right]; reflexivity.
  - unfold OastApi.mcpHandleOastDelete. rewrite Hk. reflexivity.
  - unfold ProxyRules.handleProxyRuleAdd. rewrite Hk. reflexivity.
  - left. unfold ProxyRules.handleProxyRuleUpdate. rewrite Hk. reflexivity.
  - unfold ProxyRules.handleProxyRuleUpdate. rewrite Hk.
    destruct (String.eqb (Mcp.GetString req "rule_id" "") "");
      [left | right]; reflexivity.
  - unfold ProxyRules.handleProxyRuleDelete. rewrite Hk. reflexivity.
  - unfold Encode.handleEncodeURL. rewrite Hk. reflexivity.
  - unfold Encode.handleEncodeBase64. rewrite Hk. reflexivity.
  - unfold Encode.handleEncodeHTML. rewrite Hk. reflexivity.
Qed.
End ToolDeclarations.


(* ===================================================================== *)
(** ** Proxy rule tools                                                   *)
(* ===================================================================== *)

(** The truncation idiom [if limit > 0 && len(l) > limit { l = l[:limit] }]. *)
Lemma limit_prefix {A : Type} (limit : Z) (l : list A) :
  let kept :=
    if (0 <? limit)%Z && (limit <? Z.of_nat (length l))%Z
    then firstn (Z.to_nat limit) l else l in
  kept ++ skipn (length kept) l = l /\
  length kept
  = if (0 <? limit)%Z then Z.to_nat (Z.min limit (Z.of_nat (length l)))
    else length l.
Proof.
  cbv zeta.
  destruct (Z.ltb_spec 0 limit) as [Hpos | Hpos];
    destruct (Z.ltb_spec limit (Z.of_nat (length l))) as [Hlt | Hge];
    cbn [andb].
  - rewrite length_firstn.
    replace (Init.Nat.min (Z.to_nat limit) (length l)) with (Z.to_nat limit) by lia.
    split; [apply firstn_skipn | lia].
  - split; [rewrite skipn_all, app_nil_r; reflexivity | lia].
  - split; [rewrite skipn_all, app_nil_r; reflexivity | reflexivity].
  - split; [rewrite skipn_all, app_nil_r; reflexivity | reflexivity].
Qed.

(** X11. proxy_rule_list answers with a prefix of the rules the backend
    lists, in the backend's order: the first [limit] of them when
    [limit] is positive (all when there are fewer), and all of them
    when [limit] is zero, negative or absent. A backend error becomes
    an error result carrying its text. *)
Theorem proxy_rule_list_returns_a_prefix
    (Rule : Type)
    (ListRules : bool -> ProxyRules.BackendError + list Rule)
    (req : gmap string Mcp.ArgValue) :
  match ListRules (Mcp.GetBool req "websocket" false) with
  | inl err =>
      ProxyRules.handleProxyRuleList Rule ListRules req
      = ProxyRules.errorResult ("failed to list rules: " +:+ ProxyRules.Error err)
  | inr rules =>
      exists kept dropped,
        ProxyRules.handleProxyRuleList Rule ListRules req
        = ProxyRules.jsonResult kept /\
        rules = kept ++ dropped /\
        length kept
        = if (0 <? Mcp.GetInt req "limit" 0)%Z
          then Z.to_nat (Z.min (Mcp.GetInt req "limit" 0) (Z.of_nat (length rules)))
          else length rules
  end.
Proof.
  unfold ProxyRules.handleProxyRuleList.
  destruct (ListRules (Mcp.GetBool req "websocket" false)) as [err | rules];
    [reflexivity |].
  destruct (limit_prefix (Mcp.GetInt req "limit" 0) rules) as [Happ Hlen].
  eexists. eexists. split; [reflexivity |]. split; [symmetry; exact Happ | exact Hlen].
Qed.

(** X12. proxy_rule_update checks its arguments exactly as
    proxy_rule_add does. For a request with a rule_id, either both
    refuse it with the same message and neither reaches the backend, or
    both hand the backend the same ProxyRuleInput, built from the
    arguments, with a non-empty accepted type and a match or a replace. *)
Theorem proxy_rule_update_validates_like_add
    (Rule : Type) (validateRuleType : string -> option string)
    (req : gmap string Mcp.ArgValue) :
  Mcp.GetString req "rule_id" "" <> "" ->
  (exists message,
      (forall AddRule,
          ProxyRules.handleProxyRuleAdd Rule validateRuleType AddRule req
          = ProxyRules.errorResult message) /\
      (forall UpdateRule,
          ProxyRules.handleProxyRuleUpdate Rule validateRuleType UpdateRule req
          = ProxyRules.errorResult message)) \/
  (exists input,
      input = {| ProxyRules.Label := Mcp.GetString req "label" "";
                 ProxyRules.RuleType := Mcp.GetString req "type" "";
                 ProxyRules.IsRegex := Mcp.GetBool req "is_regex" false;
                 ProxyRules.Match := Mcp.GetString req "match" "";
                 ProxyRules.Replace := Mcp.GetString req "replace" "" |} /\
      ProxyRules.RuleType input <> "" /\
      validateRuleType (ProxyRules.RuleType input) = None /\
      (ProxyRules.Match input <> "" \/ ProxyRules.Replace input <> "") /\
      (forall AddRule,
          ProxyRules.handleProxyRuleAdd Rule validateRuleType AddRule req
          = match AddRule (Mcp.GetBool req "websocket" false) input with
            | inr rule => ProxyRules.jsonResult rule
            | inl err =>
                ProxyRules.errorResult
                  ((if ProxyRules.IsLabelExists err
                    then "label already exists: "
                    else "failed to add rule: ") +:+ ProxyRules.Error err)
            end) /\
      (forall UpdateRule,
          ProxyRules.handleProxyRuleUpdate Rule validateRuleType UpdateRule req
          = match UpdateRule (Mcp.GetString req "rule_id" "") input with
            | inr rule => ProxyRules.jsonResult rule
            | inl err =>
                ProxyRules.errorResult
                  (if ProxyRules.IsNotFound err then "rule not found"
                   else (if ProxyRules.IsLabelExists err
                         then "label already exists: "
                         else "failed to update rule: ")
                        +:+ ProxyRules.Error err)
            end)).
Proof.
  intros Hid. apply String.eqb_neq in Hid.
  unfold ProxyRules.handleProxyRuleAdd, ProxyRules.handleProxyRuleUpdate.
  rewrite Hid.
  destruct (String.eqb_spec (Mcp.GetString req "type" "") "") as [Hty | Hty].
  { left. eexists. split; intros; reflexivity. }
  destruct (validateRuleType (Mcp.GetString req "type" "")) as [message |] eqn:Hval.
  { left. eexists. split; intros; reflexivity. }
  destruct (String.eqb_spec (Mcp.GetString req "match" "") "") as [Hm | Hm];
    destruct (String.eqb_spec (Mcp.GetString req "replace" "") "") as [Hr | Hr];
    cbn [andb].
  { left. eexists. split; intros; reflexivity. }
  all: right; eexists; split; [reflexivity |]; cbn;
    (split; [exact Hty |]); (split; [exact Hval |]);
    (split; [first [left; assumption | right; assumption] |]);
    split; intros F;
    match goal with
    | |- context [match ?c with _ => _ end] => destruct c as [err | rule]
    end; try reflexivity;
    destruct (ProxyRules.IsNotFound err), (ProxyRules.IsLabelExists err);
    reflexivity.
Qed.

(* ===================================================================== *)
(** ** Listing OAST sessions                                              *)
(* ===================================================================== *)

Lemma StronglySorted_app {A : Type} (R : A -> A -> Prop) (l1 l2 : list A) :
  StronglySorted R (l1 ++ l2) ->
  StronglySorted R l1 /\ (forall a b, In a l1 -> In b l2 -> R a b).
Proof.
  induction l1 as [| x l1 IH]; cbn; intros H.
  - split; [constructor | intros a b []].
  - inversion H as [| ? ? Hs Hall]; subst.
    destruct (IH Hs) as [Hs1 Hcross].
    rewrite List.Forall_forall in Hall.
    split.
    + constructor; [exact Hs1 |].
      rewrite List.Forall_forall. intros y Hy. apply Hall, in_or_app. left. exact Hy.
    + intros a b [-> | Ha] Hb.
      * apply Hall, in_or_app. right. exact Hb.
      * apply Hcross; assumption.
Qed.

(** X13. When sort.Slice does what it promises on the listed sessions
    (it permutes them, and afterwards no element is created after the
    one before it), processOastList returns the newest sessions, newest
    first: the answer converts a list [kept] that, together with the
    sessions left out, is the backend's list; [kept] is ordered by
    creation time, descending; it holds [limit] sessions when [limit]
    is positive (all when there are fewer) and all of them otherwise;
    and no session left out is newer than one returned. *)
Theorem oast_list_returns_the_newest_sessions
    (sortSlice :
       (OastList.Session -> OastList.Session -> bool) ->
       list OastList.Session -> list OastList.Session)
    (formatRFC3339 : Z -> string)
    (sessions : list OastList.Session) (limit : Z) :
  Permutation sessions (sortSlice OastList.createdAfter sessions) ->
  Sorted (fun a b => OastList.createdAfter b a = false)
    (sortSlice OastList.createdAfter sessions) ->
  exists kept dropped,
    OastList.processOastList (inr sessions) sortSlice formatRFC3339 limit
    = inr (map (OastList.apiSession formatRFC3339) kept) /\
    Permutation sessions (kept ++ dropped) /\
    length kept
    = (if (0 <? limit)%Z
       then Z.to_nat (Z.min limit (Z.of_nat (length sessions)))
       else length sessions) /\
    StronglySorted
      (fun a b => (OastList.CreatedAt b <= OastList.CreatedAt a)%Z) kept /\
    (forall k d, In k kept -> In d dropped ->
                 (OastList.CreatedAt d <= OastList.CreatedAt k)%Z).
Proof.
  intros Hperm Hsorted.
  unfold OastList.processOastList.
  set (sorted := sortSlice OastList.createdAfter sessions) in *.
  assert (Hstrong :
    StronglySorted
      (fun a b => (OastList.CreatedAt b <= OastList.CreatedAt a)%Z) sorted).
  { apply Sorted_StronglySorted.
    - intros a b c Hab Hbc. lia.
    - eapply Sorted_ind with (P := fun l => Sorted _ l); [constructor | | exact Hsorted].
      intros a l _ IH Hhd. constructor; [exact IH |].
      destruct Hhd as [| b l' Hab]; constructor.
      unfold OastList.createdAfter, OastList.After in Hab.
      apply Z.ltb_ge in Hab. exact Hab. }
  destruct (limit_prefix limit sorted) as [Happ Hlen].
  set (kept := if (0 <? limit)%Z && (limit <? Z.of_nat (length sorted))%Z
               then firstn (Z.to_nat limit) sorted else sorted) in *.
  exists kept, (skipn (length kept) sorted).
  split; [reflexivity |].
  split; [rewrite Happ; exact Hperm |].
  split.
  { rewrite Hlen, (Permutation_length Hperm). reflexivity. }
  rewrite <- Happ in Hstrong.
  destruct (StronglySorted_app _ _ _ Hstrong) as [Hk Hcross].
  split; [exact Hk |].
  intros k d Hink Hind. apply (Hcross k d Hink Hind).
Qed.

(* ===================================================================== *)
(** ** The base64 tool                                                    *)
(* ===================================================================== *)

Lemma get_forallb (P : ascii -> bool) (s : string) :
  forallb P (list_ascii_of_string s) = true ->
  forall k c, String.get k s = Some c -> P c = true.
Proof.
  induction s as [| a s IH]; cbn; intros Hall k c Hget; [discriminate |].
  apply andb_prop in Hall as [Ha Hs].
  destruct k as [| k]; [inversion Hget; subst; exact Ha | eauto].
Qed.

Lemma encodeSextet_no_line_break (n : N) :
  Ascii.eqb (Base64.encodeSextet n) CR || Ascii.eqb (Base64.encodeSextet n) LF
  = false.
Proof.
  unfold Base64.encodeSextet.
  destruct (String.get (N.to_nat n) Base64.alphabet) as [c |] eqn:Hget;
    [| reflexivity].
  apply negb_true_iff.
  revert Hget.
  apply (get_forallb (fun c => negb (Ascii.eqb c CR || Ascii.eqb c LF))).
  reflexivity.
Qed.

Lemma dropLineBreaks_sextet (n : N) (s : string) :
  Encode.dropLineBreaks (String (Base64.encodeSextet n) s)
  = String (Base64.encodeSextet n) (Encode.dropLineBreaks s).
Proof. cbn [Encode.dropLineBreaks]. rewrite encodeSextet_no_line_break. reflexivity. Qed.

Lemma dropLineBreaks_encoded_upto (n : nat) :
  forall s, (String.length s <= n)%nat ->
    Encode.dropLineBreaks (Base64.EncodeToString s) = Base64.EncodeToString s.
Proof.
  induction n as [| n IH]; intros s Hlen.
  - destruct s; [reflexivity | cbn in Hlen; lia].
  - destruct s as [| a [| b [| c rest]]]; [reflexivity | | |].
    + cbn -[Base64.encodeSextet N.div N.modulo N.mul N.add Encode.dropLineBreaks].
      rewrite !dropLineBreaks_sextet. reflexivity.
    + cbn -[Base64.encodeSextet N.div N.modulo N.mul N.add Encode.dropLineBreaks].
      rewrite !dropLineBreaks_sextet. reflexivity.
    + cbn -[Base64.encodeSextet N.div N.modulo N.mul N.add Encode.dropLineBreaks].
      rewrite !dropLineBreaks_sextet.
      rewrite IH by (cbn in Hlen; lia). reflexivity.
Qed.

Lemma EncodeToString_nonempty (s : string) :
  s <> "" -> Base64.EncodeToString s <> "".
Proof.
  destruct s as [| a [| b [| c rest]]]; [congruence | | |]; intros _; discriminate.
Qed.

(** X14. Whatever encode_base64 accepts for encoding, it gives back on
    decoding: for a non-empty input the tool returns a non-empty text,
    and a second call with that text as input and decode set returns
    the original input. *)
Theorem encode_base64_round_trip (req1 : gmap string Mcp.ArgValue) :
  Mcp.GetString req1 "input" "" <> "" ->
  Mcp.GetBool req1 "decode" false = false ->
  exists text,
    Encode.handleEncodeBase64 req1 = Encode.Text text /\
    text <> "" /\
    forall req2 : gmap string Mcp.ArgValue,
      Mcp.GetString req2 "input" "" = text ->
      Mcp.GetBool req2 "decode" false = true ->
      Encode.handleEncodeBase64 req2
      = Encode.Text (Mcp.GetString req1 "input" "").
Proof.
  intros Hin Hdec.
  exists (Base64.EncodeToString (Mcp.GetString req1 "input" "")).
  pose proof (EncodeToString_nonempty _ Hin) as Hne.
  split.
  { unfold Encode.handleEncodeBase64. rewrite Hdec.
    apply String.eqb_neq in Hin. rewrite Hin. reflexivity. }
  split; [exact Hne |].
  intros req2 Hin2 Hdec2. unfold Encode.handleEncodeBase64.
  rewrite Hin2, Hdec2. apply String.eqb_neq in Hne. rewrite Hne.
  rewrite (dropLineBreaks_encoded_upto _ _ (le_n _)), Base64_round_trip.
  reflexivity.
Qed.


(* ===================================================================== *)
(** ** The properties above on sample calls                               *)
(* ===================================================================== *)

Lemma handlers_read_only_declared_arguments_witness :
  Replay.handleReplaySend lookupSample historySample headerModsSample
    jsonEditSample validateSample parseTargetSample "r3pl4y01"
    parseDurationSample sendSample parseStatusSample previewSample
    durationStringSample 77
    (<["comment" := Mcp.AString "not a parameter"]> replaySendSample) ∅
  = Replay.handleReplaySend lookupSample historySample headerModsSample
      jsonEditSample validateSample parseTargetSample "r3pl4y01"
      parseDurationSample sendSample parseStatusSample previewSample
      durationStringSample 77 replaySendSample ∅.
Proof.
  apply (proj1 (handlers_read_only_declared_arguments
                  lookupSample historySample headerModsSample jsonEditSample
                  validateSample parseTargetSample "r3pl4y01"
                  parseDurationSample sendSample parseStatusSample
                  previewSample durationStringSample 77
                  (string * ProxyRules.ProxyRuleInput) validateRuleTypeSample
                  listRulesSample addRuleSample updateRuleSample
                  deleteRuleSample (inr sessionsSample)
                  (@insertionSort OastList.Session) formatSample
                  unit createSessionSample (fun _ _ => inl sessionGoneSample)
                  (fun _ => Some sessionGoneSample)
                  unit (fun _ => inr tt) (fun s => s) (fun s => inr s)
                  (fun s => s) (fun s => s)
                  (<["comment" := Mcp.AString "not a parameter"]> replaySendSample)
                  replaySendSample)).
  intros k Hk. apply lookup_insert_ne. intros <-.
  cbn in Hk. repeat (destruct Hk as [Hk | Hk]; [discriminate Hk |]). exact Hk.
Defined.

Lemma required_arguments_are_enforced_witness :
  ProxyRules.handleProxyRuleDelete deleteRuleSample
    (<["rule_id" := Mcp.AString ""]> ∅)
  = ProxyRules.errorResult "rule_id is required".
Proof.
  refine (proj1 (proj2 (proj2 (proj2 (proj2 (proj2 (proj2 (proj2
            (required_arguments_are_enforced
               lookupSample historySample headerModsSample jsonEditSample
               validateSample parseTargetSample "r3pl4y01"
               parseDurationSample sendSample parseStatusSample
               previewSample durationStringSample 77
               (string * ProxyRules.ProxyRuleInput) validateRuleTypeSample
               addRuleSample updateRuleSample deleteRuleSample formatSample
               unit (fun _ _ => inl sessionGoneSample)
               (fun _ => Some sessionGoneSample)
               (fun s => s) (fun s => inr s) (fun s => s) (fun s => s)
               (<["rule_id" := Mcp.AString ""]> ∅) "rule_id" _)))))))) _).
  - reflexivity.
  - vm_compute. left. reflexivity.
Defined.

Lemma proxy_rule_update_validates_like_add_witness :
  ProxyRules.handleProxyRuleAdd _ validateRuleTypeSample addRuleSample
    proxyRuleUpdateSample
  = ProxyRules.jsonResult
      ("r2", {| ProxyRules.Label := ""; ProxyRules.RuleType := "request_header";
                ProxyRules.IsRegex := false; ProxyRules.Match := "";
                ProxyRules.Replace := "X-Test: 1" |}) /\
  ProxyRules.handleProxyRuleUpdate _ validateRuleTypeSample updateRuleSample
    proxyRuleUpdateSample
  = ProxyRules.jsonResult
      ("r1", {| ProxyRules.Label := ""; ProxyRules.RuleType := "request_header";
                ProxyRules.IsRegex := false; ProxyRules.Match := "";
                ProxyRules.Replace := "X-Test: 1" |}).
Proof.
  destruct (proxy_rule_update_validates_like_add
              (string * ProxyRules.ProxyRuleInput) validateRuleTypeSample
              proxyRuleUpdateSample)
    as [(message & Hadd & _) | (input & Hinput & _ & _ & _ & Hadd & Hupd)].
  - discriminate.
  - specialize (Hadd addRuleSample). vm_compute in Hadd. discriminate Hadd.
  - rewrite (Hadd addRuleSample), (Hupd updateRuleSample), Hinput.
    split; reflexivity.
Defined.

Lemma insertBy_Permutation {A : Type} (less : A -> A -> bool) (x : A) (l : list A) :
  Permutation (x :: l) (insertBy less x l).
Proof.
  induction l as [| y l IH]; cbn; [reflexivity |].
  destruct (less x y); [reflexivity |].
  rewrite perm_swap. apply perm_skip. exact IH.
Qed.

Lemma insertionSort_Permutation {A : Type} (less : A -> A -> bool) (l : list A) :
  Permutation l (insertionSort less l).
Proof.
  induction l as [| x l IH]; cbn; [reflexivity |].
  rewrite <- insertBy_Permutation. apply perm_skip. exact IH.
Qed.

Lemma oast_list_returns_the_newest_sessions_witness :
  exists kept dropped,
    OastList.processOastList (inr sessionsSample) (@insertionSort _) formatSample 2
    = inr (map (OastList.apiSession formatSample) kept) /\
    length kept = 2%nat /\
    Permutation sessionsSample (kept ++ dropped) /\
    (forall k d, In k kept -> In d dropped ->
                 (OastList.CreatedAt d <= OastList.CreatedAt k)%Z).
Proof.
  destruct (oast_list_returns_the_newest_sessions
              (@insertionSort _) formatSample sessionsSample 2)
    as (kept & dropped & Hres & Hperm & Hlen & _ & Hnewer).
  - apply insertionSort_Permutation.
  - vm_compute. repeat constructor.
  - exists kept, dropped. split; [exact Hres |].
    split; [exact Hlen | split; [exact Hperm | exact Hnewer]].
Defined.

Lemma encode_base64_round_trip_witness :
  Encode.handleEncodeBase64 encodeSample = Encode.Text "aGVsbG8=" /\
  Encode.handleEncodeBase64 decodeSample = Encode.Text "hello".
Proof.
  destruct (encode_base64_round_trip encodeSample) as (text & Henc & _ & Hdec).
  - discriminate.
  - reflexivity.
  - vm_compute in Henc. inversion Henc; subst text.
    split; [reflexivity |]. apply Hdec; reflexivity.
Defined.


(* ===================================================================== *)
(** ** Configuration file and sectool init                                *)
(* ===================================================================== *)

(** X15. loadOrCreateConfig never yields a configuration without a Burp
    MCP URL. It yields the defaults (version 0.0.1, the default URL, no
    preserved guides) exactly when reading the file fails because it is
    not there; a file that is there is returned as stored, with the
    default URL in the place of an empty one; and a file that cannot be
    read for another reason, or cannot be parsed, is an error, not
    replaced by the defaults. *)
Theorem load_or_create_config_outcomes
    (ReadFile : string -> Config.OsError + string)
    (Unmarshal : string -> string + Config.Config)
    (nowCreated : Z) (path : string) :
  match Initialize.loadOrCreateConfig ReadFile Unmarshal nowCreated path with
  | inr cfg =>
      Config.BurpMCPURL cfg <> "" /\
      ((exists err,
           ReadFile path = inl err /\ Config.IsNotExist err = true /\
           cfg = Config.DefaultConfig nowCreated "0.0.1") \/
       (exists data stored,
           ReadFile path = inr data /\ Unmarshal data = inr stored /\
           cfg = {| Config.ConfigVersion := Config.ConfigVersion stored;
                    Config.InitializedAt := Config.InitializedAt stored;
                    Config.LastInitMode := Config.LastInitMode stored;
                    Config.BurpMCPURL :=
                      if String.eqb (Config.BurpMCPURL stored) ""
                      then "http://127.0.0.1:9876/sse"
                      else Config.BurpMCPURL stored;
                    Config.PreserveGuides := Config.PreserveGuides stored |}))
  | inl e =>
      (exists err,
          ReadFile path = inl err /\ Config.IsNotExist err = false /\
          e = Initialize.LoadConfigFailed (Config.ReadFailed err)) \/
      (exists data message,
          ReadFile path = inr data /\ Unmarshal data = inl message /\
          e = Initialize.LoadConfigFailed (Config.UnmarshalFailed message))
  end.
Proof.
  unfold Initialize.loadOrCreateConfig, Config.Load.
  destruct (ReadFile path) as [err | data] eqn:Hread.
  - cbn. destruct (Config.IsNotExist err) eqn:Hne; cbn.
    + split; [discriminate |]. left. exists err. auto.
    + left. exists err. auto.
  - destruct (Unmarshal data) as [message | stored] eqn:Hparse.
    + cbn. right. exists data, message. auto.
    + destruct (String.eqb_spec (Config.BurpMCPURL stored) "") as [Hurl | Hurl].
      * split; [discriminate |]. right. exists data, stored.
        split; [reflexivity |]. split; [exact Hparse |].
        rewrite Hurl. reflexivity.
      * split; [exact Hurl |]. right. exists data, stored.
        split; [reflexivity |]. split; [exact Hparse |].
        apply String.eqb_neq in Hurl. rewrite Hurl.
        destruct stored; reflexivity.
Qed.

Section RunProperties.
Import Config Initialize.
Variable Getwd : OsError + string.
Variable NewServicePaths : string -> ServicePaths.
Variable CheckHealth : string -> bool.
Variable RemoveAll : string -> option OsError.
Variable MkdirAll : string -> Z -> option OsError.
Variable ReadFile : string -> OsError + string.
Variable Unmarshal : string -> string + Config.
Variable Stat : string -> bool.
Variable WriteFile : string -> string -> Z -> option OsError.
Variable MarshalIndent : Config -> string + string.
Variable Join : string -> string -> string.
Variable nowCreated nowWritten : Z.
Variable exploreGuide testReportGuide : string.

Ltac split_run :=
  repeat match goal with
         | |- context [match ?x with _ => _ end] =>
             lazymatch x with
             | context [match _ with _ => _ end] => fail
             | _ => destruct x eqn:?
             end
         | |- context [if ?x then _ else _] =>
             lazymatch x with
             | context [if _ then _ else _] => fail
             | _ => destruct x eqn:?
             end
         end; cbn [bindRun call ret fail app fst snd] in *.

(** X16. A run of sectool init that succeeds did exactly this, in this
    order: with --reset it stopped the service if that was healthy and
    removed the .sectool directory; it created the directory with mode
    0700; then either the loaded configuration preserves guides and the
    guide exists, and nothing was written; or it wrote the template of
    the mode to the guide with mode 0644 and then the configuration,
    stamped with the mode and the time, to the config path with mode
    0600; and it printed the closing message. *)
Theorem run_success_trace (mode : string) (reset : bool) (calls : list Call) :
  run Getwd NewServicePaths CheckHealth RemoveAll MkdirAll ReadFile Unmarshal
    Stat WriteFile MarshalIndent Join nowCreated nowWritten exploreGuide
    testReportGuide mode reset
  = (calls, inr tt) ->
  exists workDir template filename cfg,
    Getwd = inr workDir /\
    guideFor exploreGuide testReportGuide mode = Some (template, filename) /\
    loadOrCreateConfig ReadFile Unmarshal nowCreated
      (ConfigPath (NewServicePaths workDir)) = inr cfg /\
    let paths := NewServicePaths workDir in
    let outputPath := Join (SectoolDir paths) filename in
    (PreserveGuides cfg = true /\ Stat outputPath = true /\
     calls = resetCalls CheckHealth paths reset
             ++ [CallMkdirAll (SectoolDir paths) 448;
                 CallPrintSuccess outputPath false]) \/
    (PreserveGuides cfg && Stat outputPath = false /\
     exists data,
       MarshalIndent (stamped cfg mode nowWritten) = inr data /\
       calls = resetCalls CheckHealth paths reset
               ++ [CallMkdirAll (SectoolDir paths) 448;
                   CallWriteFile outputPath template 420;
                   CallWriteFile (ConfigPath paths) data 384;
                   CallPrintSuccess outputPath true]).
Proof.
  unfold run, performReset, writeGuideIfNeeded, Save, resetCalls, stamped.
  destruct Getwd as [err | workDir]; [discriminate |].
  intros H. exists workDir.
  destruct (guideFor exploreGuide testReportGuide mode) as [[template filename] |].
  2: { revert H. split_run. all: intros H; inversion H. }
  destruct (loadOrCreateConfig ReadFile Unmarshal nowCreated
              (ConfigPath (NewServicePaths workDir))) as [e | cfg].
  { revert H. split_run. all: intros H; inversion H. }
  exists template, filename, cfg.
  split; [reflexivity |]. split; [reflexivity |]. split; [reflexivity |].
  cbv zeta. revert H.
  destruct (PreserveGuides cfg && Stat (Join (SectoolDir (NewServicePaths workDir)) filename))
    eqn:Hskip.
  - apply andb_prop in Hskip as [Hp Hs].
    split_run. all: intros H; inversion H; subst; clear H.
    all: left; repeat split; try assumption; rewrite <- ?app_assoc; reflexivity.
  - split_run. all: intros H; inversion H; subst; clear H.
    all: right; split; [reflexivity |]; eexists; split; [reflexivity |];
      rewrite <- ?app_assoc; reflexivity.
Qed.

(** X17. run writes a file only when every earlier step succeeded and
    the guide is not preserved: the working directory is known, the
    reset (when asked for) did not fail, the directory was created, the
    configuration was loaded or created, the mode is known, and not
    both preserve_guides is set and the guide exists. Then it writes
    the guide of the mode first (its template, mode 0644), and after it
    the loaded configuration stamped with that mode (mode 0600) exactly
    when writing the guide succeeded and the configuration could be
    marshalled. In every other case it writes no file; so it never
    writes the configuration without having written the guide. *)
Theorem run_writes_guide_then_config (mode : string) (reset : bool) :
  let writes :=
    List.filter isWrite
      (fst (run Getwd NewServicePaths CheckHealth RemoveAll MkdirAll ReadFile
              Unmarshal Stat WriteFile MarshalIndent Join nowCreated nowWritten
              exploreGuide testReportGuide mode reset)) in
  (forall workDir cfg template filename,
      Getwd = inr workDir ->
      (reset = true ->
       match RemoveAll (SectoolDir (NewServicePaths workDir)) with
       | Some err => IsNotExist err = true
       | None => True
       end) ->
      MkdirAll (SectoolDir (NewServicePaths workDir)) 448 = None ->
      loadOrCreateConfig ReadFile Unmarshal nowCreated
        (ConfigPath (NewServicePaths workDir)) = inr cfg ->
      guideFor exploreGuide testReportGuide mode = Some (template, filename) ->
      PreserveGuides cfg
      && Stat (Join (SectoolDir (NewServicePaths workDir)) filename) = false ->
      writes
      = CallWriteFile (Join (SectoolDir (NewServicePaths workDir)) filename)
          template 420
        :: match WriteFile (Join (SectoolDir (NewServicePaths workDir)) filename)
                   template 420,
                 MarshalIndent (stamped cfg mode nowWritten) with
           | None, inr data =>
               [CallWriteFile (ConfigPath (NewServicePaths workDir)) data 384]
           | _, _ => []
           end) /\
  (writes <> [] ->
   exists workDir cfg template filename,
     Getwd = inr workDir /\
     (reset = true ->
      match RemoveAll (SectoolDir (NewServicePaths workDir)) with
      | Some err => IsNotExist err = true
      | None => True
      end) /\
     MkdirAll (SectoolDir (NewServicePaths workDir)) 448 = None /\
     loadOrCreateConfig ReadFile Unmarshal nowCreated
       (ConfigPath (NewServicePaths workDir)) = inr cfg /\
     guideFor exploreGuide testReportGuide mode = Some (template, filename) /\
     PreserveGuides cfg
     && Stat (Join (SectoolDir (NewServicePaths workDir)) filename) = false).
Proof.
  cbv zeta. split.
  - intros workDir cfg template filename Hwd Hrm Hmk Hcfg Hguide Hskip.
    unfold run, performReset, writeGuideIfNeeded, Save, stamped.
    rewrite Hwd, Hmk, Hcfg, Hguide. cbv zeta. rewrite Hskip.
    destruct reset.
    + specialize (Hrm eq_refl). revert Hrm.
      split_run; intros Hrm.
      all: rewrite ?List.filter_app; cbn [List.filter isWrite app fst].
      all: try reflexivity.
      all: rewrite Hrm in *; discriminate.
    + clear Hrm. split_run.
      all: rewrite ?List.filter_app; cbn [List.filter isWrite app fst].
      all: reflexivity.
  - unfold run, performReset, writeGuideIfNeeded, Save, stamped.
    destruct Getwd as [err | workDir] eqn:Hwd;
      [intros Hne; exfalso; apply Hne; reflexivity |].
    destruct (guideFor exploreGuide testReportGuide mode)
      as [[template filename] |] eqn:Hguide.
    2: { split_run.
         all: rewrite ?List.filter_app; cbn [List.filter isWrite app fst].
         all: intros Hne; exfalso; apply Hne; reflexivity. }
    destruct (loadOrCreateConfig ReadFile Unmarshal nowCreated
                (ConfigPath (NewServicePaths workDir))) as [e | cfg] eqn:Hcfg.
    { split_run.
      all: rewrite ?List.filter_app; cbn [List.filter isWrite app fst].
      all: intros Hne; exfalso; apply Hne; reflexivity. }
    cbv zeta.
    destruct (MkdirAll (SectoolDir (NewServicePaths workDir)) 448)
      as [mkErr |] eqn:Hmk.
    { split_run.
      all: rewrite ?List.filter_app; cbn [List.filter isWrite app fst].
      all: intros Hne; exfalso; apply Hne; reflexivity. }
    destruct (PreserveGuides cfg
              && Stat (Join (SectoolDir (NewServicePaths workDir)) filename))
      eqn:Hskip.
    { split_run.
      all: rewrite ?List.filter_app; cbn [List.filter isWrite app fst].
      all: intros Hne; exfalso; apply Hne; reflexivity. }
    destruct reset.
    + destruct (RemoveAll (SectoolDir (NewServicePaths workDir)))
        as [rmErr |] eqn:Hrm.
      * destruct (IsNotExist rmErr) eqn:Hne'.
        -- intros _. exists workDir, cfg, template, filename.
           repeat split; try assumption; try reflexivity.
           intros _. rewrite Hrm. exact Hne'.
        -- cbn [negb]. split_run.
           all: rewrite ?List.filter_app; cbn [List.filter isWrite app fst].
           all: intros Hne; exfalso; apply Hne; reflexivity.
      * intros _. exists workDir, cfg, template, filename.
        repeat split; try assumption; try reflexivity.
        intros _. rewrite Hrm. exact I.
    + intros _. exists workDir, cfg, template, filename.
      repeat split; try assumption; try reflexivity. intros H; discriminate H.
Qed.

(** X18. run looks at the mode only after the directory work: with an
    unknown mode it fails with the unknown-mode error and writes no
    file, but when the working directory, the reset, the directory
    creation and the configuration raise no error of their own, it has
    by then performed the reset (service stopped, .sectool removed) and
    created the directory. *)
Theorem run_rejects_unknown_mode_after_reset
    (mode : string) (reset : bool) (workDir : string) (cfg : Config) :
  mode <> "explore" -> mode <> "test-report" ->
  Getwd = inr workDir ->
  (reset = true ->
   match RemoveAll (SectoolDir (NewServicePaths workDir)) with
   | Some err => IsNotExist err = true
   | None => True
   end) ->
  MkdirAll (SectoolDir (NewServicePaths workDir)) 448 = None ->
  loadOrCreateConfig ReadFile Unmarshal nowCreated
    (ConfigPath (NewServicePaths workDir)) = inr cfg ->
  run Getwd NewServicePaths CheckHealth RemoveAll MkdirAll ReadFile Unmarshal
    Stat WriteFile MarshalIndent Join nowCreated nowWritten exploreGuide
    testReportGuide mode reset
  = (resetCalls CheckHealth (NewServicePaths workDir) reset
     ++ [CallMkdirAll (SectoolDir (NewServicePaths workDir)) 448],
     inl (UnknownInitMode mode)).
Proof.
  intros He Ht Hwd Hrm Hmk Hcfg.
  unfold run, performReset, resetCalls, guideFor.
  apply String.eqb_neq in He, Ht.
  rewrite Hwd, Hmk, Hcfg, He, Ht.
  destruct reset.
  - specialize (Hrm eq_refl).
    destruct (RemoveAll (SectoolDir (NewServicePaths workDir))) as [err |].
    + rewrite Hrm.
      destruct (CheckHealth (WorkDir (NewServicePaths workDir))); reflexivity.
    + destruct (CheckHealth (WorkDir (NewServicePaths workDir))); reflexivity.
  - reflexivity.
Qed.
End RunProperties.


Lemma run_success_trace_witness :
  exists data,
    fst (runSample "explore" true)
    = [Initialize.CallStop "/work"; Initialize.CallRemoveAll "/work/.sectool";
       Initialize.CallMkdirAll "/work/.sectool" 448;
       Initialize.CallWriteFile "/work/.sectool/AGENT-explore.md"
         "explore guide" 420;
       Initialize.CallWriteFile "/work/.sectool/config.json" data 384;
       Initialize.CallPrintSuccess "/work/.sectool/AGENT-explore.md" true].
Proof.
  destruct (run_success_trace (inr "/work") pathsSample (fun _ => true)
              (fun _ => None) (fun _ _ => None) readFileMissingSample
              unmarshalSample (fun _ => false) (fun _ _ _ => None) marshalSample
              joinSample 100 101 "explore guide" "report guide" "explore" true
              (fst (runSample "explore" true)))
    as (workDir & template & filename & cfg & Hwd & Hguide & Hcfg & Hcalls).
  - vm_compute. reflexivity.
  - inversion Hwd; subst workDir. vm_compute in Hguide.
    inversion Hguide; subst template filename.
    destruct Hcalls as [(_ & Hstat & _) | (_ & data & _ & Hcalls)];
      [discriminate Hstat |].
    exists data. rewrite Hcalls. reflexivity.
Defined.

Lemma run_rejects_unknown_mode_after_reset_witness :
  runSample "bogus" true
  = ([Initialize.CallStop "/work"; Initialize.CallRemoveAll "/work/.sectool";
      Initialize.CallMkdirAll "/work/.sectool" 448],
     inl (Initialize.UnknownInitMode "bogus")).
Proof.
  apply (run_rejects_unknown_mode_after_reset (inr "/work") pathsSample
           (fun _ => true) (fun _ => None) (fun _ _ => None)
           readFileMissingSample unmarshalSample (fun _ => false)
           (fun _ _ _ => None) marshalSample joinSample 100 101
           "explore guide" "report guide" "bogus" true "/work"
           (Config.DefaultConfig 100 "0.0.1")).
  - discriminate.
  - discriminate.
  - reflexivity.
  - intros _. exact I.
  - reflexivity.
  - reflexivity.
Defined.

(* ===================================================================== *)
(** ** Subcommand dispatch                                                *)
(* ===================================================================== *)

(** X19. The subcommands that the unknown-subcommand error of Parse
    advertises are the ones Parse knows: in package oast and in package
    service, a first argument is answered with that error exactly when
    it is neither in the advertised list nor one of the help flags
    [--help] and [-h]. *)
Theorem parse_unknown_iff_not_advertised
    (parseCreate parsePoll parseGet parseList parseDelete
       parseStatus parseStop parseLogs : list string -> option string)
    (name : string) (rest : list string) :
  (Cli.oastParse parseCreate parsePoll parseGet parseList parseDelete
     (name :: rest)
   = Cli.UnknownSubcommandError "oast" name Cli.oastSubcommands
   <-> ~ In name Cli.oastSubcommands /\ name <> "--help" /\ name <> "-h") /\
  (Cli.serviceParse parseStatus parseStop parseLogs (name :: rest)
   = Cli.UnknownSubcommandError "service" name Cli.serviceSubcommands
   <-> ~ In name Cli.serviceSubcommands /\ name <> "--help" /\ name <> "-h").
Proof.
  unfold Cli.oastParse, Cli.serviceParse, Cli.oastSubcommands,
    Cli.serviceSubcommands.
  split.
  - destruct (String.eqb_spec name "create");
      [subst; split; [discriminate | cbn; tauto] |].
    destruct (String.eqb_spec name "poll");
      [subst; split; [discriminate | cbn; tauto] |].
    destruct (String.eqb_spec name "get");
      [subst; split; [discriminate | cbn; tauto] |].
    destruct (String.eqb_spec name "list");
      [subst; split; [discriminate | cbn; tauto] |].
    destruct (String.eqb_spec name "delete");
      [subst; split; [discriminate | cbn; tauto] |].
    destruct (String.eqb_spec name "help");
      [subst; split; [discriminate | cbn; tauto] |].
    destruct (String.eqb_spec name "--help");
      [subst; split; [discriminate | cbn; tauto] |].
    destruct (String.eqb_spec name "-h");
      [subst; split; [discriminate | cbn; tauto] |].
    cbn. split; [| reflexivity]. intros _.
    repeat split; try assumption. intuition congruence.
  - destruct (String.eqb_spec name "status");
      [subst; split; [discriminate | cbn; tauto] |].
    destruct (String.eqb_spec name "stop");
      [subst; split; [discriminate | cbn; tauto] |].
    destruct (String.eqb_spec name "logs");
      [subst; split; [discriminate | cbn; tauto] |].
    destruct (String.eqb_spec name "help");
      [subst; split; [discriminate | cbn; tauto] |].
    destruct (String.eqb_spec name "--help");
      [subst; split; [discriminate | cbn; tauto] |].
    destruct (String.eqb_spec name "-h");
      [subst; split; [discriminate | cbn; tauto] |].
    cbn. split; [| reflexivity]. intros _.
    repeat split; try assumption. intuition congruence.
Qed.


(* ===================================================================== *)
(** ** OAST sessions over HTTP and over MCP                               *)
(* ===================================================================== *)

Lemma GetString_empty (k d : string) : Mcp.GetString ∅ k d = d.
Proof. unfold Mcp.GetString. rewrite lookup_empty. reflexivity. Qed.

Lemma GetInt_empty (k : string) (d : Z) : Mcp.GetInt ∅ k d = d.
Proof. unfold Mcp.GetInt. rewrite lookup_empty. reflexivity. Qed.

Section OastTransports.
Import OastApi.
Variable Details : Type.
Variable CreateSession : string -> OastList.BackendError + OastList.Session.
Variable GetEvent : string -> string -> OastList.BackendError + Event Details.
Variable ListSessions : OastList.BackendError + list OastList.Session.
Variable DeleteSession : string -> option OastList.BackendError.
Variable sortSlice :
  (OastList.Session -> OastList.Session -> bool) ->
  list OastList.Session -> list OastList.Session.
Variable formatRFC3339 : Z -> string.

(** X20. Creating, getting, listing and deleting OAST sessions behave
    alike over HTTP and over MCP. For the same fields, and against the
    same backend, the HTTP handler answers 200 with some data exactly
    when the MCP handler returns that data, and answers with a 4xx or
    5xx status exactly when the MCP handler returns an error result;
    and an empty HTTP body is treated like an MCP call without
    arguments. *)
Theorem oast_transports_agree (req : gmap string Mcp.ArgValue) :
  (sameAnswer
     (handleOastCreate CreateSession
        (DecodeOK {| CreateLabel := Mcp.GetString req "label" "" |}))
     (mcpHandleOastCreate CreateSession req) /\
   sameAnswer
     (handleOastGet Details GetEvent formatRFC3339
        (DecodeOK {| GetOastID := Mcp.GetString req "oast_id" "";
                     GetEventID := Mcp.GetString req "event_id" "" |}))
     (mcpHandleOastGet Details GetEvent formatRFC3339 req) /\
   sameAnswer
     (handleOastList ListSessions sortSlice formatRFC3339
        (DecodeOK {| ListLimit := Mcp.GetInt req "limit" 0 |}))
     (OastList.handleOastList ListSessions sortSlice formatRFC3339 req) /\
   sameAnswer
     (handleOastDelete DeleteSession
        (DecodeOK {| DeleteOastID := Mcp.GetString req "oast_id" "" |}))
     (mcpHandleOastDelete DeleteSession req)) /\
  (sameAnswer (handleOastCreate CreateSession DecodeEOF)
     (mcpHandleOastCreate CreateSession ∅) /\
   sameAnswer (handleOastGet Details GetEvent formatRFC3339 DecodeEOF)
     (mcpHandleOastGet Details GetEvent formatRFC3339 ∅) /\
   sameAnswer (handleOastList ListSessions sortSlice formatRFC3339 DecodeEOF)
     (OastList.handleOastList ListSessions sortSlice formatRFC3339 ∅) /\
   sameAnswer (handleOastDelete DeleteSession DecodeEOF)
     (mcpHandleOastDelete DeleteSession ∅)).
Proof.
  unfold handleOastCreate, mcpHandleOastCreate, handleOastGet, mcpHandleOastGet,
    handleOastList, OastList.handleOastList, handleOastDelete,
    mcpHandleOastDelete, OastList.processOastList.
  cbn [CreateLabel GetOastID GetEventID ListLimit DeleteOastID].
  rewrite !GetString_empty, !GetInt_empty.
  repeat split.
  all: repeat match goal with
              | |- context [match ?x with _ => _ end] =>
                  lazymatch x with
                  | context [match _ with _ => _ end] => fail
                  | _ => destruct x eqn:?
                  end
              | |- context [if ?x then _ else _] =>
                  lazymatch x with
                  | context [if _ then _ else _] => fail
                  | _ => destruct x eqn:?
                  end
              end.
  all: cbn; try discriminate; try (split; [reflexivity | congruence]);
    try (unfold StatusBadRequest, StatusNotFound, StatusInternalServerError,
           StatusGatewayTimeout; lia).
Qed.
End OastTransports.

